(** * Walmart Order Exporter: the content script, embedded and verified

    A shallow embedding of [src/content/content.js] (class
    [WalmartOrderExporter]): the CSV serializer, the item extractors, the
    page-level collector, the detail fetcher and the export loop.

    Conventions of the embedding.
    - A JavaScript string is a [string]; a character stands for one code unit
      in the range 0..255.  All patterns of the source are ASCII, so the case
      folding of the [i] flag only identifies [a-z] with [A-Z].
    - A JavaScript value of unknown shape (parsed JSON, a field of an order
      record) is a [JValue].
    - A regular expression literal of the source is a term of [Regex.re],
      run by a backtracking matcher with the priorities of the host engine
      (leftmost start, left alternative first, greedy repetition).
    - What the host platform computes (number formatting, [parseFloat],
      [Date]) is a field of the record [Host], a parameter of the model.
    - The DOM is modelled by what the queries of the source return on it. *)

From Stdlib Require Import String Ascii List ZArith QArith Bool Arith Lia.
Import ListNotations.

Set Warnings "-register-all".
Close Scope Q_scope.
Open Scope list_scope.
Open Scope string_scope.
Open Scope nat_scope.

(** ** Strings *)

Module JSString.

Definition chars (s : string) : list ascii := list_ascii_of_string s.
Definition text (l : list ascii) : string := string_of_list_ascii l.

Definition code (c : ascii) : nat := nat_of_ascii c.

Definition comma : ascii := ","%char.
Definition dquote : ascii := ascii_of_nat 34.
Definition newline : ascii := ascii_of_nat 10.
Definition dollar : ascii := "$"%char.

Definition is_digit (c : ascii) : bool :=
  (48 <=? code c) && (code c <=? 57).

Definition is_lower (c : ascii) : bool :=
  (97 <=? code c) && (code c <=? 122).

Definition is_upper (c : ascii) : bool :=
  (65 <=? code c) && (code c <=? 90).

(** [\w] *)
Definition is_word (c : ascii) : bool :=
  is_digit c || is_lower c || is_upper c || (code c =? 95).

(** [\s]: white space and line terminators, in the range 0..255. *)
Definition is_space (c : ascii) : bool :=
  ((9 <=? code c) && (code c <=? 13)) || (code c =? 32) || (code c =? 160).

(** What [.] refuses. *)
Definition is_line_terminator (c : ascii) : bool :=
  (code c =? 10) || (code c =? 13).

Definition upper (c : ascii) : ascii :=
  if is_lower c then ascii_of_nat (code c - 32) else c.

Definition char_eq (ci : bool) (a b : ascii) : bool :=
  if ci then Ascii.eqb (upper a) (upper b) else Ascii.eqb a b.

(** [s.includes(c)] for a one-character needle. *)
Definition includes_char (c : ascii) (s : string) : bool :=
  existsb (Ascii.eqb c) (chars s).

Fixpoint starts_with_l (p s : list ascii) : bool :=
  match p, s with
  | [], _ => true
  | _ :: _, [] => false
  | a :: p', b :: s' => Ascii.eqb a b && starts_with_l p' s'
  end.

Fixpoint includes_l (p s : list ascii) : bool :=
  starts_with_l p s ||
  match s with
  | [] => false
  | _ :: s' => includes_l p s'
  end.

(** [s.startsWith(p)] and [s.includes(p)]. *)
Definition startsWith (s p : string) : bool := starts_with_l (chars p) (chars s).
Definition includes (s p : string) : bool := includes_l (chars p) (chars s).

Fixpoint drop_space (l : list ascii) : list ascii :=
  match l with
  | c :: l' => if is_space c then drop_space l' else l
  | [] => []
  end.

(** [s.trim()] *)
Definition trim (s : string) : string :=
  text (rev (drop_space (rev (drop_space (chars s))))).

(** [parts.join(sep)] *)
Fixpoint join (sep : string) (parts : list string) : string :=
  match parts with
  | [] => EmptyString
  | [p] => p
  | p :: rest => p ++ sep ++ join sep rest
  end.

(** [s.split('\n')] *)
Fixpoint split_lines_l (cur : list ascii) (l : list ascii) : list string :=
  match l with
  | [] => [text (rev cur)]
  | c :: l' =>
      if Ascii.eqb c newline then text (rev cur) :: split_lines_l [] l'
      else split_lines_l (c :: cur) l'
  end.

Definition split_lines (s : string) : list string := split_lines_l [] (chars s).

(** The integer a run of decimal digits stands for. *)
Fixpoint digits_value (acc : N) (l : list ascii) : N :=
  match l with
  | [] => acc
  | c :: l' => digits_value (acc * 10 + N.of_nat (code c - 48)) l'
  end.

Definition slice (from to : nat) (s : string) : string :=
  text (firstn (to - from) (skipn from (chars s))).

End JSString.

(** ** Regular expressions *)

Module Regex.
Import JSString.

Inductive re : Type :=
| Eps
| Lit (s : string)
| Cls (p : ascii -> bool)
| Seq (a b : re)
| Alt (a b : re)
| Rep (lo : nat) (hi : option nat) (a : re)
| Bol
| Eol
| Grp (n : nat) (a : re).

Record cursor : Type := {
  pos : nat;
  rest : list ascii;
  caps : list (nat * string)
}.

Definition advance (n : nat) (c : cursor) : cursor :=
  {| pos := pos c + n; rest := skipn n (rest c); caps := caps c |}.

Fixpoint lit_ok (ci : bool) (p s : list ascii) : bool :=
  match p, s with
  | [], _ => true
  | _ :: _, [] => false
  | a :: p', b :: s' => char_eq ci a b && lit_ok ci p' s'
  end.

Definition set_cap (n : nat) (from to_ : cursor) : cursor :=
  {| pos := pos to_;
     rest := rest to_;
     caps := (n, text (firstn (pos to_ - pos from) (rest from))) :: caps to_ |}.

Definition hi_zero (hi : option nat) : bool :=
  match hi with Some 0 => true | _ => false end.

Definition hi_pred (hi : option nat) : option nat :=
  match hi with Some h => Some (Nat.pred h) | None => None end.

Section Matcher.
Variable ci : bool.

(** Greedy repetition: one more iteration is tried first; an iteration that
    is not required and consumes nothing is refused. *)
Fixpoint rep_loop (fuel : nat)
    (step : cursor -> (cursor -> option cursor) -> option cursor)
    (lo : nat) (hi : option nat) (c : cursor)
    (k : cursor -> option cursor) : option cursor :=
  match fuel with
  | 0 => if Nat.eqb lo 0 then k c else None
  | S fuel' =>
      if hi_zero hi then k c
      else
        match step c (fun c' =>
                if Nat.eqb lo 0 && (pos c' <=? pos c) then None
                else rep_loop fuel' step (Nat.pred lo) (hi_pred hi) c' k) with
        | Some r => Some r
        | None => if Nat.eqb lo 0 then k c else None
        end
  end.

Fixpoint m (r : re) (c : cursor) (k : cursor -> option cursor)
    : option cursor :=
  match r with
  | Eps => k c
  | Lit s =>
      if lit_ok ci (chars s) (rest c) then k (advance (String.length s) c)
      else None
  | Cls p =>
      match rest c with
      | x :: _ => if p x then k (advance 1 c) else None
      | [] => None
      end
  | Seq a b => m a c (fun c' => m b c' k)
  | Alt a b =>
      match m a c k with
      | Some r => Some r
      | None => m b c k
      end
  | Rep lo hi a => rep_loop (lo + List.length (rest c) + 1) (m a) lo hi c k
  | Bol => if Nat.eqb (pos c) 0 then k c else None
  | Eol => match rest c with [] => k c | _ :: _ => None end
  | Grp n a => m a c (fun c' => k (set_cap n c c'))
  end.

Fixpoint search (r : re) (p : nat) (l : list ascii) : option (nat * cursor) :=
  match m r {| pos := p; rest := l; caps := [] |} Some with
  | Some c => Some (p, c)
  | None =>
      match l with
      | [] => None
      | _ :: l' => search r (S p) l'
      end
  end.

End Matcher.

(** The result of [s.match(r)] for a pattern without the [g] flag. *)
Record found : Type := {
  f_start : nat;
  f_end : nat;
  f_whole : string;
  f_caps : list (nat * string)
}.

Definition exec (ci : bool) (r : re) (s : string) : option found :=
  match search ci r 0 (chars s) with
  | Some (st, c) =>
      Some {| f_start := st;
              f_end := pos c;
              f_whole := slice st (pos c) s;
              f_caps := caps c |}
  | None => None
  end.

(** [r.test(s)] *)
Definition test (ci : bool) (r : re) (s : string) : bool :=
  match exec ci r s with Some _ => true | None => false end.

(** [m[n]]: [None] stands for [undefined], a group that did not take part. *)
Fixpoint cap_lookup (n : nat) (l : list (nat * string)) : option string :=
  match l with
  | [] => None
  | (i, v) :: l' => if Nat.eqb i n then Some v else cap_lookup n l'
  end.

Definition group (n : nat) (f : found) : option string := cap_lookup n (f_caps f).

Definition group1 (f : found) : string :=
  match group 1 f with Some v => v | None => EmptyString end.

(** [s.replace(r, '')] for a pattern without the [g] flag. *)
Definition remove_first (ci : bool) (r : re) (s : string) : string :=
  match exec ci r s with
  | Some f => slice 0 (f_start f) s ++ slice (f_end f) (String.length s) s
  | None => s
  end.

(** Shorthands for the constructs the patterns of the source use. *)
Definition seqs (l : list re) : re := fold_right Seq Eps l.
Definition alts (l : list re) : re :=
  match l with
  | [] => Eps
  | a :: l' => fold_left Alt l' a
  end.
Definition star (a : re) : re := Rep 0 None a.
Definition plus (a : re) : re := Rep 1 None a.
Definition opt (a : re) : re := Rep 0 (Some 1) a.
Definition digit : re := Cls is_digit.
Definition space : re := Cls is_space.
Definition word : re := Cls is_word.
Definition dot : re := Cls (fun c => negb (is_line_terminator c)).
Definition chr (a : ascii) : re := Cls (Ascii.eqb a).

End Regex.

(** ** JavaScript values *)

Import JSString.

Inductive JValue : Type :=
| JUndef
| JNull
| JBool (b : bool)
| JNum (q : Q)
| JNaN
| JStr (s : string)
| JArr (elems : list JValue)
| JObj (fields : list (string * JValue)).

(** What the host platform computes and the source only calls. *)
Record Host : Type := {
  (** [String(x)] for a number [x] *)
  numToString : Q -> string;
  (** [x.toFixed(2)] *)
  toFixed2 : Q -> string;
  (** [parseFloat(s)]; [None] is [NaN] *)
  parseFloat : string -> option Q;
  (** [parseInt(s)], a double like every number of the platform; [None] is
      [NaN] *)
  parseInt : string -> option Q;
  (** the numeric value of a string in a comparison; [None] is [NaN] *)
  stringToNumber : string -> option Q;
  (** [new Date(s).getTime()] in milliseconds; [None] is an invalid date *)
  dateParse : string -> option Z;
  (** [new Date(x)] for a number [x] followed by
      [toLocaleDateString('en-US', {month: 'short', day: 'numeric', year: 'numeric'})];
      [None] is an invalid date *)
  dateOfNumber : Q -> option string;
  (** the same rendering of a date given as a string *)
  dateOfString : string -> option string;
  (** the same rendering of [new Date()] *)
  todayLabel : string;
  (** [new Date().getFullYear()] as text *)
  currentYear : string;
  (** [new Date().getTime()] when the run starts *)
  now : Z;
  (** the time value of [d] after [d.setDate(d.getDate() - n)] *)
  daysBefore : Z -> Z -> Z
}.

Definition num_of_nat (n : nat) : Q := inject_Z (Z.of_nat n).
Definition num_of_N (n : N) : Q := inject_Z (Z.of_N n).

(** [!!v] *)
Definition truthy (v : JValue) : bool :=
  match v with
  | JUndef | JNull | JNaN => false
  | JBool b => b
  | JNum q => negb (Qeq_bool q 0)
  | JStr s => negb (String.eqb s EmptyString)
  | JArr _ | JObj _ => true
  end.

(** [a || b] *)
Definition js_or (a b : JValue) : JValue := if truthy a then a else b.

Notation "a 'or_else' b" := (js_or a b) (at level 51, right associativity).

Inductive JType : Type :=
| TUndefined | TObject | TBoolean | TNumber | TString.

(** [typeof v] *)
Definition typeof (v : JValue) : JType :=
  match v with
  | JUndef => TUndefined
  | JNull | JArr _ | JObj _ => TObject
  | JBool _ => TBoolean
  | JNum _ | JNaN => TNumber
  | JStr _ => TString
  end.

Fixpoint assoc (k : string) (l : list (string * JValue)) : JValue :=
  match l with
  | [] => JUndef
  | (k', v) :: l' => if String.eqb k k' then v else assoc k l'
  end.

(** [v?.k]: the own property [k] of an object, [undefined] elsewhere.  None
    of the keys the source reads is a property of a primitive or an array. *)
Definition get (v : JValue) (k : string) : JValue :=
  match v with
  | JObj l => assoc k l
  | _ => JUndef
  end.

(** [v?.k1?.k2] and so on *)
Definition path (v : JValue) (ks : list string) : JValue := fold_left get ks v.

Section Values.
Variable host : Host.

(** [String(v)] *)
Fixpoint toStr (v : JValue) : string :=
  match v with
  | JUndef => "undefined"
  | JNull => "null"
  | JBool true => "true"
  | JBool false => "false"
  | JNum q => numToString host q
  | JNaN => "NaN"
  | JStr s => s
  | JArr l =>
      join "," (map (fun e => match e with
                              | JUndef | JNull => EmptyString
                              | _ => toStr e
                              end) l)
  | JObj _ => "[object Object]"
  end.

(** How [Array.prototype.join] renders one element. *)
Definition join_elem (v : JValue) : string :=
  match v with
  | JUndef | JNull => EmptyString
  | _ => toStr v
  end.

(** [SameValueZero], the equality of [Set.prototype.has].  Objects and arrays
    are compared by reference, and every object reached in a parsed document
    is a different reference. *)
Definition same_value_zero (a b : JValue) : bool :=
  match a, b with
  | JUndef, JUndef | JNull, JNull | JNaN, JNaN => true
  | JBool x, JBool y => Bool.eqb x y
  | JNum x, JNum y => Qeq_bool x y
  | JStr x, JStr y => String.eqb x y
  | _, _ => false
  end.

(** [seen.has(v)] *)
Definition has (seen : list JValue) (v : JValue) : bool :=
  existsb (same_value_zero v) seen.

End Values.

(** ** The record model *)

Record Item : Type := {
  name : JValue;
  quantity : JValue;
  price : JValue;
  priceValue : JValue
}.

Module StoreLocation.
Record t : Type := { name : string; address : string }.
Definition empty : t := {| name := EmptyString; address := EmptyString |}.
End StoreLocation.

Inductive OrderType : Type := online | store.

Record Order : Type := {
  orderId : string;
  orderNumber : JValue;
  orderType : OrderType;
  orderDate : string;
  status : JValue;
  items : list Item;
  subtotal : JValue;
  tax : JValue;
  total : JValue;
  associateDiscount : JValue;
  driverTip : JValue;
  deliveryFee : JValue;
  expressFee : JValue;
  storeLocation : option StoreLocation.t;
  error : option string
}.

(** ** CSV serializer *)

Section CSV.
Variable host : Host.

Definition replace_quote (c : ascii) : list ascii :=
  if Ascii.eqb c dquote then [dquote; dquote] else [c].

(** [str.replace] of every double quote by two of them *)
Definition double_quotes (s : string) : string :=
  text (flat_map replace_quote (chars s)).

Definition needs_quoting (s : string) : bool :=
  includes_char comma s || includes_char dquote s || includes_char newline s.

Definition quoted (s : string) : string :=
  String dquote (double_quotes s ++ String dquote EmptyString).

Definition escapeCSV (value : JValue) : string :=
  match value with
  | JNull | JUndef => EmptyString
  | _ =>
      let str := toStr host value in
      if needs_quoting str then quoted str else str
  end.

Definition formatStoreLocation (storeLocation : option StoreLocation.t) : string :=
  match storeLocation with
  | None => EmptyString
  | Some l =>
      let parts :=
        (if String.eqb (StoreLocation.name l) EmptyString then [] else [StoreLocation.name l]) ++
        (if String.eqb (StoreLocation.address l) EmptyString then [] else [StoreLocation.address l])
      in join " - " parts
  end%list.

Definition detailed_header : list string :=
  ["Order Number"; "Order Date"; "Status"; "Item Name"; "Item Price";
   "Quantity"; "Subtotal"; "Tax"; "Order Total"; "Order Type";
   "Associate Discount"; "Driver Tip"; "Delivery Fee"; "Express Fee";
   "Store Location"].

Definition summary_header : list string :=
  ["Order Number"; "Order Date"; "Status"; "Item Count"; "Subtotal"; "Tax";
   "Order Total"; "Order Type"; "Associate Discount"; "Driver Tip";
   "Delivery Fee"; "Express Fee"; "Store Location"].

Definition orderTypeLabel (order : Order) : string :=
  match orderType order with store => "Store" | online => "Online" end.

(** The cells every layout ends with. *)
Definition order_tail (order : Order) : list string :=
  [escapeCSV (subtotal order);
   escapeCSV (tax order);
   escapeCSV (total order);
   escapeCSV (JStr (orderTypeLabel order));
   escapeCSV (associateDiscount order or_else JStr EmptyString);
   escapeCSV (driverTip order or_else JStr EmptyString);
   escapeCSV (deliveryFee order or_else JStr EmptyString);
   escapeCSV (expressFee order or_else JStr EmptyString);
   escapeCSV (JStr (formatStoreLocation (storeLocation order)))].

Definition order_head (order : Order) : list string :=
  [escapeCSV (orderNumber order or_else JStr (orderId order));
   escapeCSV (JStr (orderDate order));
   escapeCSV (status order)].

Definition item_cells (order : Order) (item : Item) : list string :=
  (order_head order ++
   [escapeCSV (name item); escapeCSV (price item); join_elem host (quantity item)] ++
   order_tail order)%list.

Definition no_item_cells (order : Order) : list string :=
  (order_head order ++ ["No items found"; EmptyString; EmptyString] ++ order_tail order)%list.

Definition summary_cells (order : Order) : list string :=
  (order_head order ++
   [join_elem host (JNum (num_of_nat (List.length (items order))))] ++
   order_tail order)%list.

(** The cells pushed for one order, row by row. *)
Definition order_cells (includeItems : bool) (order : Order) : list (list string) :=
  if includeItems then
    match items order with
    | [] => [no_item_cells order]
    | _ :: _ => map (item_cells order) (items order)
    end
  else [summary_cells order].

(** The array [rows] of [generateCSV], before each row is joined. *)
Definition csv_table (includeItems : bool) (orders : list Order) : list (list string) :=
  (if includeItems then detailed_header else summary_header)
    :: flat_map (order_cells includeItems) orders.

Definition csv_rows (includeItems : bool) (orders : list Order) : list string :=
  map (join ",") (csv_table includeItems orders).

Definition generateCSV (includeItems : bool) (orders : list Order) : string :=
  join (String newline EmptyString) (csv_rows includeItems orders).

End CSV.

(** ** Name validity filter *)

Import Regex.

(** [/^text/i] *)
Definition starts_i (s : string) : re := seqs [Bol; Lit s].

Definition invalidPatterns : list re :=
  map starts_i
    ["Subtotal"; "Total"; "Tax"; "Savings"; "Associate discount";
     "Driver tip"; "Payment method"; "Delivery"; "Address"; "Order#";
     "Complete,"; "Current,"; "Not complete"; "Placed"; "Preparing";
     "On the way"; "Delivered"; "Return eligible"; "How can we help";
     "Need more help"; "Start a return"; "Track shipment"; "View delivery";
     "Charge history"; "Walmart+"; "Free delivery"]
  ++ [seqs [Bol; Lit "Express"; star space; chr dollar]]
  ++ map starts_i
    ["Temporary hold"; "Your payment"; "Ending in";
     "TC#"; "Store purchase"; "Purchased at"; "Receipt"; "Transaction";
     "Store:"; "Walmart Supercenter"; "Walmart Neighborhood"; "Cash back";
     "Change due"; "Tender"]
  ++ [alts [starts_i "VISA"; Lit "MASTERCARD"; Lit "AMEX"; Lit "DISCOVER"];
      seqs [Bol; plus digit; plus space; Lit "item"; opt (Lit "s"); Eol]].

Definition isValidProductName (name : string) : bool :=
  if String.eqb name EmptyString || (String.length name <? 5) || (200 <? String.length name)
  then false
  else negb (existsb (fun pattern => test true pattern name) invalidPatterns).

(** ** Item extractors *)

(** [/\$(\d+\.\d{2})/] *)
Definition price_re : re :=
  seqs [chr dollar; Grp 1 (seqs [plus digit; chr "."; Rep 2 (Some 2) digit])].

(** [/Qty\s*(\d+)/i] *)
Definition qty_re : re := seqs [Lit "Qty"; star space; Grp 1 (plus digit)].

(** [/,\s*quantity\s+(\d+)$/i] *)
Definition alt_qty_re : re :=
  seqs [chr comma; star space; Lit "quantity"; plus space; Grp 1 (plus digit); Eol].

(** [/,\s*quantity\s+\d+$/i] *)
Definition alt_qty_strip_re : re :=
  seqs [chr comma; star space; Lit "quantity"; plus space; plus digit; Eol].

(** The pattern of a receipt line: [^(.{10,80})\s+\$(\d+\.\d{2})], then an
    optional group made of [\s*], an optional [Qty\s*] and the group [(\d+)]. *)
Definition receipt_line_re : re :=
  seqs [Bol; Grp 1 (Rep 10 (Some 80) dot); plus space; chr dollar;
        Grp 2 (seqs [plus digit; chr "."; Rep 2 (Some 2) digit]);
        opt (seqs [star space; opt (seqs [Lit "Qty"; star space]);
                   Grp 3 (plus digit)])].

Definition skipPatterns : list re :=
  [starts_i "Walmart";
   seqs [Bol; Lit "Pro Seller"; Eol];
   Lit "Privacy";
   starts_i "star";
   Lit "rating";
   Lit "logo";
   Lit "icon";
   Lit "avatar"].

(** What a call that may throw comes back with. *)
Inductive Result (A : Type) : Type :=
| Ok (a : A)
| Throw (message : string).

Arguments Ok {A} a.
Arguments Throw {A} message.

(** The accumulator of one extractor pass: [items] and the set [seen]. *)
Definition Acc : Type := (list Item * list JValue)%type.

Definition push (acc : Acc) (item : Item) : Acc :=
  (fst acc ++ [item], snd acc ++ [name item])%list.

(** The text after the dollar sign, as [price.replace('$', '')] leaves it. *)
Definition drop_dollar (p : string) : string :=
  match p with
  | String c rest => if Ascii.eqb c dollar then rest else p
  | EmptyString => p
  end.

Section Extractors.
Variable host : Host.

Definition float_value (s : string) : JValue :=
  match parseFloat host s with
  | Some q => JNum q
  | None => JNaN
  end.

(** [price ? parseFloat(price.replace('$', '')) : 0] *)
Definition price_value (price : string) : JValue :=
  if String.eqb price EmptyString then JNum 0 else float_value (drop_dollar price).

Definition priced (f : option found) (price : string) : string :=
  match f with
  | Some fd => "$" ++ group1 fd
  | None => price
  end.

Definition int_value (s : string) : JValue :=
  match parseInt host s with
  | Some q => JNum q
  | None => JNaN
  end.

(** [quantity = parseInt(qtyMatch[1])] when the pattern matched *)
Definition counted (f : option found) (quantity : JValue) : JValue :=
  match f with
  | Some fd => int_value (group1 fd)
  | None => quantity
  end.

(** *** Image alt text (list page) *)

(** A container of the list page, as its queries see it. *)
Record Element : Type := {
  testid : option string;
  className : string;
  tagName : string;
  innerText : string;
  (** [href] of the anchors below the element, in document order *)
  links : list string;
  (** [alt] of the images below the element that carry one *)
  imgs : list string
}.

Definition container_step (acc : Acc) (alt : string) : Acc :=
  let name0 := trim alt in
  if String.eqb name0 EmptyString || (String.length name0 <? 10) || (300 <? String.length name0)
  then acc
  else if existsb (fun pattern => test true pattern name0) skipPatterns then acc
  else
    let qtyMatch := exec true alt_qty_re name0 in
    let quantity := counted qtyMatch (JNum 1) in
    let name1 :=
      match qtyMatch with
      | Some _ => trim (remove_first true alt_qty_strip_re name0)
      | None => name0
      end in
    if negb (has (snd acc) (JStr name1)) && isValidProductName name1
    then push acc {| name := JStr name1;
                     quantity := quantity;
                     price := JStr EmptyString;
                     priceValue := JNum 0 |}
    else acc.

Definition extractItemsFromOrderContainer (container : option Element) : list Item :=
  match container with
  | None => []
  | Some c => fst (fold_left container_step (imgs c) ([], []))
  end.

(** *** DOM of a detail page *)

(** An ancestor of a product link. *)
Record Ancestor : Type := {
  a_innerText : string;
  (** [textContent] of the first [[data-testid=line-price]] below it *)
  a_linePrice : option string
}.

Record Link : Type := {
  l_textContent : string;
  (** [parentElement], its parent, and so on up to the root *)
  l_ancestors : list Ancestor;
  (** [innerText] of [link.closest('div') || link.parentElement] *)
  l_nearText : option string
}.

Record TextElement : Type := {
  t_textContent : string;
  (** [innerText] of [parentElement] *)
  t_parentText : option string
}.

Record Document : Type := {
  (** the anchors whose [href] contains [/ip/] *)
  productLinks : list Link;
  (** the anchors with a [data-testid], or a class containing [product] or [item] *)
  structLinks : list Link;
  (** [span, div, p] *)
  textElements : list TextElement;
  (** [innerText] of [main] *)
  mainText : option string;
  (** [JSON.parse] of the text of [script#__NEXT_DATA__] *)
  nextDataScript : option (Result JValue)
}.

(** The loop that climbs from a product link looking for
    [[data-testid=line-price]]: the price and quantity found and the
    value of [container] when the loop ends. *)
Fixpoint climb_price (n : nat) (ancestors : list Ancestor) (container : option Ancestor)
    : string * JValue * option Ancestor :=
  match n with
  | 0 => (EmptyString, JNum 1, container)
  | S n' =>
      match ancestors with
      | [] => (EmptyString, JNum 1, None)
      | a :: up =>
          match a_linePrice a with
          | Some priceText =>
              (priced (exec false price_re priceText) EmptyString,
               counted (exec true qty_re (a_innerText a)) (JNum 1),
               Some a)
          | None => climb_price n' up (Some a)
          end
      end
  end.

(** A product link always enters the loop with [container = link]; the
    link itself is never inspected, so any value stands for it. *)
Definition link_itself : option Ancestor :=
  Some {| a_innerText := EmptyString; a_linePrice := None |}.

Definition dom_link_step (acc : Acc) (link : Link) : Acc :=
  let name := trim (l_textContent link) in
  if negb (String.eqb name EmptyString) && (5 <? String.length name)
     && (String.length name <? 300) && negb (has (snd acc) (JStr name))
  then
    let '(price0, quantity0, container) :=
      climb_price 20 (l_ancestors link) link_itself in
    let '(price, quantity) :=
      match container with
      | Some c =>
          if String.eqb price0 EmptyString then
            (priced (exec false price_re (a_innerText c)) price0,
             counted (exec true qty_re (a_innerText c)) quantity0)
          else (price0, quantity0)
      | None => (price0, quantity0)
      end in
    if isValidProductName name
    then push acc {| name := JStr name;
                     quantity := quantity;
                     price := JStr price;
                     priceValue := price_value price |}
    else acc
  else acc.

Definition dom_struct_step (acc : Acc) (link : Link) : Acc :=
  let name := trim (l_textContent link) in
  if negb (String.eqb name EmptyString) && (10 <? String.length name)
     && (String.length name <? 300) && negb (has (snd acc) (JStr name))
     && isValidProductName name
  then
    let '(price, quantity) :=
      match l_nearText link with
      | Some text =>
          (priced (exec false price_re text) EmptyString,
           counted (exec true qty_re text) (JNum 1))
      | None => (EmptyString, JNum 1)
      end in
    push acc {| name := JStr name;
                quantity := quantity;
                price := JStr price;
                priceValue := price_value price |}
  else acc.

Definition dom_text_step (acc : Acc) (el : TextElement) : Acc :=
  let text := trim (t_textContent el) in
  if negb (String.eqb text EmptyString) && (15 <? String.length text)
     && (String.length text <? 200)
     && negb (includes text "$") && negb (includes text "Qty")
     && negb (has (snd acc) (JStr text)) && isValidProductName text
  then
    match t_parentText el with
    | Some parentText =>
        match exec false price_re parentText with
        | Some priceMatch =>
            push acc {| name := JStr text;
                        quantity := JNum 1;
                        price := JStr ("$" ++ group1 priceMatch);
                        priceValue := float_value (group1 priceMatch) |}
        | None => acc
        end
    | None => acc
    end
  else acc.

Definition is_empty {A : Type} (l : list A) : bool :=
  match l with [] => true | _ :: _ => false end.

Definition extractItemsFromDOM (doc : Document) : list Item :=
  let acc1 := fold_left dom_link_step (productLinks doc) ([], []) in
  let acc2 :=
    if is_empty (fst acc1) then fold_left dom_struct_step (structLinks doc) acc1
    else acc1 in
  let acc3 :=
    if is_empty (fst acc2) then fold_left dom_text_step (textElements doc) acc2
    else acc2 in
  fst acc3.

(** *** Receipt text *)

(** The loop that climbs from a product link of a receipt: price and
    quantity are read from the text of each ancestor until a price shows. *)
Fixpoint climb_receipt (n : nat) (ancestors : list Ancestor) (price : string)
    (quantity : JValue) : string * JValue :=
  match n with
  | 0 => (price, quantity)
  | S n' =>
      match ancestors with
      | [] => (price, quantity)
      | a :: up =>
          let price' := priced (exec false price_re (a_innerText a)) price in
          let quantity' := counted (exec true qty_re (a_innerText a)) quantity in
          if String.eqb price' EmptyString then climb_receipt n' up price' quantity'
          else (price', quantity')
      end
  end.

Definition receipt_link_step (acc : Acc) (link : Link) : Acc :=
  let name := trim (l_textContent link) in
  if negb (String.eqb name EmptyString) && (5 <? String.length name)
     && (String.length name <? 300) && negb (has (snd acc) (JStr name))
     && isValidProductName name
  then
    let '(price, quantity) :=
      climb_receipt 20 (l_ancestors link) EmptyString (JNum 1) in
    push acc {| name := JStr name;
                quantity := quantity;
                price := JStr price;
                priceValue := price_value price |}
  else acc.

Definition receipt_line_step (acc : Acc) (line : string) : Acc :=
  match exec false receipt_line_re line with
  | Some itemMatch =>
      let name := trim (group1 itemMatch) in
      if isValidProductName name && negb (has (snd acc) (JStr name))
      then
        let price2 := match group 2 itemMatch with Some p => p | None => EmptyString end in
        push acc {| name := JStr name;
                    quantity :=
                      match group 3 itemMatch with
                      | Some d =>
                          if String.eqb d EmptyString then JNum 1 else int_value d
                      | None => JNum 1
                      end;
                    price := JStr ("$" ++ price2);
                    priceValue := float_value price2 |}
      else acc
  | None => acc
  end.

Definition extractItemsFromReceipt (doc : Document) (pageText : string) : list Item :=
  let acc1 := fold_left receipt_link_step (productLinks doc) ([], []) in
  let acc2 :=
    if is_empty (fst acc1)
    then fold_left receipt_line_step (split_lines pageText) acc1
    else acc1 in
  fst acc2.

End Extractors.

(** ** Structured data: the embedded payload *)

(** How far a pass of the structured-data extractor got: [Stopped] when an
    exception unwound to the [catch] of the extractor, which only logs it. *)
Inductive Flow : Type :=
| Running (acc : Acc)
| Stopped (acc : Acc).

Definition flow_acc (f : Flow) : Acc :=
  match f with Running a | Stopped a => a end.

Fixpoint fold_flow {X : Type} (step : Acc -> X -> Flow) (l : list X) (acc : Acc) : Flow :=
  match l with
  | [] => Running acc
  | x :: l' =>
      match step acc x with
      | Running acc' => fold_flow step l' acc'
      | Stopped acc' => Stopped acc'
      end
  end.

(** What [for (const x of v)] walks through; [None] when [v] is not
    iterable and the loop throws. *)
Definition iterate (v : JValue) : option (list JValue) :=
  match v with
  | JArr l => Some l
  | JStr s => Some (map (fun c => JStr (String c EmptyString)) (chars s))
  | _ => None
  end.

Section NextData.
Variable host : Host.

(** The number a value stands for in [v > 0]; [None] is [NaN]. *)
Definition to_number (v : JValue) : option Q :=
  match v with
  | JUndef | JNaN => None
  | JNull => Some 0%Q
  | JBool b => Some (if b then 1%Q else 0%Q)
  | JNum q => Some q
  | JStr s => stringToNumber host s
  | JArr _ | JObj _ => stringToNumber host (toStr host v)
  end.

(** [v > 0] *)
Definition gt0 (v : JValue) : bool :=
  match to_number v with
  | Some q => negb (Qle_bool q 0)
  | None => false
  end.

(** [s.replace(/[$,]/g, '')] *)
Definition strip_money (s : string) : string :=
  text (filter (fun c => negb (Ascii.eqb c dollar || Ascii.eqb c comma)) (chars s)).

(** [parseFloat(s.replace(/[$,]/g, '')) || 0] *)
Definition money_value (s : string) : JValue :=
  match parseFloat host (strip_money s) with
  | Some q => JNum q
  | None => JNum 0
  end.

(** [v?.value || v?.amount || v?.price || 0] *)
Definition amount3 (v : JValue) : JValue :=
  get v "value" or_else get v "amount" or_else get v "price" or_else JNum 0.

(** [v.value || v.amount || 0] *)
Definition amount2 (v : JValue) : JValue :=
  get v "value" or_else get v "amount" or_else JNum 0.

(** [`$${price.toFixed(2)}`]; [None] when [price] has no [toFixed] and the
    call throws. *)
Definition fixed_price (price : JValue) : option JValue :=
  match price with
  | JNum q => Some (JStr ("$" ++ toFixed2 host q))
  | _ => None
  end.

Definition group_price (lineItem productInfo : JValue) : JValue * JValue :=
  let priceInfo := get lineItem "priceInfo" in
  let lp := get priceInfo "linePrice" in
  let '(price1, priceStr) :=
    if truthy lp then
      match typeof lp with
      | TObject => (amount2 lp, get lp "displayValue" or_else JStr EmptyString)
      | TNumber => (lp, JStr EmptyString)
      | _ => (JNum 0, JStr EmptyString)
      end
    else (JNum 0, JStr EmptyString) in
  let price2 :=
    if truthy price1 then price1
    else
      let linePrice :=
        get lineItem "linePrice" or_else get lineItem "price"
          or_else get lineItem "chargeAmount" in
      if truthy linePrice then
        match linePrice with
        | JNum _ => linePrice
        | JArr _ | JObj _ => amount3 linePrice
        | JStr s => money_value s
        | _ => price1
        end
      else price1 in
  let price3 :=
    if truthy price2 then price2
    else
      let unitPrice :=
        get productInfo "price" or_else get productInfo "salePrice"
          or_else get lineItem "unitPrice" in
      if truthy unitPrice then
        match unitPrice with
        | JNum _ => unitPrice
        | JArr _ | JObj _ => amount3 unitPrice
        | _ => price2
        end
      else price2 in
  (price3, priceStr).

Definition group_item_step (acc : Acc) (lineItem : JValue) : Flow :=
  let productInfo :=
    get lineItem "productInfo" or_else get lineItem "item"
      or_else get lineItem "product" or_else lineItem in
  let name :=
    get productInfo "name" or_else get productInfo "productName"
      or_else get lineItem "name" or_else get lineItem "description"
      or_else JStr EmptyString in
  if negb (truthy name) || has (snd acc) name then Running acc
  else
    let seen := (snd acc ++ [name])%list in
    let '(price, priceStr0) := group_price lineItem productInfo in
    let priceStr :=
      if gt0 price && negb (truthy priceStr0) then fixed_price price
      else Some priceStr0 in
    match priceStr with
    | None => Stopped (fst acc, seen)
    | Some priceStr =>
        let quantity :=
          get lineItem "quantity" or_else get productInfo "quantity"
            or_else JNum 1 in
        let items :=
          (fst acc ++ [{| name := name; quantity := quantity;
                          price := priceStr; priceValue := price |}])%list in
        (* the log line calls [name.substring] *)
        match name with
        | JStr _ => Running (items, seen)
        | _ => Stopped (items, seen)
        end
    end.

Definition group_step (acc : Acc) (group : JValue) : Flow :=
  let lineItems :=
    get group "items" or_else get group "lineItems" or_else JArr [] in
  match iterate lineItems with
  | Some l => fold_flow group_item_step l acc
  | None => Stopped acc
  end.

Fixpoint try_group_paths (paths : list JValue) (acc : Acc) : Flow :=
  match paths with
  | [] => Running acc
  | orderGroups :: rest =>
      match orderGroups with
      | JArr groups =>
          match fold_flow group_step groups acc with
          | Running acc' =>
              if is_empty (fst acc') then try_group_paths rest acc'
              else Running acc'
          | Stopped acc' => Stopped acc'
          end
      | _ => try_group_paths rest acc
      end
  end.

Definition direct_price (item : JValue) : JValue :=
  let lp := path item ["priceInfo"; "linePrice"] in
  if truthy lp then amount2 lp
  else
    let p := get item "price" or_else get item "linePrice" in
    if truthy p then
      match typeof p with
      | TObject => amount2 p
      | TNumber => p
      | _ => JNum 0
      end
    else JNum 0.

Definition direct_item_step (acc : Acc) (item : JValue) : Flow :=
  let name :=
    path item ["productInfo"; "name"] or_else get item "name"
      or_else get item "productName" or_else JStr EmptyString in
  if negb (truthy name) || has (snd acc) name then Running acc
  else
    let seen := (snd acc ++ [name])%list in
    let price := direct_price item in
    let priceStr :=
      if gt0 price then fixed_price price else Some (JStr EmptyString) in
    match priceStr with
    | None => Stopped (fst acc, seen)
    | Some priceStr =>
        Running
          ((fst acc ++ [{| name := name;
                           quantity := get item "quantity" or_else JNum 1;
                           price := priceStr;
                           priceValue := price |}])%list, seen)
    end.

Definition possibleGroupPaths (pageProps : JValue) : list JValue :=
  [path pageProps ["initialData"; "data"; "order"; "groups_2101"];
   path pageProps ["initialData"; "data"; "order"; "orderGroups"];
   path pageProps ["initialData"; "orderGroups"];
   path pageProps ["orderDetails"; "orderGroups"];
   path pageProps ["order"; "orderGroups"];
   path pageProps ["orderGroups"]].

Definition extractItemsFromNextData (nextData : JValue) (orderId : string) : list Item :=
  let pageProps := path nextData ["props"; "pageProps"] in
  if negb (truthy pageProps) then []
  else
    match try_group_paths (possibleGroupPaths pageProps) ([], []) with
    | Stopped acc => fst acc
    | Running acc =>
        if is_empty (fst acc) then
          let directItems :=
            path pageProps ["initialData"; "data"; "order"; "items"]
              or_else path pageProps ["orderDetails"; "items"]
              or_else get pageProps "items" or_else JArr [] in
          match iterate directItems with
          | Some l => fst (flow_acc (fold_flow direct_item_step l acc))
          | None => fst acc
          end
        else fst acc
    end.

End NextData.

(** ** Page-level collector *)

Definition month_re : re :=
  alts (map Lit ["Jan"; "Feb"; "Mar"; "Apr"; "May"; "Jun";
                 "Jul"; "Aug"; "Sep"; "Oct"; "Nov"; "Dec"]).

(** [/^order-\d+$/] *)
Definition order_testid_re : re := seqs [Bol; Lit "order-"; plus digit; Eol].

(** [/\/orders\/(\d+)/] *)
Definition orders_id_re : re := seqs [Lit "/orders/"; Grp 1 (plus digit)].

(** [/\/orders\/(\d+)\/returns/] *)
Definition orders_returns_re : re :=
  seqs [Lit "/orders/"; Grp 1 (plus digit); Lit "/returns"].

(** [/orders/], the group [(\d+)], and an optional second group: a question
    mark and the rest of the line. *)
Definition orders_query_re : re :=
  seqs [Lit "/orders/"; Grp 1 (plus digit); opt (Grp 2 (seqs [chr "?"; star dot]))].

(** [/Arrives by\s+(\w+,\s+\w+\s+\d+)/i] *)
Definition arrives_by_re : re :=
  seqs [Lit "Arrives by"; plus space;
        Grp 1 (seqs [plus word; chr comma; plus space; plus word; plus space; plus digit])].

(** [/(Jan|...|Dec)\s+\d{1,2}/i] *)
Definition month_day_re : re :=
  seqs [Grp 1 month_re; plus space; Rep 1 (Some 2) digit].

(** [/Delivered on\s+(Jan|...|Dec)\s+(\d{1,2})/i] *)
Definition delivered_on_re : re :=
  seqs [Lit "Delivered on"; plus space; Grp 1 month_re; plus space;
        Grp 2 (Rep 1 (Some 2) digit)].

(** [/(Jan|...|Dec)\s+(\d{1,2})/i] *)
Definition month_day2_re : re :=
  seqs [Grp 1 month_re; plus space; Grp 2 (Rep 1 (Some 2) digit)].

(** [/Order total \$([\d,]+\.\d{2})/] *)
Definition order_total_re : re :=
  seqs [Lit "Order total $";
        Grp 1 (seqs [plus (Cls (fun c => is_digit c || Ascii.eqb c comma));
                     chr "."; Rep 2 (Some 2) digit])].

(** [/TC#\s*[\d-]+/] *)
Definition tc_re : re :=
  seqs [Lit "TC#"; star space; plus (Cls (fun c => is_digit c || Ascii.eqb c "-"))].

Definition group2 (f : found) : string :=
  match group 2 f with Some v => v | None => EmptyString end.

Module OrderInfo.
Record t : Type := { orderId : string; url : string; isStore : bool }.
End OrderInfo.

(** An anchor of the list page: the element itself and its ancestors,
    nearest first. *)
Record Anchor : Type := {
  href : string;
  anchor_element : Element;
  anchor_parents : list Element
}.

Record ListPage : Type := {
  (** the elements that carry a [data-testid] *)
  testidElements : list Element;
  (** every anchor of the document, in document order *)
  anchors : list Anchor;
  (** the [disabled] flag of the button labelled [Next page], when there is one *)
  nextButton : option bool
}.

Definition no_location : option StoreLocation.t := Some StoreLocation.empty.

Section Collector.
Variable host : Host.

Definition order_total (containerText : string) : string :=
  match exec false order_total_re containerText with
  | Some totalMatch => "$" ++ group1 totalMatch
  | None => EmptyString
  end.

Definition is_store_text (containerText : string) : bool :=
  includes containerText "Store purchase" || includes containerText "TC#".

Definition list_order (orderId orderDate status : string) (containerText : string)
    (items : list Item) : Order :=
  {| orderId := orderId;
     orderNumber := JStr orderId;
     orderType := if is_store_text containerText then store else online;
     orderDate := orderDate;
     status := JStr status;
     items := items;
     subtotal := JStr EmptyString;
     tax := JStr EmptyString;
     total := JStr (order_total containerText);
     associateDiscount := JStr EmptyString;
     driverTip := JStr EmptyString;
     deliveryFee := JStr EmptyString;
     expressFee := JStr EmptyString;
     storeLocation := no_location;
     error := None |}.

Definition dated (f : option found) (orderDate : string) : string :=
  match f with
  | Some dateMatch =>
      group1 dateMatch ++ " " ++ group2 dateMatch ++ ", " ++ currentYear host
  | None => orderDate
  end.

(** Date and status of a container found by its [data-testid]. *)
Definition container_date_status (containerText : string) : string * string :=
  if includes containerText "Arrives today" then (todayLabel host, "Arrives today")
  else if includes containerText "Arrives by" then
    (match exec true month_day_re containerText with
     | Some dateMatch => f_whole dateMatch ++ ", " ++ currentYear host
     | None => "Unknown"
     end,
     match exec true arrives_by_re containerText with
     | Some arrivesMatch => "Arrives by " ++ group1 arrivesMatch
     | None => "Unknown"
     end)
  else if includes containerText "Delivered on" then
    (dated (exec true delivered_on_re containerText) "Unknown", "Delivered")
  else if includes containerText "Delivered" then
    (dated (exec true month_day2_re containerText) "Unknown", "Delivered")
  else if includes containerText "Preparing" then ("Unknown", "Preparing")
  else if includes containerText "On the way" then ("Unknown", "On the way")
  else if includes containerText "Store purchase" then ("Unknown", "Store purchase")
  else ("Unknown", "Unknown").

(** Date and status of a container reached from a return link. *)
Definition legacy_date_status (containerText : string) : string * string :=
  if includes containerText "Arrives today" then (todayLabel host, "Arrives today")
  else if includes containerText "Arrives by" then
    ("Unknown",
     match exec true arrives_by_re containerText with
     | Some arrivesMatch => "Arrives by " ++ group1 arrivesMatch
     | None => "Unknown"
     end)
  else if includes containerText "Delivered" then ("Unknown", "Delivered")
  else if includes containerText "Store purchase" then ("Unknown", "Store purchase")
  else ("Unknown", "Unknown").

(** The accumulator of one pass over the list page: [orders] and
    [seenOrderIds]. *)
Definition Collected : Type := (list Order * list string)%type.

Definition seen_id (seenOrderIds : list string) (id : string) : bool :=
  existsb (String.eqb id) seenOrderIds.

Definition container_order_step (acc : Collected) (container : Element) : Collected :=
  match find (fun h => includes h "/orders/") (links container) with
  | None => acc
  | Some orderLink =>
      match exec false orders_id_re orderLink with
      | None => acc
      | Some m =>
          let orderId := group1 m in
          if seen_id (snd acc) orderId then acc
          else
            let containerText := innerText container in
            let '(orderDate, status) := container_date_status containerText in
            let items := extractItemsFromOrderContainer host (Some container) in
            ((fst acc ++ [list_order orderId orderDate status containerText items])%list,
             (snd acc ++ [orderId])%list)
      end
  end.

Definition is_order_testid (el : Element) : bool :=
  match testid el with
  | Some t => negb (String.eqb t EmptyString) && test false order_testid_re t
  | None => false
  end.

Definition looks_like_order (el : Element) : bool :=
  match testid el with Some t => includes t "order" | None => false end
  || includes (className el) "order"
  || (String.eqb (tagName el) "SECTION" && includes (innerText el) "Order total").

Fixpoint find_marked (n : nat) (ancestors : list Element) : option Element :=
  match n, ancestors with
  | S n', el :: up =>
      if is_order_testid el then Some el
      else if looks_like_order el then Some el
      else find_marked n' up
  | _, _ => None
  end.

(** The element [n] levels up, or the topmost one when there are fewer. *)
Fixpoint ascend (n : nat) (el : Element) (ancestors : list Element) : Element :=
  match n, ancestors with
  | S n', parent :: up => ascend n' parent up
  | _, _ => el
  end.

Definition findOrderContainer (element : Anchor) : Element :=
  match find_marked 15 (anchor_parents element) with
  | Some el => el
  | None => ascend 6 (anchor_element element) (anchor_parents element)
  end.

Definition return_link_step (acc : Collected) (returnLink : Anchor) : Collected :=
  match exec false orders_returns_re (href returnLink) with
  | None => acc
  | Some m =>
      let orderId := group1 m in
      if seen_id (snd acc) orderId then acc
      else
        let orderContainer := findOrderContainer returnLink in
        let containerText := innerText orderContainer in
        let '(orderDate, status) := legacy_date_status containerText in
        let items := extractItemsFromOrderContainer host (Some orderContainer) in
        ((fst acc ++ [list_order orderId orderDate status containerText items])%list,
         (snd acc ++ [orderId])%list)
  end.

Definition extractOrderDataFromListPage (document : ListPage) : list Order :=
  let validOrderContainers :=
    filter (fun el => match testid el with
                      | Some t => test false order_testid_re t
                      | None => false
                      end) (testidElements document) in
  let acc1 := fold_left container_order_step validOrderContainers ([], []) in
  let acc2 :=
    if is_empty (fst acc1) then
      let returnLinks :=
        filter (fun a => includes (href a) "/orders/" && includes (href a) "/returns")
               (anchors document) in
      fold_left return_link_step returnLinks acc1
    else acc1 in
  fst acc2.

(** [orderMap.set(orderId, info)]: a new key goes last, a known key keeps
    its place and takes the new value. *)
Fixpoint map_set (info : OrderInfo.t) (orderMap : list OrderInfo.t) : list OrderInfo.t :=
  match orderMap with
  | [] => [info]
  | e :: rest =>
      if String.eqb (OrderInfo.orderId e) (OrderInfo.orderId info) then info :: rest
      else e :: map_set info rest
  end.

Definition map_has (id : string) (orderMap : list OrderInfo.t) : bool :=
  existsb (fun e => String.eqb (OrderInfo.orderId e) id) orderMap.

Definition order_link_step (orderMap : list OrderInfo.t) (link : Anchor) : list OrderInfo.t :=
  match exec false orders_query_re (href link) with
  | Some m =>
      let orderId := group1 m in
      let url := href link in
      let isStore := includes url "storePurchase=true" in
      if negb (map_has orderId orderMap) || isStore
      then map_set {| OrderInfo.orderId := orderId;
                      OrderInfo.url := url;
                      OrderInfo.isStore := isStore |} orderMap
      else orderMap
  | None => orderMap
  end.

Definition getOrderIdsFromPage (document : ListPage) : list OrderInfo.t :=
  fold_left order_link_step
    (filter (fun a => includes (href a) "/orders/") (anchors document)) [].

Definition hasNextPage (document : ListPage) : bool :=
  match nextButton document with
  | Some disabled => negb disabled
  | None => false
  end.

(** [isStorePurchase(url, doc)] *)
Definition isStorePurchase (url : string) (doc : option Document) : bool :=
  if negb (String.eqb url EmptyString) && includes url "storePurchase=true" then true
  else
    match doc with
    | Some d =>
        match mainText d with
        | Some pageText => test false tc_re pageText
        | None => false
        end
    | None => false
    end.

End Collector.

(** ** Detail fetcher *)

Module OrderMeta.
(** A field that [extractOrderMetaFromNextData] did not set is [JUndef]. *)
Record t : Type := {
  orderDate : JValue;
  subtotal : JValue;
  tax : JValue;
  total : JValue;
  driverTip : JValue;
  associateDiscount : JValue;
  deliveryFee : JValue;
  expressFee : JValue
}.
End OrderMeta.

Record Response : Type := {
  ok : bool;
  (** [response.status], as text *)
  statusText : string;
  (** [DOMParser] on [response.text()] *)
  document : Document
}.

(** What lies outside the modelled code during one run: the pages the
    browser shows, the network, and the methods of the class that are
    taken as given. *)
Record World : Type := {
  (** the list page after so many clicks on [Next page] *)
  listPage : nat -> ListPage;
  (** [fetch(url, ...)] followed by [response.text()] and the parser *)
  fetch : string -> Result Response;
  (** the method [fetchOrderFromAPI], which catches its own failures;
      [JNull] when no endpoint answered *)
  fetchOrderFromAPI : string -> JValue;
  (** the methods [parseOrderFromJSONData], [parseStorePurchasePage],
      [parseOrderDetailPage] and [extractOrderMetaFromNextData] *)
  parseOrderFromJSONData : JValue -> string -> Result Order;
  parseStorePurchasePage : Document -> string -> Result Order;
  parseOrderDetailPage : Document -> string -> Result Order;
  extractOrderMetaFromNextData : JValue -> option OrderMeta.t;
  (** [chrome.runtime.sendMessage] for the progress message of that rank:
      [Some msg] when the call throws *)
  sendMessage : nat -> option string;
  (** [stopExport] runs while the loop waits for the await of that rank *)
  stopAt : option nat
}.

(** The argument of [fetchOrderDetails]: an order id or an object. *)
Inductive OrderRef : Type :=
| ById (orderId : string)
| ByInfo (info : OrderInfo.t).

Section DetailFetcher.
Variable host : Host.
Variable world : World.

Definition order_url (orderId : string) (isStore : bool) : string :=
  "https://www.walmart.com/orders/" ++ orderId ++
  (if isStore then "?storePurchase=true" else EmptyString).

Definition ref_orderId (orderInfo : OrderRef) : string :=
  match orderInfo with
  | ById s => s
  | ByInfo i => OrderInfo.orderId i
  end.

Definition ref_isStore (orderInfo : OrderRef) : bool :=
  match orderInfo with
  | ById _ => false
  | ByInfo i => OrderInfo.isStore i
  end.

Definition ref_url (orderInfo : OrderRef) : string :=
  match orderInfo with
  | ByInfo i =>
      if String.eqb (OrderInfo.url i) EmptyString
      then order_url (OrderInfo.orderId i) (OrderInfo.isStore i)
      else OrderInfo.url i
  | ById s => order_url s false
  end.

(** The [try] block of [fetchOrderDetails]. *)
Definition fetchOrderDetails_try (orderInfo : OrderRef) : Result Order :=
  let orderId := ref_orderId orderInfo in
  let isStore := ref_isStore orderInfo in
  let orderUrl := ref_url orderInfo in
  let apiData := fetchOrderFromAPI world orderId in
  if truthy apiData &&
     (truthy (get apiData "orderDetails") || truthy (get apiData "lineItems")
      || truthy (get apiData "items"))
  then parseOrderFromJSONData world (get apiData "orderDetails" or_else apiData) orderId
  else
    match fetch world orderUrl with
    | Throw e => Throw e
    | Ok response =>
        if negb (ok response) then Throw ("HTTP " ++ statusText response)
        else
          let doc := document response in
          if isStore || isStorePurchase orderUrl (Some doc)
          then parseStorePurchasePage world doc orderId
          else parseOrderDetailPage world doc orderId
    end.

(** The record built by the [catch] block of [fetchOrderDetails]; it has
    no [orderNumber] field. *)
Definition error_order (orderId : string) (isStore : bool) (message : string) : Order :=
  {| orderId := orderId;
     orderNumber := JUndef;
     orderType := if isStore then store else online;
     orderDate := "Unknown";
     status := JStr "Error fetching";
     items := [];
     subtotal := JStr EmptyString;
     tax := JStr EmptyString;
     total := JStr EmptyString;
     associateDiscount := JStr EmptyString;
     driverTip := JStr EmptyString;
     deliveryFee := JStr EmptyString;
     expressFee := JStr EmptyString;
     storeLocation := no_location;
     error := Some message |}.

Definition fetchOrderDetails (orderInfo : OrderRef) : Result Order :=
  match fetchOrderDetails_try orderInfo with
  | Ok order => Ok order
  | Throw message =>
      Ok (error_order (ref_orderId orderInfo) (ref_isStore orderInfo) message)
  end.

(** [fetchDetailedItems]: [None] is [null]. *)
Definition fetchDetailedItems (orderId : string) (isStore : bool)
    : option (list Item * option OrderMeta.t) :=
  match fetch world (order_url orderId isStore) with
  | Throw _ => None
  | Ok response =>
      if negb (ok response) then None
      else
        match nextDataScript (document response) with
        | None => None
        | Some (Throw _) => None
        | Some (Ok nextData) =>
            Some (extractItemsFromNextData host nextData orderId,
                  extractOrderMetaFromNextData world nextData)
        end
  end.

(** [new Date(v)] rendered for display; [None] when the date is invalid. *)
Definition date_label (v : JValue) : option string :=
  match v with
  | JStr s => dateOfString host s
  | JNum q => dateOfNumber host q
  | JBool b => dateOfNumber host (if b then 1%Q else 0%Q)
  | JNull => dateOfNumber host 0%Q
  | JUndef | JNaN => None
  | JArr _ | JObj _ => dateOfString host (toStr host v)
  end.

(** [/[A-Za-z]/] *)
Definition letter_re : re := Cls (fun c => is_lower c || is_upper c).

Definition formatDate (dateValue : JValue) : string :=
  if negb (truthy dateValue) then "Unknown"
  else
    match dateValue with
    | JStr s =>
        if test false letter_re s then s
        else match date_label dateValue with
             | Some label => label
             | None => toStr host dateValue
             end
    | _ =>
        match date_label dateValue with
        | Some label => label
        | None => toStr host dateValue
        end
    end.

End DetailFetcher.

(** ** Export orchestrator *)

Inductive DateRange : Type :=
| AllDates
| Days (n : Z).

Record Options : Type := {
  includeItems : bool;
  allPages : bool;
  dateRange : DateRange;
  orderTypeFilter : string;
  fetchItemPrices : bool
}.

(** A call that leaves the page for the network. *)
Inductive Call : Type :=
| FetchOrderDetails (orderId : string)
| FetchDetailedItems (orderId : string).

(** The fields of the exporter a run changes, and what it did so far. *)
Record Run : Type := {
  orders : list Order;
  processedOrders : nat;
  (** progress messages handed to [sendMessage] *)
  sent : nat;
  (** awaits completed *)
  awaits : nat;
  (** clicks on [Next page] *)
  clicks : nat;
  (** network calls made, oldest first *)
  calls : list Call
}.

Definition start : Run :=
  {| orders := []; processedOrders := 0; sent := 0; awaits := 0; clicks := 0;
     calls := [] |}.

Inductive Outcome (A : Type) : Type :=
| Done (a : A) (r : Run)
| Raised (message : string) (r : Run)
| Unfinished.

Arguments Done {A} a r.
Arguments Raised {A} message r.
Arguments Unfinished {A}.

Definition M (A : Type) : Type := Run -> Outcome A.

Definition ret {A : Type} (a : A) : M A := fun r => Done a r.

Definition bind {A B : Type} (c : M A) (k : A -> M B) : M B :=
  fun r =>
    match c r with
    | Done a r' => k a r'
    | Raised e r' => Raised e r'
    | Unfinished => Unfinished
    end.

Notation "x <- c ;; k" := (bind c (fun x => k))
  (at level 61, c at next level, right associativity).
Notation "c ;;; k" := (bind c (fun _ => k))
  (at level 61, right associativity).

Record ExportResult : Type := {
  success : bool;
  csv : option string;
  orderCount : option nat;
  itemCount : option nat;
  error_message : option string
}.

Section Orchestrator.
Variable host : Host.
Variable world : World.

Definition sendProgress : M unit :=
  fun r =>
    let r' := {| orders := orders r; processedOrders := processedOrders r;
                 sent := S (sent r); awaits := awaits r; clicks := clicks r;
                 calls := calls r |} in
    match sendMessage world (sent r) with
    | None => Done tt r'
    | Some e => Raised e r'
    end.

(** One [await] has completed.  An await that never settles is not
    modelled. *)
Definition awaited : M unit :=
  fun r =>
    Done tt {| orders := orders r; processedOrders := processedOrders r;
               sent := sent r; awaits := S (awaits r); clicks := clicks r;
               calls := calls r |}.

Definition called (c : Call) : M unit :=
  fun r =>
    Done tt {| orders := orders r; processedOrders := processedOrders r;
               sent := sent r; awaits := awaits r; clicks := clicks r;
               calls := (calls r ++ [c])%list |}.

Definition clicked : M unit :=
  fun r =>
    Done tt {| orders := orders r; processedOrders := processedOrders r;
               sent := sent r; awaits := awaits r; clicks := S (clicks r);
               calls := calls r |}.

Definition push_order (o : Order) : M unit :=
  fun r =>
    Done tt {| orders := (orders r ++ [o])%list; processedOrders := processedOrders r;
               sent := sent r; awaits := awaits r; clicks := clicks r;
               calls := calls r |}.

Definition count_processed : M unit :=
  fun r =>
    Done tt {| orders := orders r; processedOrders := S (processedOrders r);
               sent := sent r; awaits := awaits r; clicks := clicks r;
               calls := calls r |}.

(** [this.isExporting]: set when the run starts, cleared by [stopExport]. *)
Definition exporting (r : Run) : bool :=
  match stopAt world with
  | None => true
  | Some n => awaits r <? n
  end.

Definition isExporting : M bool := fun r => Done (exporting r) r.

Definition currentPage : M ListPage := fun r => Done (listPage world (clicks r)) r.

(** [await this.delay(ms)] *)
Definition delay : M unit := awaited.

(** The fallback of a page on which the collector found nothing: each
    order link is fetched on its own. *)
Fixpoint fetch_each (orderIds : list OrderInfo.t) (pageOrders : list Order)
    : M (list Order) :=
  match orderIds with
  | [] => ret pageOrders
  | orderInfo :: rest =>
      going <- isExporting ;;
      if negb going then ret pageOrders
      else
        sendProgress ;;;
        called (FetchOrderDetails (OrderInfo.orderId orderInfo)) ;;;
        awaited ;;;
        let pageOrders' :=
          match fetchOrderDetails world (ByInfo orderInfo) with
          | Ok details =>
              if negb (String.eqb (orderId details) EmptyString)
              then (pageOrders ++ [details])%list
              else pageOrders
          | Throw _ => pageOrders
          end in
        delay ;;;
        fetch_each rest pageOrders'
  end.

Definition with_items (o : Order) (l : list Item) : Order :=
  {| orderId := orderId o; orderNumber := orderNumber o; orderType := orderType o;
     orderDate := orderDate o; status := status o; items := l;
     subtotal := subtotal o; tax := tax o; total := total o;
     associateDiscount := associateDiscount o; driverTip := driverTip o;
     deliveryFee := deliveryFee o; expressFee := expressFee o;
     storeLocation := storeLocation o; error := error o |}.

(** [if (meta) target = meta], for the fields always overwritten. *)
Definition taken (meta target : JValue) : JValue :=
  if truthy meta then meta else target.

(** [if (meta && !target) target = meta] *)
Definition filled (meta target : JValue) : JValue :=
  if truthy meta && negb (truthy target) then meta else target.

Definition with_meta (o : Order) (orderMeta : OrderMeta.t) : Order :=
  {| orderId := orderId o; orderNumber := orderNumber o; orderType := orderType o;
     orderDate :=
       if truthy (OrderMeta.orderDate orderMeta) && String.eqb (orderDate o) "Unknown"
       then formatDate host (OrderMeta.orderDate orderMeta)
       else orderDate o;
     status := status o; items := items o;
     subtotal := filled (OrderMeta.subtotal orderMeta) (subtotal o);
     tax := filled (OrderMeta.tax orderMeta) (tax o);
     total := filled (OrderMeta.total orderMeta) (total o);
     associateDiscount := taken (OrderMeta.associateDiscount orderMeta) (associateDiscount o);
     driverTip := taken (OrderMeta.driverTip orderMeta) (driverTip o);
     deliveryFee := taken (OrderMeta.deliveryFee orderMeta) (deliveryFee o);
     expressFee := taken (OrderMeta.expressFee orderMeta) (expressFee o);
     storeLocation := storeLocation o; error := error o |}.

(** What [fetchDetailedItems] brought back, written into the order. *)
Definition enriched (o : Order) (fetchResult : option (list Item * option OrderMeta.t))
    : Order :=
  match fetchResult with
  | None => o
  | Some (detailedItems, orderMeta) =>
      let o1 := if is_empty detailedItems then o else with_items o detailedItems in
      match orderMeta with
      | Some meta => with_meta o1 meta
      | None => o1
      end
  end.

Definition is_store (o : Order) : bool :=
  match orderType o with store => true | online => false end.

(** [orderDate < cutoffDate] after [new Date(orderDetails.orderDate)] *)
Definition older_than (cutoffDate : Z) (o : Order) : bool :=
  match dateParse host (orderDate o) with
  | Some t => (t <? cutoffDate)%Z
  | None => false
  end.

(** The date check of one order: does it fall before the cutoff. *)
Definition before_cutoff (cutoffDate : option Z) (o : Order) : bool :=
  match cutoffDate with
  | Some c => negb (String.eqb (orderDate o) "Unknown") && older_than c o
  | None => false
  end.

(** The order type check: is the order filtered out. *)
Definition wrong_type (filter : string) (o : Order) : bool :=
  if String.eqb filter "all" then false
  else if String.eqb filter "online" && is_store o then true
  else if String.eqb filter "store" && negb (is_store o) then true
  else false.

(** The block of the loop that fetches item prices when asked to. *)
Definition with_prices (options : Options) (o : Order) : M Order :=
  if fetchItemPrices options && includeItems options then
    sendProgress ;;;
    called (FetchDetailedItems (orderId o)) ;;;
    awaited ;;;
    let fetchResult := fetchDetailedItems host world (orderId o) (is_store o) in
    delay ;;;
    ret (enriched o fetchResult)
  else ret o.

(** The loop over the orders of one page; the value is [reachedCutoff]. *)
Fixpoint process_orders (options : Options) (cutoffDate : option Z)
    (pageOrders : list Order) (reachedCutoff : bool) : M bool :=
  match pageOrders with
  | [] => ret reachedCutoff
  | o :: rest =>
      going <- isExporting ;;
      if negb going then ret reachedCutoff
      else
        sendProgress ;;;
        orderDetails <- with_prices options o ;;
        let old := before_cutoff cutoffDate orderDetails in
        let includeOrder :=
          negb old && negb (wrong_type (orderTypeFilter options) orderDetails) in
        (if includeOrder then push_order orderDetails else ret tt) ;;;
        count_processed ;;;
        process_orders options cutoffDate rest (reachedCutoff || old)
  end.

(** [goToNextPage]: the button is clicked and the update awaited. *)
Definition goToNextPage : M bool :=
  page <- currentPage ;;
  if hasNextPage page then clicked ;;; awaited ;;; ret true
  else ret false.

(** The orders the collector listed or, when it listed none, the orders
    of the page fetched one by one. *)
Definition or_fetched (page : ListPage) (listed : list Order) : M (list Order) :=
  if is_empty listed then
    sendProgress ;;;
    fetch_each (getOrderIdsFromPage page) listed
  else ret listed.

(** The [while] loop of [exportOrders]; [fuel] bounds the pages visited. *)
Fixpoint export_pages (fuel : nat) (options : Options) (cutoffDate : option Z)
    : M unit :=
  match fuel with
  | 0 => fun _ => Unfinished
  | S fuel' =>
      going <- isExporting ;;
      if negb going then ret tt
      else
        sendProgress ;;;
        page <- currentPage ;;
        let listed := extractOrderDataFromListPage host page in
        pageOrders <- or_fetched page listed ;;
        (if is_empty pageOrders then sendProgress else ret tt) ;;;
        reachedCutoff <- process_orders options cutoffDate pageOrders false ;;
        going' <- isExporting ;;
        if allPages options && negb reachedCutoff && hasNextPage page && going' then
          sendProgress ;;;
          navigated <- goToNextPage ;;
          if negb navigated then ret tt
          else delay ;;; export_pages fuel' options cutoffDate
        else ret tt
  end.

Definition count_items (l : list Order) : nat :=
  fold_left (fun sum order => sum + List.length (items order)) l 0.

(** The [try] block of [exportOrders]. *)
Definition export_try (fuel : nat) (options : Options) : M ExportResult :=
  let cutoffDate :=
    match dateRange options with
    | AllDates => None
    | Days n => Some (daysBefore host (now host) n)
    end in
  export_pages fuel options cutoffDate ;;;
  sendProgress ;;;
  fun r =>
    Done {| success := true;
            csv := Some (generateCSV host (includeItems options) (orders r));
            orderCount := Some (List.length (orders r));
            itemCount := Some (count_items (orders r));
            error_message := None |} r.

(** [exportOrders]: [None] when the pages do not run out within [fuel]. *)
Definition exportOrders (fuel : nat) (options : Options) : option (ExportResult * Run) :=
  match export_try fuel options start with
  | Done result r => Some (result, r)
  | Raised message r =>
      Some ({| success := false; csv := None; orderCount := None;
               itemCount := None; error_message := Some message |}, r)
  | Unfinished => None
  end.

End Orchestrator.

(** ** Notions the properties are stated with *)

(** Reading a quoted field back, as a CSV reader does: the outer quotes
    are stripped and each doubled quote collapses to one.  [None] when the
    text is not a well-formed quoted field. *)
Fixpoint collapse_quotes (l : list ascii) : option (list ascii) :=
  match l with
  | [] => None
  | c :: l' =>
      if Ascii.eqb c dquote then
        match l' with
        | [] => Some []
        | d :: l'' =>
            if Ascii.eqb d dquote
            then option_map (cons dquote) (collapse_quotes l'')
            else None
        end
      else option_map (cons c) (collapse_quotes l')
  end.

Definition parse_quoted (field : string) : option string :=
  match chars field with
  | c :: l => if Ascii.eqb c dquote then option_map text (collapse_quotes l) else None
  | [] => None
  end.







(** The names of the items that are strings, in order. *)
Definition string_names (l : list Item) : list string :=
  flat_map (fun it => match name it with JStr s => [s] | _ => [] end) l.

(** The first entry of each key, in order. *)
Fixpoint keep_first {A : Type} (seen : list string) (l : list (string * A))
    : list (string * A) :=
  match l with
  | [] => []
  | (k, v) :: l' =>
      if existsb (String.eqb k) seen then keep_first seen l'
      else (k, v) :: keep_first (seen ++ [k])%list l'
  end.

(** ** A host and pages to run the model on *)

Module Sample.

Fixpoint digits_of (fuel : nat) (n : N) (acc : string) : string :=
  match fuel with
  | 0 => acc
  | S fuel' =>
      let acc' := String (ascii_of_N (48 + n mod 10)) acc in
      if (n <? 10)%N then acc' else digits_of fuel' (n / 10) acc'
  end.

Definition decimal (n : N) : string := digits_of (S (N.to_nat (N.log2 n))) n EmptyString.

Definition integer (z : Z) : string :=
  if (z <? 0)%Z then "-" ++ decimal (Z.to_N (- z)) else decimal (Z.to_N z).

(** Hundredths, rounded half up. *)
Definition cents (q : Q) : Z := ((Qnum q * 200 + Zpos (Qden q)) / (2 * Zpos (Qden q)))%Z.

Definition two_digits (n : N) : string :=
  if (n <? 10)%N then "0" ++ decimal n else decimal n.

Definition fixed2 (q : Q) : string :=
  let c := cents q in
  let a := Z.to_N (Z.abs c) in
  (if (c <? 0)%Z then "-" else EmptyString)
  ++ decimal (a / 100) ++ "." ++ two_digits (a mod 100).

Definition number_text (q : Q) : string :=
  if (Zpos (Qden q) =? 1)%Z then integer (Qnum q) else fixed2 q.

Fixpoint leading_digits (l : list ascii) : list ascii * list ascii :=
  match l with
  | c :: l' =>
      if is_digit c then let '(d, r) := leading_digits l' in (c :: d, r)
      else ([], l)
  | [] => ([], [])
  end.

(** Decimal text such as [12.34]. *)
Definition decimal_value (s : string) : option Q :=
  let '(int_part, r) := leading_digits (chars s) in
  match int_part with
  | [] => None
  | _ :: _ =>
      let i := Z.of_N (digits_value 0 int_part) in
      match r with
      | dot :: r' =>
          if Ascii.eqb dot "." then
            let '(frac, _) := leading_digits r' in
            let f := Z.of_N (digits_value 0 frac) in
            let scale := Pos.pow 10 (Pos.of_nat (List.length frac)) in
            match frac with
            | [] => Some (inject_Z i)
            | _ :: _ => Some (Qmake (i * Zpos scale + f) scale)
            end
          else Some (inject_Z i)
      | [] => Some (inject_Z i)
      end
  end.

(** The integer the leading digits stand for: the double [parseInt]
    returns for them as long as it is below 2^53. *)
Definition integer_value (s : string) : option Q :=
  match fst (leading_digits (chars s)) with
  | [] => None
  | d :: ds => Some (num_of_N (digits_value 0 (d :: ds)))
  end.

Definition day_ms : Z := 86400000.

(** 3 November 2026, 00:00 UTC. *)
Definition today_ms : Z := 1793664000000.

Definition calendar : list (string * Z) :=
  [("Nov 3, 2026", today_ms);
   ("Oct 24, 2026", 1792800000000%Z);
   ("Oct 4, 2026", 1791072000000%Z);
   ("Sep 24, 2026", 1790208000000%Z)].

Fixpoint lookup_date (s : string) (l : list (string * Z)) : option Z :=
  match l with
  | [] => None
  | (k, t) :: l' => if String.eqb k s then Some t else lookup_date s l'
  end.

Definition host : Host :=
  {| numToString := number_text;
     toFixed2 := fixed2;
     parseFloat := decimal_value;
     parseInt := integer_value;
     stringToNumber := decimal_value;
     dateParse := fun s => lookup_date s calendar;
     dateOfNumber := fun _ => None;
     dateOfString := fun _ => None;
     todayLabel := "Nov 3, 2026";
     currentYear := "2026";
     now := today_ms;
     daysBefore := fun t n => (t - n * day_ms)%Z |}.

(** A name with an inch mark and a comma. *)
Definition quoted_name : string := "12" ++ String dquote " Skillet, red".

End Sample.

(** ** Where a quantity comes from *)

(** The quantity a text gives: what [parseInt] makes of the digits the
    quantity pattern captures at its first match in the text, and 1 when the
    pattern does not match. *)
Definition quantity_in (host : Host) (r : re) (text : string) : JValue :=
  match exec true r text with
  | Some f => int_value host (group1 f)
  | None => JNum 1
  end.

(** A quantity as the data model words it: an integer, at least 1. *)
Definition positive_integer (v : JValue) : Prop :=
  exists n : N, v = JNum (num_of_N n) /\ (1 <= n)%N.

(** An item whose name is a string. *)
Definition named (it : Item) : Prop := exists s, name it = JStr s.

(** An item reduced to its name and its quantity. *)
Definition name_quantity (it : Item) : JValue * JValue := (name it, quantity it).

(** The first list that is not empty. *)
Fixpoint first_found {A : Type} (l : list (list A)) : list A :=
  match l with
  | [] => []
  | x :: rest => if is_empty x then first_found rest else x
  end.

Module SampleCsv.

Definition line (n : string) (q : JValue) : Item :=
  {| name := JStr n; quantity := q; price := JStr "$3.48"; priceValue := JNum 0 |}.

Definition order_of (id : string) (l : list Item) : Order :=
  {| orderId := id; orderNumber := JStr id; orderType := online;
     orderDate := "Oct 24, 2026"; status := JStr "Delivered"; items := l;
     subtotal := JStr EmptyString; tax := JStr EmptyString;
     total := JStr "$45.67"; associateDiscount := JStr EmptyString;
     driverTip := JStr EmptyString; deliveryFee := JStr EmptyString;
     expressFee := JStr EmptyString; storeLocation := Some StoreLocation.empty;
     error := None |}.

(** An order with two items, one with a comma and a line break in its name,
    and an order without items. *)
Definition groceries : list Order :=
  [order_of "200012345678901"
     [line ("Towels, 2 ply" ++ String newline "6 rolls") (JNum 2);
      line "Great Value Whole Milk 1 gal" (JNum 1)];
   order_of "200012345678902" []].


End SampleCsv.

Module SampleList.

(** A container of the list page whose only image is an item of which
    none was delivered. *)
Definition towels : Element :=
  {| testid := Some "order-0";
     className := EmptyString;
     tagName := "DIV";
     innerText := "Delivered on Oct 24 Order total $45.67";
     links := ["https://www.walmart.com/orders/200012345678901"];
     imgs := ["Great Value Paper Towels, quantity 0"] |}.

End SampleList.

(** ** What one page contributes to a run *)

(** What the fallback keeps of one order link. *)
Definition fetched (world : World) (orderInfo : OrderInfo.t) : list Order :=
  match fetchOrderDetails world (ByInfo orderInfo) with
  | Ok details =>
      if negb (String.eqb (orderId details) EmptyString) then [details] else []
  | Throw _ => []
  end.

(** The orders of a page: those the collector lists or, when it lists
    none, those the fallback fetches. *)
Definition collected (host : Host) (world : World) (page : ListPage) : list Order :=
  let listed := extractOrderDataFromListPage host page in
  if is_empty listed then flat_map (fetched world) (getOrderIdsFromPage page)
  else listed.

(** An order as it stands when the date check looks at it. *)
Definition detailed (host : Host) (world : World) (options : Options) (o : Order) : Order :=
  if fetchItemPrices options && includeItems options
  then enriched host o (fetchDetailedItems host world (orderId o) (is_store o))
  else o.

(** Does the order pass the date check and the type filter. *)
Definition kept (host : Host) (options : Options) (cutoffDate : option Z) (o : Order) : bool :=
  negb (before_cutoff host cutoffDate o)
  && negb (wrong_type (orderTypeFilter options) o).

(** The order id a container of the list page carries, if any. *)
Definition container_key (container : Element) : option string :=
  match find (fun h => includes h "/orders/") (links container) with
  | Some orderLink =>
      match exec false orders_id_re orderLink with
      | Some m => Some (group1 m)
      | None => None
      end
  | None => None
  end.

Definition return_link_key (returnLink : Anchor) : option string :=
  match exec false orders_returns_re (href returnLink) with
  | Some m => Some (group1 m)
  | None => None
  end.

Definition keyed {A : Type} (key : A -> option string) (l : list A) : list (string * A) :=
  flat_map (fun x => match key x with Some k => [(k, x)] | None => [] end) l.

(** ** The name and the quantity each node gives *)

(** What a pass over [nodes] should give: the nodes that name an item,
    the first only of those with one name, each with the quantity its own
    text gives. *)
Definition named_quantities {X : Type} (name_of : X -> option string)
    (quantity_of : X -> JValue) (nodes : list X) : list (JValue * JValue) :=
  map (fun entry => (JStr (fst entry), quantity_of (snd entry)))
      (keep_first [] (keyed name_of nodes)).

(** The name an image alt text gives an item, if it gives one: the text
    trimmed, of 10 to 300 characters, none of the skipped kinds, without its
    quantity suffix, and a valid product name. *)
Definition alt_name (alt : string) : option string :=
  let name0 := trim alt in
  if String.eqb name0 EmptyString || (String.length name0 <? 10)
     || (300 <? String.length name0) then None
  else if existsb (fun pattern => test true pattern name0) skipPatterns then None
  else
    let name1 :=
      match exec true alt_qty_re name0 with
      | Some _ => trim (remove_first true alt_qty_strip_re name0)
      | None => name0
      end in
    if isValidProductName name1 then Some name1 else None.

(** Its quantity: the one its own text ends with. *)
Definition alt_quantity (host : Host) (alt : string) : JValue :=
  quantity_in host alt_qty_re (trim alt).

(** The name a link gives an item: its text trimmed, longer than [lo] and
    shorter than 300 characters, and a valid product name. *)
Definition link_name (lo : nat) (l : Link) : option string :=
  let name := trim (l_textContent l) in
  if negb (String.eqb name EmptyString) && (lo <? String.length name)
     && (String.length name <? 300) && isValidProductName name
  then Some name else None.

Definition has_line_price (a : Ancestor) : bool :=
  match a_linePrice a with Some _ => true | None => false end.

(** The ancestor in whose text the quantity of a product link is read:
    the nearest of its first 20 ancestors that holds a line price, and when
    none does the 20th, if the link has that many. *)
Definition quantity_node (l : Link) : option Ancestor :=
  match find has_line_price (firstn 20 (l_ancestors l)) with
  | Some a => Some a
  | None => nth_error (l_ancestors l) 19
  end.

Definition link_quantity (host : Host) (l : Link) : JValue :=
  match quantity_node l with
  | Some a => quantity_in host qty_re (a_innerText a)
  | None => JNum 1
  end.

(** The quantity of a marked link is read in the text around it. *)
Definition marked_quantity (host : Host) (l : Link) : JValue :=
  match l_nearText l with
  | Some text => quantity_in host qty_re text
  | None => JNum 1
  end.

(** The name a text element gives an item: its text trimmed, of 16 to 199
    characters, without a dollar sign or [Qty], a valid product name, and
    with a price in the text of its parent. *)
Definition text_name (el : TextElement) : option string :=
  let text := trim (t_textContent el) in
  if negb (String.eqb text EmptyString) && (15 <? String.length text)
     && (String.length text <? 200)
     && negb (includes text "$") && negb (includes text "Qty")
     && isValidProductName text
  then
    match t_parentText el with
    | Some parentText =>
        match exec false price_re parentText with
        | Some _ => Some text
        | None => None
        end
    | None => None
    end
  else None.

Definition shows_price (a : Ancestor) : bool :=
  match exec false price_re (a_innerText a) with Some _ => true | None => false end.

Definition shows_quantity (a : Ancestor) : bool :=
  match exec true qty_re (a_innerText a) with Some _ => true | None => false end.

(** The ancestors in which the price and the quantity of a receipt link
    are read: [n] at most, up to the first whose text shows a price. *)
Fixpoint upto_price (n : nat) (ancestors : list Ancestor) : list Ancestor :=
  match n, ancestors with
  | S n', a :: up => if shows_price a then [a] else a :: upto_price n' up
  | _, _ => []
  end.

(** Of those ancestors, the farthest whose text holds a quantity gives
    it. *)
Definition receipt_link_quantity (host : Host) (l : Link) : JValue :=
  match find shows_quantity (rev (upto_price 20 (l_ancestors l))) with
  | Some a => quantity_in host qty_re (a_innerText a)
  | None => JNum 1
  end.

(** The name a receipt line gives an item: the text before the price,
    trimmed, when it is a valid product name. *)
Definition line_name (line : string) : option string :=
  match exec false receipt_line_re line with
  | Some itemMatch =>
      if isValidProductName (trim (group1 itemMatch))
      then Some (trim (group1 itemMatch)) else None
  | None => None
  end.

(** Its quantity: the number after the price, when there is one. *)
Definition line_quantity (host : Host) (line : string) : JValue :=
  match exec false receipt_line_re line with
  | Some itemMatch =>
      match group 3 itemMatch with
      | Some d => if String.eqb d EmptyString then JNum 1 else int_value host d
      | None => JNum 1
      end
  | None => JNum 1
  end.

(** The line items of the structured data, over every path and group,
    and the name and quantity each gives: the quantity of the payload when
    it is truthy, and 1 otherwise. *)
Definition group_lines (pageProps : JValue) : list JValue :=
  flat_map (fun orderGroups =>
              match orderGroups with
              | JArr groups =>
                  flat_map (fun group =>
                              match iterate (get group "items"
                                             or_else get group "lineItems"
                                             or_else JArr []) with
                              | Some l => l
                              | None => []
                              end) groups
              | _ => []
              end) (possibleGroupPaths pageProps).

Definition group_entry (lineItem : JValue) : JValue * JValue :=
  let productInfo :=
    get lineItem "productInfo" or_else get lineItem "item"
      or_else get lineItem "product" or_else lineItem in
  (get productInfo "name" or_else get productInfo "productName"
     or_else get lineItem "name" or_else get lineItem "description"
     or_else JStr EmptyString,
   get lineItem "quantity" or_else get productInfo "quantity" or_else JNum 1).

Definition direct_lines (pageProps : JValue) : list JValue :=
  match iterate (path pageProps ["initialData"; "data"; "order"; "items"]
                 or_else path pageProps ["orderDetails"; "items"]
                 or_else get pageProps "items" or_else JArr []) with
  | Some l => l
  | None => []
  end.

Definition direct_entry (item : JValue) : JValue * JValue :=
  (path item ["productInfo"; "name"] or_else get item "name"
     or_else get item "productName" or_else JStr EmptyString,
   get item "quantity" or_else JNum 1).

Definition payload_entries (nextData : JValue) : list (JValue * JValue) :=
  (map group_entry (group_lines (path nextData ["props"; "pageProps"]))
   ++ map direct_entry (direct_lines (path nextData ["props"; "pageProps"])))%list.

(** The record the collector builds for a container found by its
    [data-testid]. *)
Definition container_order (host : Host) (entry : string * Element) : Order :=
  let '(orderId, container) := entry in
  let containerText := innerText container in
  list_order orderId (fst (container_date_status host containerText))
    (snd (container_date_status host containerText)) containerText
    (extractItemsFromOrderContainer host (Some container)).

(** The record the collector builds for a return link. *)
Definition return_link_order (host : Host) (entry : string * Anchor) : Order :=
  let '(orderId, returnLink) := entry in
  let orderContainer := findOrderContainer returnLink in
  let containerText := innerText orderContainer in
  list_order orderId (fst (legacy_date_status host containerText))
    (snd (legacy_date_status host containerText)) containerText
    (extractItemsFromOrderContainer host (Some orderContainer)).

Definition order_containers (document : ListPage) : list Element :=
  filter (fun el => match testid el with
                    | Some t => test false order_testid_re t
                    | None => false
                    end) (testidElements document).

Definition return_links (document : ListPage) : list Anchor :=
  filter (fun a => includes (href a) "/orders/" && includes (href a) "/returns")
         (anchors document).

(** An item as the list page gives it: no price. *)
Definition unpriced (it : Item) : Prop :=
  price it = JStr EmptyString /\ priceValue it = JNum 0.

(** ** Pages and worlds to run the model on *)

Module SampleRun.

Definition container (n id text : string) (alts : list string) : Element :=
  {| testid := Some ("order-" ++ n);
     className := EmptyString;
     tagName := "DIV";
     innerText := text;
     links := ["https://www.walmart.com/orders/" ++ id];
     imgs := alts |}.

(** Delivered 10 days before [Sample.today_ms]. *)
Definition recent : Element :=
  container "0" "200012345678901" "Delivered on Oct 24 Order total $45.67"
            ["Great Value Paper Towels, quantity 2"].

(** Delivered 40 days before. *)
Definition old : Element :=
  container "1" "200012345678902" "Delivered on Sep 24 Order total $12.00"
            ["Great Value Whole Milk 1 gal"].

(** Delivered 30 days before, on the cutoff day. *)
Definition edge : Element :=
  container "2" "200012345678903" "Delivered on Oct 4 Order total $8.25"
            ["Bananas, each, quantity 6"].

Definition page_of (els : list Element) (next : option bool) : ListPage :=
  {| testidElements := els; anchors := []; nextButton := next |}.

Definition blank : Element :=
  {| testid := None; className := EmptyString; tagName := "A";
     innerText := EmptyString; links := []; imgs := [] |}.

Definition anchor (url : string) : Anchor :=
  {| href := url; anchor_element := blank; anchor_parents := [] |}.

(** A page on which no container is marked: only links to two orders. *)
Definition links_only : ListPage :=
  {| testidElements := [];
     anchors := [anchor "https://www.walmart.com/orders/111";
                 anchor "https://www.walmart.com/orders/222"];
     nextButton := None |}.

Definition no_document : Document :=
  {| productLinks := []; structLinks := []; textElements := [];
     mainText := None; nextDataScript := None |}.

(** The detail page of an order with one priced line. *)
Definition milk_page : Document :=
  {| productLinks :=
       [{| l_textContent := "Great Value Whole Milk 1 gal";
           l_ancestors :=
             [{| a_innerText := "Great Value Whole Milk 1 gal Qty 1 $3.48";
                 a_linePrice := Some "$3.48" |}];
           l_nearText := None |}];
     structLinks := [];
     textElements := [];
     mainText := Some "Order# 111 Great Value Whole Milk 1 gal $3.48";
     nextDataScript := None |}.

(** The DOM branch of [parseOrderDetailPage], with the items of
    [extractItemsFromDOM]. *)
Definition dom_order (doc : Document) (id : string) : Result Order :=
  Ok {| orderId := id; orderNumber := JStr id; orderType := online;
        orderDate := "Unknown"; status := JStr "Unknown";
        items := extractItemsFromDOM Sample.host doc;
        subtotal := JStr EmptyString; tax := JStr EmptyString;
        total := JStr EmptyString; associateDiscount := JStr EmptyString;
        driverTip := JStr EmptyString; deliveryFee := JStr EmptyString;
        expressFee := JStr EmptyString; storeLocation := no_location;
        error := None |}.

Definition world_of (pages : nat -> ListPage) (net : string -> Result Response)
    (messages : nat -> option string) : World :=
  {| listPage := pages;
     fetch := net;
     fetchOrderFromAPI := fun _ => JNull;
     parseOrderFromJSONData := fun _ id => dom_order no_document id;
     parseStorePurchasePage := dom_order;
     parseOrderDetailPage := dom_order;
     extractOrderMetaFromNextData := fun _ => None;
     sendMessage := messages;
     stopAt := None |}.

Definition delivered : nat -> option string := fun _ => None.

Definition offline : string -> Result Response := fun _ => Throw "Failed to fetch".

Definition serving (doc : Document) : string -> Result Response :=
  fun _ => Ok {| ok := true; statusText := "200"; document := doc |}.

(** One page with three orders and an enabled [Next page] button. *)
Definition dated : World :=
  world_of (fun _ => page_of [recent; old; edge] (Some false)) offline delivered.

(** Two pages that both show the same order. *)
Definition repeated : World :=
  world_of (fun k => match k with
                     | 0 => page_of [recent] (Some false)
                     | _ => page_of [recent] None
                     end) offline delivered.

(** A page of bare links, and a network that is down. *)
Definition unreachable : World :=
  world_of (fun _ => links_only) offline delivered.

(** A page of bare links, and a network that serves the detail page. *)
Definition linked : World :=
  world_of (fun _ => links_only) (serving milk_page) delivered.

(** One page with one order; the third progress message cannot be sent. *)
Definition closing : World :=
  world_of (fun _ => page_of [recent] None) offline
    (fun k => if k =? 2 then Some "Extension context invalidated." else None).

Definition options (days : DateRange) (pages : bool) : Options :=
  {| includeItems := true; allPages := pages; dateRange := days;
     orderTypeFilter := "all"; fetchItemPrices := false |}.

End SampleRun.

(** ** Invariants of a pass and of a run *)

(** What a pass of an item extractor maintains: the string names pushed
    so far are pairwise different and all in [seen]. *)
Definition names_seen (acc : Acc) : Prop :=
  NoDup (string_names (fst acc)) /\
  forall s, In s (string_names (fst acc)) -> has (snd acc) (JStr s) = true.

(** The fields of a run that only the processing of orders changes. *)
Definition same_orders (r r' : Run) : Prop :=
  orders r' = orders r /\ clicks r' = clicks r
  /\ processedOrders r' = processedOrders r.

(** [c] keeps [P] true of the run, however it ends, and its value
    satisfies [Q]. *)
Definition holds_after {A : Type} (P : Run -> Prop) (Q : A -> Prop) (c : M A) : Prop :=
  forall r, P r ->
  match c r with
  | Done a r' => P r' /\ Q a
  | Raised _ r' => P r'
  | Unfinished => True
  end.

Definition anything {A : Type} (a : A) : Prop := True.

(** A property of the orders accumulated and of the calls made, read on a
    run. *)
Definition kept_true (inv : list Order -> list Call -> Prop) (r : Run) : Prop :=
  inv (orders r) (calls r).

Definition no_detailed_call (os : list Order) (cs : list Call) : Prop :=
  forall id, ~ In (FetchDetailedItems id) cs.

Definition list_page_only (os : list Order) (cs : list Call) : Prop :=
  cs = [] /\ Forall (fun o => Forall unpriced (items o)) os.

Definition never_old (host : Host) (cutoffDate : option Z)
    (os : list Order) (cs : list Call) : Prop :=
  Forall (fun o => before_cutoff host cutoffDate o = false) os.

(** The cutoff [exportOrders] computes from its options. *)
Definition cutoff_of (host : Host) (options : Options) : option Z :=
  match dateRange options with
  | AllDates => None
  | Days n => Some (daysBefore host (now host) n)
  end.

(** Splits a hypothesis [a && b && ... = true] into its conjuncts. *)
Ltac split_andb H :=
  repeat match type of H with
         | (_ && _)%bool = true =>
             let H1 := fresh H in
             apply andb_true_iff in H; destruct H as [H H1]
         end.

Ltac negb_has :=
  match goal with
  | H : negb (has _ _) = true |- _ => apply negb_true_iff in H
  end.

(** * More of the content script *)

(** ** Notions the further properties are stated with *)

(** Reading one CSV field back: a field that opens with a double quote is
    a quoted field, any other field stands for itself. *)
Definition read_field (field : string) : option string :=
  match chars field with
  | c :: _ => if Ascii.eqb c dquote then parse_quoted field else Some field
  | [] => Some field
  end.

(** [s] begins with [p], letter case apart. *)
Definition starts_with_ci (p s : string) : Prop :=
  exists a b, chars s = (a ++ b)%list /\ map upper a = map upper (chars p).

(** [s] holds [p] somewhere, letter case apart. *)
Definition contains_ci (p s : string) : Prop :=
  exists a b c, chars s = (a ++ b ++ c)%list /\ map upper b = map upper (chars p).

Module Sample2.

Definition item (n : string) (q : Z) (p : string) : Item :=
  {| name := JStr n; quantity := JNum (inject_Z q); price := JStr p;
     priceValue := JNum 0 |}.

(** An order with two items, as the list page gives it. *)
Definition groceries : Order :=
  with_items
    (list_order "200012345678901" "Oct 24, 2026" "Delivered"
       "Delivered on Oct 24 Order total $45.67" [])
    [item "Great Value Paper Towels" 2 EmptyString;
     item "Bananas, each" 6 EmptyString].

End Sample2.

(** An item whose name passed the name filter. *)
Definition valid_name (it : Item) : Prop :=
  exists s, name it = JStr s /\ isValidProductName s = true.

(** An item named by the trimmed text of one of the nodes. *)
Definition named_by (texts : list string) (it : Item) : Prop :=
  exists s, name it = JStr s /\ In s (map trim texts)
            /\ isValidProductName s = true.

(** The document with the nodes of one strategy of [extractItemsFromDOM]
    only: its product links, its marked links, its text elements. *)
Definition product_links_only (doc : Document) : Document :=
  {| productLinks := productLinks doc; structLinks := []; textElements := [];
     mainText := mainText doc; nextDataScript := nextDataScript doc |}.

Definition marked_links_only (doc : Document) : Document :=
  {| productLinks := []; structLinks := structLinks doc; textElements := [];
     mainText := mainText doc; nextDataScript := nextDataScript doc |}.

Definition text_elements_only (doc : Document) : Document :=
  {| productLinks := []; structLinks := []; textElements := textElements doc;
     mainText := mainText doc; nextDataScript := nextDataScript doc |}.

(** A product link seen with its nearest [n] ancestors only. *)
Definition cap_link (n : nat) (l : Link) : Link :=
  {| l_textContent := l_textContent l;
     l_ancestors := firstn n (l_ancestors l);
     l_nearText := l_nearText l |}.

Definition cap_links (n : nat) (doc : Document) : Document :=
  {| productLinks := map (cap_link n) (productLinks doc);
     structLinks := structLinks doc;
     textElements := textElements doc;
     mainText := mainText doc;
     nextDataScript := nextDataScript doc |}.

(** What [getOrderIdsFromPage] maintains after the links [done]: one
    entry per order id, each entry taken from a link, and an entry for
    every link read, marked as a store purchase as soon as one link of its
    order is. *)
Definition order_map_of (done : list Anchor) (orderMap : list OrderInfo.t) : Prop :=
  NoDup (map OrderInfo.orderId orderMap)
  /\ (forall e, In e orderMap ->
        exists a, In a done /\ href a = OrderInfo.url e
          /\ OrderInfo.isStore e = includes (OrderInfo.url e) "storePurchase=true")
  /\ (forall a mt, In a done ->
        exec false orders_query_re (href a) = Some mt ->
        exists e, In e orderMap /\ OrderInfo.orderId e = group1 mt
          /\ (includes (href a) "storePurchase=true" = true ->
              OrderInfo.isStore e = true)).

(** An ancestor that [findOrderContainer] takes for an order container. *)
Definition marked_as_order (el : Element) : Prop :=
  is_order_testid el = true \/ looks_like_order el = true.

Definition is_order_fetch (c : Call) : bool :=
  match c with
  | FetchOrderDetails _ => true
  | FetchDetailedItems _ => false
  end.

(** How a run can move from [r] to [r']: orders that passed the date
    check and the type filter are appended, calls are appended (detailed
    item fetches only when the options ask for them), the page is only
    clicked forward (and not at all unless [allPages] is set), and the
    counters only grow. *)
Definition advances (host : Host) (options : Options) (cutoffDate : option Z)
    (r r' : Run) : Prop :=
  (exists os, orders r' = (orders r ++ os)%list
              /\ Forall (fun o => kept host options cutoffDate o = true) os)
  /\ (exists cs, calls r' = (calls r ++ cs)%list
                 /\ ((fetchItemPrices options && includeItems options)%bool = false ->
                     Forall (fun c => is_order_fetch c = true) cs))
  /\ clicks r <= clicks r'
  /\ (allPages options = false -> clicks r' = clicks r)
  /\ sent r <= sent r'
  /\ awaits r <= awaits r'.

(** [c] moves the run by [R], however it ends. *)
Definition ends_in {A : Type} (R : Run -> Run -> Prop) (c : M A) : Prop :=
  forall r,
  match c r with
  | Done _ r' => R r r'
  | Raised _ r' => R r r'
  | Unfinished => True
  end.

Module SampleLinks.

(** A page on which an order is linked twice, the second time as a store
    purchase. *)
Definition twice : ListPage :=
  {| testidElements := [];
     anchors := [SampleRun.anchor "https://www.walmart.com/orders/111";
                 SampleRun.anchor "https://www.walmart.com/orders/111?storePurchase=true";
                 SampleRun.anchor "https://www.walmart.com/orders/222"];
     nextButton := None |}.

End SampleLinks.

(** A list page with an online order and a store purchase, and options
    with each switch free. *)
Module SampleShop.

Definition receipt : Element :=
  SampleRun.container "3" "200012345678904"
    "Store purchase Oct 20 Order total $5.00" ["Bananas, each"].

Definition mixed : World :=
  SampleRun.world_of
    (fun _ => SampleRun.page_of [SampleRun.recent; receipt] (Some false))
    SampleRun.offline SampleRun.delivered.

Definition options (filter : string) (lines prices pages : bool) : Options :=
  {| includeItems := lines; allPages := pages; dateRange := AllDates;
     orderTypeFilter := filter; fetchItemPrices := prices |}.

End SampleShop.

(** ** What the steps of a run establish *)

(** From a run in [P] the step [c], when it is over, has given a value and
    a run in [Q], or an exception and a run in [E]. *)
Definition triple {A : Type} (P : Run -> Prop) (c : M A)
    (Q : A -> Run -> Prop) (E : Run -> Prop) : Prop :=
  forall r, P r ->
  match c r with
  | Done a r' => Q a r'
  | Raised _ r' => E r'
  | Unfinished => True
  end.

(** The run shows the page reached after [c] clicks, and [F] holds of the
    number of awaits completed. *)
Definition at_page (c : nat) (F : nat -> Prop) (r : Run) : Prop :=
  clicks r = c /\ F (awaits r).

(** [this.isExporting] once [a] awaits are completed. *)
Definition running_at (world : World) (a : nat) : bool :=
  match stopAt world with
  | None => true
  | Some n => a <? n
  end.

(** [F] held one await ago. *)
Definition after_await (F : nat -> Prop) (a : nat) : Prop :=
  match a with
  | 0 => False
  | S a0 => F a0
  end.

Module SampleStop.

(** Pages without end, each with the three orders of [SampleRun.dated] and
    an enabled [Next page] button; the export is stopped during the await
    of rank [n]. *)
Definition endless (n : nat) : World :=
  {| listPage := listPage SampleRun.dated;
     fetch := fetch SampleRun.dated;
     fetchOrderFromAPI := fetchOrderFromAPI SampleRun.dated;
     parseOrderFromJSONData := parseOrderFromJSONData SampleRun.dated;
     parseStorePurchasePage := parseStorePurchasePage SampleRun.dated;
     parseOrderDetailPage := parseOrderDetailPage SampleRun.dated;
     extractOrderMetaFromNextData := extractOrderMetaFromNextData SampleRun.dated;
     sendMessage := sendMessage SampleRun.dated;
     stopAt := Some n |}.

End SampleStop.

(** ** Prices and totals of the JSON parser *)

Section Prices.
Variable host : Host.

(** [`$${Number(v).toFixed(2)}`] *)
Definition fixed_number (v : JValue) : string :=
  "$" ++ match to_number host v with
         | Some q => toFixed2 host q
         | None => "NaN"
         end.

(** [extractPrice(value)] *)
Definition extractPrice (value : JValue) : string :=
  if negb (truthy value) then EmptyString
  else
    match value with
    | JNum _ | JNaN => fixed_number value
    | JStr s => if startsWith s "$" then s else "$" ++ s
    | JArr _ | JObj _ | JNull =>
        let amount :=
          get value "amount" or_else get value "value" or_else get value "price"
          or_else JNum 0 in
        fixed_number amount
    | JBool _ | JUndef => EmptyString
    end.

(** [`$${v.toFixed(2)}`] for a value whose type is [number]. *)
Definition dollars (v : JValue) : JValue :=
  match v with
  | JNum q => JStr ("$" ++ toFixed2 host q)
  | _ => JStr "$NaN"
  end.

(** The branch of [extractDisplayValue] for [value] and [amount]. *)
Definition shown (val : JValue) : JValue :=
  match typeof val with
  | TNumber => dollars val
  | _ => JStr (toStr host val)
  end.

(** [extractDisplayValue(priceObj)]; it hands back [displayValue] as it
    finds it, so the result is a value. *)
Definition extractDisplayValue (priceObj : JValue) : JValue :=
  match priceObj with
  | JNull | JUndef => JStr EmptyString
  | JStr s =>
      JStr (if startsWith s "$" || startsWith s "-$" then s else "$" ++ s)
  | JNum _ | JNaN => dollars priceObj
  | JArr _ | JObj _ =>
      if truthy (get priceObj "displayValue") then get priceObj "displayValue"
      else
        match get priceObj "value" with
        | JUndef =>
            match get priceObj "amount" with
            | JUndef => JStr EmptyString
            | amt => shown amt
            end
        | val => shown val
        end
  | JBool _ => JStr EmptyString
  end.

End Prices.

(** The parser of an order given as JSON.  It is kept in a module of its
    own because a [World] has a field of the same name.  Where the source
    throws, the model throws with the message of the engine. *)
Module Detail.
Section Parser.
Variable host : Host.

(** The price string and the price value of a line. *)
Definition line_price (price : JValue) : Result (JValue * JValue) :=
  match price with
  | JNum _ | JNaN => Ok (dollars host price, price)
  | JStr s =>
      Ok (JStr (if startsWith s "$" then s else "$" ++ s), money_value host s)
  | JArr _ | JObj _ =>
      let priceVal :=
        get price "amount" or_else get price "value" or_else get price "price"
        or_else JNum 0 in
      match priceVal with
      | JNum _ | JNaN => Ok (dollars host priceVal, priceVal)
      | _ => Throw "priceVal.toFixed is not a function"
      end
  | JBool _ | JNull | JUndef => Ok (JStr EmptyString, JNum 0)
  end.

(** One turn of the loop over the line items; the last statement of a
    turn that pushes an item reads [name.substring]. *)
Definition line_step (items : list Item) (item : JValue) : Result (list Item) :=
  match item with
  | JNull => Throw "Cannot read properties of null (reading 'item')"
  | JUndef => Throw "Cannot read properties of undefined (reading 'item')"
  | _ =>
      let itemData := get item "item" or_else get item "product" or_else item in
      let name :=
        get itemData "name" or_else get itemData "productName"
        or_else get itemData "description" or_else get itemData "title"
        or_else JStr EmptyString in
      let price :=
        get itemData "price" or_else get itemData "unitPrice"
        or_else get itemData "salePrice" or_else get itemData "linePrice"
        or_else get itemData "itemPrice" or_else JStr EmptyString in
      let quantity :=
        get itemData "quantity" or_else get itemData "qty"
        or_else get item "quantity" or_else JNum 1 in
      if truthy name then
        match line_price price with
        | Throw e => Throw e
        | Ok (priceStr, priceVal) =>
            match name with
            | JStr _ =>
                Ok (items ++ [{| name := name; quantity := quantity;
                                 price := priceStr; priceValue := priceVal |}])%list
            | _ => Throw "name.substring is not a function"
            end
        end
      else Ok items
  end.

Fixpoint line_steps (items : list Item) (lineItems : list JValue)
    : Result (list Item) :=
  match lineItems with
  | [] => Ok items
  | item :: rest =>
      match line_step items item with
      | Ok items' => line_steps items' rest
      | Throw e => Throw e
      end
  end.

Definition dateFields : list string :=
  ["orderDate"; "placedDate"; "date"; "createdDate"; "purchaseDate";
   "orderPlacedDate"; "submittedDate"].

(** The loop over [dateFields]: the first field that is set is formatted. *)
Fixpoint first_date (data : JValue) (fields : list string) : string :=
  match fields with
  | [] => "Unknown"
  | field :: rest =>
      if truthy (get data field) then formatDate host (get data field)
      else first_date data rest
  end.

Definition parseOrderFromJSONData (data : JValue) (orderId : string) : Result Order :=
  match data with
  | JNull | JUndef => Throw "Cannot convert undefined or null to object"
  | _ =>
      let lineItems :=
        get data "lineItems" or_else get data "items" or_else get data "orderLines"
        or_else get data "products" or_else get data "orderItems" or_else JArr [] in
      match iterate lineItems with
      | None => Throw "lineItems is not iterable"
      | Some l =>
          match line_steps [] l with
          | Throw e => Throw e
          | Ok items =>
              let orderDate := first_date data dateFields in
              let status0 :=
                get data "status" or_else get data "orderStatus"
                or_else get data "fulfillmentStatus" or_else JStr "Unknown" in
              let status :=
                match typeof status0 with
                | TObject =>
                    get status0 "label" or_else get status0 "name"
                    or_else get status0 "value" or_else JStr "Unknown"
                | _ => status0
                end in
              let subtotal :=
                extractPrice host (get data "subtotal" or_else get data "subTotal"
                                   or_else get data "itemsTotal") in
              let tax :=
                extractPrice host (get data "tax" or_else get data "taxTotal"
                                   or_else get data "estimatedTax") in
              let total :=
                extractPrice host (get data "total" or_else get data "orderTotal"
                                   or_else get data "grandTotal") in
              Ok {| orderId := orderId;
                    orderNumber :=
                      get data "orderNumber" or_else get data "orderId"
                      or_else get data "id" or_else JStr orderId;
                    orderType := online;
                    orderDate := orderDate;
                    status := status;
                    items := items;
                    subtotal := JStr subtotal;
                    tax := JStr tax;
                    total := JStr total;
                    associateDiscount := JStr EmptyString;
                    driverTip := JStr EmptyString;
                    deliveryFee := JStr EmptyString;
                    expressFee := JStr EmptyString;
                    storeLocation := no_location;
                    error := None |}
          end
      end
  end.

End Parser.
End Detail.

(** A price as the parsers write it: empty, or a text after a dollar sign. *)
Definition price_text (v : JValue) : Prop :=
  exists p, v = JStr p /\ (p = EmptyString \/ startsWith p "$" = true).

(** ** The message listener *)

(** The condition under which the listener of [START_EXPORT] calls
    [triggerDownload]: [result.success && result.csv && result.orderCount > 0]. *)
Definition triggersDownload (result : ExportResult) : bool :=
  success result
  && match csv result with
     | Some content => negb (String.eqb content EmptyString)
     | None => false
     end
  && match orderCount result with
     | Some n => 0 <? n
     | None => false
     end.

Module SampleJson.

(** An order as the API gives it: one line priced by a number, one by a
    text, one without a price. *)
Definition order : JValue :=
  JObj [("orderId", JStr "200012345678901");
        ("status", JObj [("label", JStr "Delivered")]);
        ("total", JNum (4567 # 100));
        ("lineItems",
         JArr [JObj [("name", JStr "Great Value Whole Milk 1 gal");
                     ("price", JNum (348 # 100)); ("quantity", JNum 2)];
               JObj [("item", JObj [("name", JStr "Bananas, each");
                                    ("price", JStr "1.20")])];
               JObj [("name", JStr "Paper Towels")]])].

End SampleJson.

(** ** Order ids *)

(** The pattern has no capture group numbered [g]. *)
Fixpoint no_group (g : nat) (r : re) : bool :=
  match r with
  | Eps | Lit _ | Cls _ | Bol | Eol => true
  | Seq a b | Alt a b => no_group g a && no_group g b
  | Rep _ _ a => no_group g a
  | Grp n a => negb (Nat.eqb n g) && no_group g a
  end.

(** A non-empty run of decimal digits. *)
Definition digits (s : string) : Prop :=
  s <> EmptyString /\ Forall (fun c => is_digit c = true) (chars s).

(** ** Orders as the list page gives them *)

(** The dates the collector writes: [Unknown], today, or a month and a day
    followed by the current year. *)
Definition listed_date (host : Host) (d : string) : Prop :=
  d = "Unknown" \/ d = todayLabel host
  \/ exists month_day, d = month_day ++ ", " ++ currentYear host.

(** The statuses the collector writes. *)
Definition listed_status (s : string) : Prop :=
  In s ["Arrives today"; "Delivered"; "Preparing"; "On the way";
        "Store purchase"; "Unknown"]
  \/ exists day, s = "Arrives by " ++ day.

Definition listed (host : Host) (o : Order) : Prop :=
  listed_date host (orderDate o)
  /\ (exists s, status o = JStr s /\ listed_status s)
  /\ orderNumber o = JStr (orderId o)
  /\ subtotal o = JStr EmptyString /\ tax o = JStr EmptyString
  /\ price_text (total o)
  /\ error o = None.

Module SampleEnrich.

(** The structured data of a detail page with one priced item. *)
Definition nextData : JValue :=
  JObj [("props",
         JObj [("pageProps",
                JObj [("items",
                       JArr [JObj [("name", JStr "Great Value Whole Milk 1 gal");
                                   ("price", JNum (348 # 100))]])])])].

Definition page : Document :=
  {| productLinks := []; structLinks := []; textElements := [];
     mainText := None; nextDataScript := Some (Ok nextData) |}.

Definition meta : OrderMeta.t :=
  {| OrderMeta.orderDate := JStr "Oct 20, 2026";
     OrderMeta.subtotal := JStr "$40.00";
     OrderMeta.tax := JStr "$2.00";
     OrderMeta.total := JStr "$99.99";
     OrderMeta.associateDiscount := JUndef;
     OrderMeta.driverTip := JUndef;
     OrderMeta.deliveryFee := JUndef;
     OrderMeta.expressFee := JUndef |}.

(** Every detail page is [page], and its metadata is [meta]. *)
Definition world : World :=
  {| listPage := listPage SampleRun.dated;
     fetch := SampleRun.serving page;
     fetchOrderFromAPI := fetchOrderFromAPI SampleRun.dated;
     parseOrderFromJSONData := parseOrderFromJSONData SampleRun.dated;
     parseStorePurchasePage := parseStorePurchasePage SampleRun.dated;
     parseOrderDetailPage := parseOrderDetailPage SampleRun.dated;
     extractOrderMetaFromNextData := fun _ => Some meta;
     sendMessage := sendMessage SampleRun.dated;
     stopAt := None |}.

End SampleEnrich.

(** * Properties *)

(** ** Strings and lists *)

Lemma chars_text (l : list ascii) : chars (text l) = l.
Proof. apply list_ascii_of_string_of_list_ascii. Qed.

Lemma text_chars (s : string) : text (chars s) = s.
Proof. apply string_of_list_ascii_of_string. Qed.

Lemma chars_append (a b : string) : chars (a ++ b) = (chars a ++ chars b)%list.
Proof.
  induction a as [| c a IH]; simpl.
  - reflexivity.
  - unfold chars in *. simpl. now rewrite IH.
Qed.

Lemma includes_char_In (c : ascii) (s : string) :
  includes_char c s = true <-> In c (chars s).
Proof.
  unfold includes_char. rewrite existsb_exists. split.
  - intros [x [Hin Heq]]. apply Ascii.eqb_eq in Heq. now subst.
  - intros Hin. exists c. split; [assumption | apply Ascii.eqb_refl].
Qed.

(** ** CSV fields *)

Lemma collapse_doubled (l : list ascii) :
  collapse_quotes (flat_map replace_quote l ++ [dquote]) = Some l.
Proof.
  induction l as [| c l IH].
  - reflexivity.
  - cbn [flat_map]. unfold replace_quote at 1.
    destruct (Ascii.eqb c dquote) eqn:E.
    + apply Ascii.eqb_eq in E. subst c.
      change (collapse_quotes (dquote :: dquote :: (flat_map replace_quote l ++ [dquote])%list)
              = Some (dquote :: l)).
      cbn [collapse_quotes]. rewrite Ascii.eqb_refl, IH. reflexivity.
    + change (collapse_quotes (c :: (flat_map replace_quote l ++ [dquote])%list)
              = Some (c :: l)).
      cbn [collapse_quotes]. rewrite E, IH. reflexivity.
Qed.

Lemma parse_quoted_quoted (s : string) : parse_quoted (quoted s) = Some s.
Proof.
  unfold parse_quoted, quoted.
  change (chars (String dquote (double_quotes s ++ String dquote EmptyString)))
    with (dquote :: chars (double_quotes s ++ String dquote EmptyString)).
  cbv beta iota. rewrite Ascii.eqb_refl.
  rewrite chars_append. unfold double_quotes. rewrite chars_text.
  change (chars (String dquote EmptyString)) with [dquote].
  rewrite collapse_doubled. simpl. now rewrite text_chars.
Qed.

(** C2. [escapeCSV] wraps a string in double quotes, with every double
    quote inside doubled, exactly when the string holds a comma, a double
    quote or a newline, and leaves it unchanged otherwise; reading a wrapped
    field back (outer quotes stripped, doubled quotes collapsed) gives the
    string again. *)
Theorem escapeCSV_wraps_iff_special (host : Host) (s : string) :
  (needs_quoting s = true <->
     In comma (chars s) \/ In dquote (chars s) \/ In newline (chars s))
  /\ escapeCSV host (JStr s) =
       (if needs_quoting s
        then String dquote (double_quotes s ++ String dquote EmptyString)
        else s)
  /\ (needs_quoting s = true ->
        parse_quoted (escapeCSV host (JStr s)) = Some s).
Proof.
  split; [| split].
  - unfold needs_quoting. rewrite !orb_true_iff, !includes_char_In. tauto.
  - reflexivity.
  - intros H. unfold escapeCSV. simpl. rewrite H. apply parse_quoted_quoted.
Qed.

Lemma escapeCSV_wraps_iff_special_witness :
  parse_quoted (escapeCSV Sample.host (JStr Sample.quoted_name)) =
  Some Sample.quoted_name.
Proof.
  apply (proj2 (proj2 (escapeCSV_wraps_iff_special Sample.host _))).
  reflexivity.
Defined.

(** ** CSV layouts *)


(** ** Deduplication by name *)

Lemma has_app (seen : list JValue) (n v : JValue) :
  has (seen ++ [n]) v = has seen v || same_value_zero v n.
Proof.
  unfold has. rewrite existsb_app. simpl. now rewrite orb_false_r.
Qed.

Lemma same_value_zero_str (s : string) (v : JValue) :
  same_value_zero (JStr s) v = true <-> v = JStr s.
Proof.
  destruct v; simpl; split; try discriminate.
  - intros H. apply String.eqb_eq in H. now subst.
  - intros H. injection H as ->. apply String.eqb_refl.
Qed.

Lemma string_names_app (l : list Item) (it : Item) :
  string_names (l ++ [it]) =
  (string_names l ++ match name it with JStr s => [s] | _ => [] end)%list.
Proof.
  unfold string_names. rewrite flat_map_app. simpl. now rewrite app_nil_r.
Qed.


Lemma names_seen_start : names_seen ([], []).
Proof. split; [constructor | intros s []]. Qed.

Lemma NoDup_snoc {A : Type} (l : list A) (x : A) :
  NoDup l -> ~ In x l -> NoDup (l ++ [x]).
Proof.
  intros Hl Hx. apply NoDup_rev in Hl. rewrite <- (rev_involutive (l ++ [x])).
  apply NoDup_rev. rewrite rev_app_distr. simpl. constructor; [| assumption].
  intros Hin. apply Hx. now apply in_rev.
Qed.

Lemma names_seen_add (items : list Item) (seen : list JValue) (n : JValue) :
  names_seen (items, seen) -> names_seen (items, (seen ++ [n])%list).
Proof.
  unfold names_seen. cbn [fst snd]. intros [Hnd Hin]. split; [exact Hnd |].
  intros s Hs. rewrite has_app. rewrite (Hin s Hs). reflexivity.
Qed.

Lemma names_seen_push (items : list Item) (seen : list JValue) (it : Item) :
  names_seen (items, seen) ->
  has seen (name it) = false ->
  names_seen ((items ++ [it])%list, (seen ++ [name it])%list).
Proof.
  unfold names_seen. cbn [fst snd]. intros [Hnd Hin] Hnew. split.
  - rewrite string_names_app. destruct (name it) eqn:E;
      try (rewrite app_nil_r; exact Hnd).
    apply NoDup_snoc; [exact Hnd |].
    intros Hs. apply Hin in Hs. congruence.
  - intros s0 Hs. rewrite has_app. rewrite string_names_app in Hs.
    apply in_app_or in Hs. destruct Hs as [Hs | Hs].
    + rewrite (Hin s0 Hs). reflexivity.
    + destruct (name it) eqn:E; try contradiction.
      destruct Hs as [Hs | []]. subst s0.
      rewrite (proj2 (same_value_zero_str s (JStr s)) eq_refl).
      apply orb_true_r.
Qed.

Lemma names_seen_push_acc (acc : Acc) (it : Item) :
  names_seen acc -> has (snd acc) (name it) = false -> names_seen (push acc it).
Proof.
  destruct acc as [items seen]. apply names_seen_push.
Qed.

Lemma fold_left_names_seen {X : Type} (step : Acc -> X -> Acc) (l : list X) :
  (forall acc x, names_seen acc -> names_seen (step acc x)) ->
  forall acc, names_seen acc -> names_seen (fold_left step l acc).
Proof.
  intros Hstep. induction l as [| x l IH]; intros acc Hacc; simpl.
  - exact Hacc.
  - apply IH. apply Hstep. exact Hacc.
Qed.

Lemma fold_flow_names_seen {X : Type} (step : Acc -> X -> Flow) (l : list X) :
  (forall acc x, names_seen acc -> names_seen (flow_acc (step acc x))) ->
  forall acc, names_seen acc -> names_seen (flow_acc (fold_flow step l acc)).
Proof.
  intros Hstep. induction l as [| x l IH]; intros acc Hacc; simpl.
  - exact Hacc.
  - specialize (Hstep acc x Hacc). destruct (step acc x) as [a | a]; simpl in *.
    + apply IH. exact Hstep.
    + exact Hstep.
Qed.


Lemma container_step_names_seen (host : Host) (acc : Acc) (alt : string) :
  names_seen acc -> names_seen (container_step host acc alt).
Proof.
  intros Hacc. unfold container_step.
  destruct (_ || _ || _)%bool; [exact Hacc |].
  destruct (existsb _ skipPatterns); [exact Hacc |].
  match goal with |- context [if ?c then _ else _] => destruct c eqn:E end;
    [| exact Hacc].
  split_andb E. negb_has. apply names_seen_push_acc; assumption.
Qed.

Lemma dom_link_step_names_seen (host : Host) (acc : Acc) (link : Link) :
  names_seen acc -> names_seen (dom_link_step host acc link).
Proof.
  intros Hacc. unfold dom_link_step.
  match goal with |- context [if ?c then _ else _] => destruct c eqn:E end;
    [| exact Hacc].
  split_andb E. negb_has.
  destruct (climb_price host 20 (l_ancestors link) link_itself) as [[p q] c].
  match goal with |- context [let '(_, _) := ?e in _] => destruct e as [p' q'] end.
  destruct (isValidProductName _); [| exact Hacc].
  apply names_seen_push_acc; assumption.
Qed.

Lemma dom_struct_step_names_seen (host : Host) (acc : Acc) (link : Link) :
  names_seen acc -> names_seen (dom_struct_step host acc link).
Proof.
  intros Hacc. unfold dom_struct_step.
  match goal with |- context [if ?c then _ else _] => destruct c eqn:E end;
    [| exact Hacc].
  split_andb E. negb_has.
  match goal with |- context [let '(_, _) := ?e in _] => destruct e as [p' q'] end.
  apply names_seen_push_acc; assumption.
Qed.

Lemma dom_text_step_names_seen (host : Host) (acc : Acc) (el : TextElement) :
  names_seen acc -> names_seen (dom_text_step host acc el).
Proof.
  intros Hacc. unfold dom_text_step.
  match goal with |- context [if ?c then _ else _] => destruct c eqn:E end;
    [| exact Hacc].
  split_andb E. negb_has.
  destruct (t_parentText el); [| exact Hacc].
  destruct (exec false price_re s); [| exact Hacc].
  apply names_seen_push_acc; assumption.
Qed.

Lemma receipt_link_step_names_seen (host : Host) (acc : Acc) (link : Link) :
  names_seen acc -> names_seen (receipt_link_step host acc link).
Proof.
  intros Hacc. unfold receipt_link_step.
  match goal with |- context [if ?c then _ else _] => destruct c eqn:E end;
    [| exact Hacc].
  split_andb E. negb_has.
  destruct (climb_receipt host 20 (l_ancestors link) EmptyString (JNum 1)) as [p q].
  apply names_seen_push_acc; assumption.
Qed.

Lemma receipt_line_step_names_seen (host : Host) (acc : Acc) (line : string) :
  names_seen acc -> names_seen (receipt_line_step host acc line).
Proof.
  intros Hacc. unfold receipt_line_step.
  destruct (exec false receipt_line_re line); [| exact Hacc].
  match goal with |- context [if ?c then _ else _] => destruct c eqn:E end;
    [| exact Hacc].
  split_andb E. negb_has. apply names_seen_push_acc; assumption.
Qed.

Lemma group_item_step_names_seen (host : Host) (acc : Acc) (lineItem : JValue) :
  names_seen acc -> names_seen (flow_acc (group_item_step host acc lineItem)).
Proof.
  intros Hacc. destruct acc as [items seen]. unfold group_item_step. cbv zeta.
  cbn [fst snd].
  match goal with |- context [has seen ?n] => set (nm := n) end.
  destruct (negb (truthy nm) || has seen nm)%bool eqn:E; [exact Hacc |].
  apply orb_false_iff in E. destruct E as [_ E].
  destruct (group_price host lineItem _) as [price priceStr0].
  match goal with |- context [match ?e with Some _ => _ | None => _ end] =>
    destruct e as [priceStr |] end.
  - assert (H : names_seen
                  ((items ++ [{| name := nm;
                                 quantity := get lineItem "quantity"
                                   or_else get (get lineItem "productInfo"
                                     or_else get lineItem "item"
                                     or_else get lineItem "product"
                                     or_else lineItem) "quantity"
                                   or_else JNum 1;
                                 price := priceStr;
                                 priceValue := price |}])%list,
                   (seen ++ [nm])%list)).
    { apply (names_seen_push items seen
               {| name := nm; quantity := _; price := priceStr;
                  priceValue := price |}); assumption. }
    destruct nm; exact H.
  - cbn [flow_acc]. apply names_seen_add. exact Hacc.
Qed.

Lemma group_step_names_seen (host : Host) (acc : Acc) (group : JValue) :
  names_seen acc -> names_seen (flow_acc (group_step host acc group)).
Proof.
  intros Hacc. unfold group_step.
  destruct (iterate _) as [l |]; [| exact Hacc].
  apply fold_flow_names_seen; [| exact Hacc].
  intros a x. apply group_item_step_names_seen.
Qed.

Lemma try_group_paths_names_seen (host : Host) (paths : list JValue) :
  forall acc, names_seen acc ->
  names_seen (flow_acc (try_group_paths host paths acc)).
Proof.
  induction paths as [| p paths IH]; intros acc Hacc; simpl.
  - exact Hacc.
  - destruct p; try (apply IH; exact Hacc).
    pose proof (fold_flow_names_seen (group_step host) elems
                  (fun a x => group_step_names_seen host a x) acc Hacc) as H.
    destruct (fold_flow (group_step host) elems acc) as [a | a]; simpl in *.
    + destruct (is_empty (fst a)); [apply IH; exact H | exact H].
    + exact H.
Qed.

Lemma direct_item_step_names_seen (host : Host) (acc : Acc) (item : JValue) :
  names_seen acc -> names_seen (flow_acc (direct_item_step host acc item)).
Proof.
  intros Hacc. destruct acc as [items seen]. unfold direct_item_step. cbv zeta.
  cbn [fst snd].
  match goal with |- context [has seen ?n] => set (nm := n) end.
  destruct (negb (truthy nm) || has seen nm)%bool eqn:E; [exact Hacc |].
  apply orb_false_iff in E. destruct E as [_ E].
  match goal with |- context [match ?e with Some _ => _ | None => _ end] =>
    destruct e as [priceStr |] end.
  - cbn [flow_acc].
    apply (names_seen_push items seen
             {| name := nm; quantity := _; price := priceStr;
                priceValue := _ |}); assumption.
  - cbn [flow_acc]. apply names_seen_add. exact Hacc.
Qed.

Lemma extractItemsFromNextData_names_seen (host : Host) (nextData : JValue) (orderId : string) :
  NoDup (string_names (extractItemsFromNextData host nextData orderId)).
Proof.
  unfold extractItemsFromNextData. cbv zeta.
  destruct (negb (truthy _)); [constructor |].
  pose proof (try_group_paths_names_seen host
                (possibleGroupPaths (path nextData ["props"; "pageProps"]))
                ([], []) names_seen_start) as H.
  destruct (try_group_paths host _ ([], [])) as [a | a]; simpl in H.
  - destruct (is_empty (fst a)); [| exact (proj1 H)].
    destruct (iterate _) as [l |]; [| exact (proj1 H)].
    apply (fold_flow_names_seen (direct_item_step host) l
             (fun a0 x => direct_item_step_names_seen host a0 x) a H).
  - exact (proj1 H).
Qed.

Lemma fold_left_items {X : Type} (P : Item -> Prop) (step : Acc -> X -> Acc) (l : list X) :
  (forall acc x, In x l -> Forall P (fst acc) -> Forall P (fst (step acc x))) ->
  forall acc, Forall P (fst acc) -> Forall P (fst (fold_left step l acc)).
Proof.
  induction l as [| x l IH]; intros Hstep acc Hacc; simpl.
  - exact Hacc.
  - apply IH.
    + intros a y Hy. apply Hstep. now right.
    + apply Hstep; [now left | exact Hacc].
Qed.

Lemma fold_flow_items {X : Type} (P : Item -> Prop) (step : Acc -> X -> Flow) (l : list X) :
  (forall acc x, Forall P (fst acc) -> Forall P (fst (flow_acc (step acc x)))) ->
  forall acc, Forall P (fst acc) -> Forall P (fst (flow_acc (fold_flow step l acc))).
Proof.
  intros Hstep. induction l as [| x l IH]; intros acc Hacc; simpl.
  - exact Hacc.
  - specialize (Hstep acc x Hacc). destruct (step acc x) as [a | a]; simpl in *.
    + apply IH. exact Hstep.
    + exact Hstep.
Qed.

Lemma Forall_push (P : Item -> Prop) (acc : Acc) (it : Item) :
  Forall P (fst acc) -> P it -> Forall P (fst (push acc it)).
Proof.
  intros Hacc Hit. unfold push. cbn [fst]. apply Forall_app. split; [exact Hacc |].
  constructor; [exact Hit | constructor].
Qed.

Ltac push_named Hacc :=
  repeat match goal with
         | |- context [if ?c then _ else _] => destruct c
         | |- context [match ?x with _ => _ end] => destruct x
         end;
  try exact Hacc;
  (apply Forall_push; [exact Hacc | eexists; reflexivity]).

Lemma container_step_named (host : Host) (acc : Acc) (alt : string) :
  Forall named (fst acc) -> Forall named (fst (container_step host acc alt)).
Proof. intros Hacc. unfold container_step. push_named Hacc. Qed.

Lemma dom_link_step_named (host : Host) (acc : Acc) (link : Link) :
  Forall named (fst acc) -> Forall named (fst (dom_link_step host acc link)).
Proof. intros Hacc. unfold dom_link_step. push_named Hacc. Qed.

Lemma dom_struct_step_named (host : Host) (acc : Acc) (link : Link) :
  Forall named (fst acc) -> Forall named (fst (dom_struct_step host acc link)).
Proof. intros Hacc. unfold dom_struct_step. push_named Hacc. Qed.

Lemma dom_text_step_named (host : Host) (acc : Acc) (el : TextElement) :
  Forall named (fst acc) -> Forall named (fst (dom_text_step host acc el)).
Proof. intros Hacc. unfold dom_text_step. push_named Hacc. Qed.

Lemma receipt_link_step_named (host : Host) (acc : Acc) (link : Link) :
  Forall named (fst acc) -> Forall named (fst (receipt_link_step host acc link)).
Proof. intros Hacc. unfold receipt_link_step. push_named Hacc. Qed.

Lemma receipt_line_step_named (host : Host) (acc : Acc) (line : string) :
  Forall named (fst acc) -> Forall named (fst (receipt_line_step host acc line)).
Proof. intros Hacc. unfold receipt_line_step. push_named Hacc. Qed.

Lemma named_names (l : list Item) :
  Forall named l -> map name l = map JStr (string_names l).
Proof.
  induction 1 as [| it l [s Hs] _ IH]; [reflexivity |].
  unfold string_names in *. cbn [map flat_map]. rewrite Hs. cbn [app map].
  now rewrite IH.
Qed.

Lemma NoDup_names (acc : Acc) :
  names_seen acc -> Forall named (fst acc) -> NoDup (map name (fst acc)).
Proof.
  intros [Hnd _] Hnamed. rewrite (named_names _ Hnamed).
  induction Hnd as [| s l' Hnotin _ IH]; [constructor |].
  cbn [map]. constructor; [| exact IH].
  intros Hin. apply in_map_iff in Hin. destruct Hin as [s' [E Hs']].
  injection E as ->. contradiction.
Qed.

(** Both facts a pass over a list of DOM nodes maintains. *)
Lemma fold_left_named_seen {X : Type} (step : Acc -> X -> Acc) (l : list X) :
  (forall acc x, names_seen acc -> names_seen (step acc x)) ->
  (forall acc x, Forall named (fst acc) -> Forall named (fst (step acc x))) ->
  forall acc,
  names_seen acc /\ Forall named (fst acc) ->
  names_seen (fold_left step l acc) /\ Forall named (fst (fold_left step l acc)).
Proof.
  intros Hseen Hnamed acc [H1 H2]. split.
  - apply fold_left_names_seen; assumption.
  - apply fold_left_items; [| exact H2]. intros a x _. apply Hnamed.
Qed.

(** C4. One pass of any item extractor (structured data, DOM, image alt
    text, receipt) returns items whose names are pairwise different,
    whatever the page repeats.  The names of the DOM, alt text and receipt
    strategies are strings; for the structured-data strategy the statement
    is about the names that are strings. *)
Theorem extracted_names_distinct (host : Host) (nextData : JValue) (orderId : string)
    (doc : Document) (container : option Element) (pageText : string) :
  NoDup (string_names (extractItemsFromNextData host nextData orderId))
  /\ NoDup (map name (extractItemsFromDOM host doc))
  /\ NoDup (map name (extractItemsFromOrderContainer host container))
  /\ NoDup (map name (extractItemsFromReceipt host doc pageText)).
Proof.
  assert (Hstart : names_seen ([], []) /\ Forall named (fst (([], []) : Acc))).
  { split; [exact names_seen_start | constructor]. }
  split; [apply extractItemsFromNextData_names_seen |].
  split; [| split].
  - unfold extractItemsFromDOM. cbv zeta.
    set (acc1 := fold_left (dom_link_step host) (productLinks doc) ([], [])).
    assert (H1 : names_seen acc1 /\ Forall named (fst acc1)).
    { apply fold_left_named_seen; [| | exact Hstart].
      - intros a x. apply dom_link_step_names_seen.
      - intros a x. apply dom_link_step_named. }
    set (acc2 := if is_empty (fst acc1)
                 then fold_left (dom_struct_step host) (structLinks doc) acc1
                 else acc1).
    assert (H2 : names_seen acc2 /\ Forall named (fst acc2)).
    { unfold acc2. destruct (is_empty (fst acc1)); [| exact H1].
      apply fold_left_named_seen; [| | exact H1].
      - intros a x. apply dom_struct_step_names_seen.
      - intros a x. apply dom_struct_step_named. }
    destruct (is_empty (fst acc2)).
    + apply NoDup_names;
        apply (fold_left_named_seen (dom_text_step host) (textElements doc)
                 (fun a x => dom_text_step_names_seen host a x)
                 (fun a x => dom_text_step_named host a x) acc2 H2).
    + apply NoDup_names; apply H2.
  - destruct container as [c |]; [| constructor].
    unfold extractItemsFromOrderContainer.
    apply NoDup_names;
      apply (fold_left_named_seen (container_step host) (imgs c)
               (container_step_names_seen host) (container_step_named host)
               ([], []) Hstart).
  - unfold extractItemsFromReceipt. cbv zeta.
    set (acc1 := fold_left (receipt_link_step host) (productLinks doc) ([], [])).
    assert (H1 : names_seen acc1 /\ Forall named (fst acc1)).
    { apply fold_left_named_seen; [| | exact Hstart].
      - intros a x. apply receipt_link_step_names_seen.
      - intros a x. apply receipt_link_step_named. }
    destruct (is_empty (fst acc1)).
    + apply NoDup_names;
        apply (fold_left_named_seen (receipt_line_step host) (split_lines pageText)
                 (fun a x => receipt_line_step_names_seen host a x)
                 (fun a x => receipt_line_step_named host a x) acc1 H1).
    + apply NoDup_names; apply H1.
Qed.

(** ** The export loop in a quiet world *)

Lemma bind_done {A B : Type} (c : M A) (k : A -> M B) (r r' : Run) (a : A) :
  c r = Done a r' -> bind c k r = k a r'.
Proof. intros H. unfold bind. now rewrite H. Qed.

Lemma bind_raised {A B : Type} (c : M A) (k : A -> M B) (r r' : Run) (e : string) :
  c r = Raised e r' -> bind c k r = Raised e r'.
Proof. intros H. unfold bind. now rewrite H. Qed.


Lemma same_orders_trans (r1 r2 r3 : Run) :
  same_orders r1 r2 -> same_orders r2 r3 -> same_orders r1 r3.
Proof.
  unfold same_orders. intros [A1 [B1 C1]] [A2 [B2 C2]].
  repeat split; congruence.
Qed.

Section Quiet.
Variable host : Host.
Variable world : World.
(** Nobody stops the run and every progress message is delivered. *)
Hypothesis not_stopped : stopAt world = None.
Hypothesis delivered : forall k, sendMessage world k = None.

Lemma isExporting_quiet (r : Run) : isExporting world r = Done true r.
Proof. unfold isExporting, exporting. now rewrite not_stopped. Qed.

Lemma sendProgress_quiet (r : Run) :
  exists r', sendProgress world r = Done tt r' /\ same_orders r r'
             /\ calls r' = calls r.
Proof.
  unfold sendProgress. rewrite delivered. eexists. split; [reflexivity |].
  repeat split.
Qed.

Lemma fetch_each_quiet (orderIds : list OrderInfo.t) :
  forall pageOrders r,
  exists r',
    fetch_each world orderIds pageOrders r =
      Done (pageOrders ++ flat_map (fetched world) orderIds)%list r'
    /\ calls r' =
         (calls r ++ map (fun i => FetchOrderDetails (OrderInfo.orderId i)) orderIds)%list
    /\ same_orders r r'.
Proof.
  induction orderIds as [| orderInfo rest IH]; intros pageOrders r.
  - exists r. cbn. rewrite !app_nil_r. repeat split.
  - cbn [fetch_each].
    rewrite (bind_done _ _ _ _ _ (isExporting_quiet r)). cbn [negb].
    destruct (sendProgress_quiet r) as [r1 [E1 [S1 C1]]].
    rewrite (bind_done _ _ _ _ _ E1).
    unfold bind at 1. unfold called.
    unfold bind at 1. unfold awaited at 1.
    unfold bind at 1. unfold delay, awaited.
    match goal with |- context [fetch_each world rest ?po ?r0] =>
      destruct (IH po r0) as [r' [E [Hc Hs]]] end.
    exists r'. rewrite E. cbn [calls] in Hc.
    split; [| split].
    + f_equal. cbn [flat_map]. unfold fetched at 2.
      destruct (fetchOrderDetails world (ByInfo orderInfo)) as [details | e].
      * destruct (negb (String.eqb (orderId details) EmptyString)).
        -- now rewrite <- app_assoc.
        -- reflexivity.
      * reflexivity.
    + rewrite Hc, C1. cbn [map]. now rewrite <- app_assoc.
    + eapply same_orders_trans; [exact S1 |].
      destruct Hs as [A [B C]]. cbn [orders clicks processedOrders] in A, B, C.
      repeat split; assumption.
Qed.

Lemma with_prices_quiet (options : Options) (o : Order) (r : Run) :
  exists r',
    with_prices host world options o r = Done (detailed host world options o) r'
    /\ same_orders r r'.
Proof.
  unfold with_prices, detailed.
  destruct (fetchItemPrices options && includeItems options)%bool.
  - destruct (sendProgress_quiet r) as [r1 [E1 [S1 C1]]].
    rewrite (bind_done _ _ _ _ _ E1).
    unfold bind, called, awaited, delay, awaited, ret.
    eexists. split; [reflexivity |].
    destruct S1 as [A [B C]]. repeat split; assumption.
  - exists r. split; [reflexivity | repeat split].
Qed.

Lemma process_orders_quiet (options : Options) (cutoffDate : option Z)
    (pageOrders : list Order) :
  forall reachedCutoff r,
  exists r',
    process_orders host world options cutoffDate pageOrders reachedCutoff r =
      Done (reachedCutoff
            || existsb (before_cutoff host cutoffDate)
                       (map (detailed host world options) pageOrders)) r'
    /\ orders r' =
         (orders r ++ filter (kept host options cutoffDate)
                        (map (detailed host world options) pageOrders))%list
    /\ clicks r' = clicks r
    /\ processedOrders r' = processedOrders r + List.length pageOrders.
Proof.
  induction pageOrders as [| o rest IH]; intros reachedCutoff r.
  - exists r. cbn. rewrite orb_false_r, app_nil_r, Nat.add_0_r. repeat split.
  - cbn [process_orders].
    rewrite (bind_done _ _ _ _ _ (isExporting_quiet r)). cbn [negb].
    destruct (sendProgress_quiet r) as [r1 [E1 [[A1 [B1 C1]] _]]].
    rewrite (bind_done _ _ _ _ _ E1).
    destruct (with_prices_quiet options o r1) as [r2 [E2 [A2 [B2 C2]]]].
    rewrite (bind_done _ _ _ _ _ E2). cbv zeta.
    change (negb (before_cutoff host cutoffDate (detailed host world options o))
            && negb (wrong_type (orderTypeFilter options)
                       (detailed host world options o)))%bool
      with (kept host options cutoffDate (detailed host world options o)).
    cbn [map existsb filter].
    set (od := detailed host world options o).
    destruct (kept host options cutoffDate od) eqn:Ekept.
    + unfold bind at 1. unfold push_order.
      unfold bind at 1. unfold count_processed.
      match goal with |- context [process_orders _ _ _ _ rest ?b ?r0] =>
        destruct (IH b r0) as [r' [E [Ho [Hk Hp]]]] end.
      exists r'. rewrite E. cbn [orders clicks processedOrders] in Ho, Hk, Hp.
      split; [| split; [| split]].
      * f_equal. now rewrite orb_assoc.
      * rewrite Ho, A2, A1. now rewrite <- app_assoc.
      * congruence.
      * rewrite Hp, C2, C1. cbn [List.length]. lia.
    + unfold bind at 1. unfold ret at 1.
      unfold bind at 1. unfold count_processed.
      match goal with |- context [process_orders _ _ _ _ rest ?b ?r0] =>
        destruct (IH b r0) as [r' [E [Ho [Hk Hp]]]] end.
      exists r'. rewrite E. cbn [orders clicks processedOrders] in Ho, Hk, Hp.
      split; [| split; [| split]].
      * f_equal. now rewrite orb_assoc.
      * rewrite Ho, A2, A1. reflexivity.
      * congruence.
      * rewrite Hp, C2, C1. cbn [List.length]. lia.
Qed.

End Quiet.

Lemma or_fetched_quiet (host : Host) (world : World) (page : ListPage) (r : Run) :
  stopAt world = None -> (forall k, sendMessage world k = None) ->
  exists r',
    or_fetched world page (extractOrderDataFromListPage host page) r =
      Done (collected host world page) r'
    /\ same_orders r r'.
Proof.
  intros Hstop Hsend. unfold or_fetched, collected. cbv zeta.
  destruct (extractOrderDataFromListPage host page) as [| o l] eqn:E; cbn [is_empty].
  - destruct (sendProgress_quiet world Hsend r) as [r1 [E1 [S1 _]]].
    rewrite (bind_done _ _ _ _ _ E1).
    destruct (fetch_each_quiet world Hstop Hsend (getOrderIdsFromPage page) [] r1)
      as [r2 [E2 [_ S2]]].
    exists r2. split; [exact E2 |]. eapply same_orders_trans; eassumption.
  - exists r. split; [reflexivity | repeat split].
Qed.

(** ** Fetch failures *)

(** C6. [fetchOrderDetails] never throws: when its fetch or its parsing
    fails it returns a record with status [Error fetching], no items and the
    failure message in [error]; and the loop that called it goes on to the
    remaining order links, keeping that record. *)
Theorem fetch_failure_is_a_record (world : World) :
  (forall orderInfo, exists order, fetchOrderDetails world orderInfo = Ok order)
  /\ (forall orderInfo message,
        fetchOrderDetails_try world orderInfo = Throw message ->
        exists order,
          fetchOrderDetails world orderInfo = Ok order
          /\ orderId order = ref_orderId orderInfo
          /\ status order = JStr "Error fetching"
          /\ items order = []
          /\ error order = Some message)
  /\ (stopAt world = None -> (forall k, sendMessage world k = None) ->
      forall orderIds pageOrders r,
      exists r',
        fetch_each world orderIds pageOrders r =
          Done (pageOrders ++ flat_map (fetched world) orderIds)%list r'
        /\ calls r' =
             (calls r ++ map (fun i => FetchOrderDetails (OrderInfo.orderId i))
                             orderIds)%list
        /\ (forall i message,
              In i orderIds ->
              fetchOrderDetails_try world (ByInfo i) = Throw message ->
              OrderInfo.orderId i <> EmptyString ->
              fetched world i =
                [error_order (OrderInfo.orderId i) (OrderInfo.isStore i) message])).
Proof.
  split; [| split].
  - intros orderInfo. unfold fetchOrderDetails.
    destruct (fetchOrderDetails_try world orderInfo); eexists; reflexivity.
  - intros orderInfo message H. unfold fetchOrderDetails. rewrite H.
    eexists. repeat split.
  - intros Hstop Hsend orderIds pageOrders r.
    destruct (fetch_each_quiet world Hstop Hsend orderIds pageOrders r)
      as [r' [E [Hc _]]].
    exists r'. split; [exact E |]. split; [exact Hc |].
    intros i message _ Hfail Hid. unfold fetched, fetchOrderDetails.
    rewrite Hfail. cbn [orderId error_order ref_orderId ref_isStore].
    destruct (String.eqb (OrderInfo.orderId i) EmptyString) eqn:Eid.
    + apply String.eqb_eq in Eid. contradiction.
    + reflexivity.
Qed.

Lemma fetch_failure_is_a_record_witness :
  exists r',
    fetch_each SampleRun.unreachable (getOrderIdsFromPage SampleRun.links_only) []
               start =
      Done (flat_map (fetched SampleRun.unreachable)
                     (getOrderIdsFromPage SampleRun.links_only)) r'
    /\ calls r' = [FetchOrderDetails "111"; FetchOrderDetails "222"].
Proof.
  destruct (proj2 (proj2 (fetch_failure_is_a_record SampleRun.unreachable))
              eq_refl (fun _ => eq_refl)
              (getOrderIdsFromPage SampleRun.links_only) [] start)
    as [r' [E [Hc _]]].
  exists r'. split; [exact E | exact Hc].
Defined.

(** ** Run failures *)

(** C7. When an exception escapes the loop of [exportOrders], the result
    is [{success: false, error}] with the message of the exception: it has
    no [csv] and no counts, whatever orders the run had accumulated. *)
Theorem escaped_exception_discards_orders (host : Host) (world : World)
    (fuel : nat) (options : Options) (message : string) (r : Run) :
  export_try host world fuel options start = Raised message r ->
  exists result,
    exportOrders host world fuel options = Some (result, r)
    /\ success result = false
    /\ error_message result = Some message
    /\ csv result = None
    /\ orderCount result = None
    /\ itemCount result = None.
Proof.
  intros H. unfold exportOrders. rewrite H. eexists. repeat split.
Qed.

Lemma escaped_exception_discards_orders_witness :
  exists result r,
    exportOrders Sample.host SampleRun.closing 3 (SampleRun.options AllDates false) =
      Some (result, r)
    /\ List.length (orders r) = 1
    /\ success result = false
    /\ error_message result = Some "Extension context invalidated."
    /\ csv result = None.
Proof.
  assert (H : exists r,
            export_try Sample.host SampleRun.closing 3
              (SampleRun.options AllDates false) start =
              Raised "Extension context invalidated." r
            /\ List.length (orders r) = 1).
  { eexists. split; vm_compute; reflexivity. }
  destruct H as [r [H Hlen]].
  destruct (escaped_exception_discards_orders _ _ _ _ _ _ H)
    as [result [E [Hs [He [Hc _]]]]].
  exists result, r. repeat split; assumption.
Defined.

(** ** Order ids within a page *)

Lemma existsb_snoc (k k' : string) (seen : list string) :
  existsb (String.eqb k) (seen ++ [k']) = existsb (String.eqb k) seen || String.eqb k k'.
Proof. rewrite existsb_app. simpl. now rewrite orb_false_r. Qed.

Lemma keep_first_fresh {A : Type} (l : list (string * A)) :
  forall seen,
  NoDup (map fst (keep_first seen l))
  /\ forall k, In k (map fst (keep_first seen l)) ->
               existsb (String.eqb k) seen = false.
Proof.
  induction l as [| [k v] l IH]; intros seen; simpl.
  - split; [constructor | intros k []].
  - destruct (existsb (String.eqb k) seen) eqn:E.
    + apply IH.
    + destruct (IH (seen ++ [k])%list) as [Hnd Hfresh]. split.
      * cbn [map fst]. constructor; [| exact Hnd].
        intros Hin. apply Hfresh in Hin. rewrite existsb_snoc in Hin.
        rewrite String.eqb_refl, orb_true_r in Hin. discriminate.
      * intros k' [Hk | Hk].
        -- cbn [fst] in Hk. subst k'. exact E.
        -- apply Hfresh in Hk. rewrite existsb_snoc in Hk.
           apply orb_false_iff in Hk. exact (proj1 Hk).
Qed.

Lemma keyed_cons {A : Type} (key : A -> option string) (x : A) (l : list A) :
  keyed key (x :: l) =
  match key x with
  | Some k => (k, x) :: keyed key l
  | None => keyed key l
  end.
Proof. unfold keyed. cbn [flat_map]. destruct (key x); reflexivity. Qed.

Lemma container_order_step_key (host : Host) (os : list Order) (seen : list string)
    (c : Element) :
  container_order_step host (os, seen) c =
  match container_key c with
  | Some k =>
      if existsb (String.eqb k) seen then (os, seen)
      else ((os ++ [container_order host (k, c)])%list, (seen ++ [k])%list)
  | None => (os, seen)
  end.
Proof.
  unfold container_order_step, container_key, container_order, seen_id.
  destruct (find _ (links c)) as [orderLink |]; [| reflexivity].
  destruct (exec false orders_id_re orderLink) as [m |]; [| reflexivity].
  cbn [fst snd].
  destruct (existsb (String.eqb (group1 m)) seen); [reflexivity |].
  destruct (container_date_status host (innerText c)); reflexivity.
Qed.

Lemma return_link_step_key (host : Host) (os : list Order) (seen : list string)
    (a : Anchor) :
  return_link_step host (os, seen) a =
  match return_link_key a with
  | Some k =>
      if existsb (String.eqb k) seen then (os, seen)
      else ((os ++ [return_link_order host (k, a)])%list, (seen ++ [k])%list)
  | None => (os, seen)
  end.
Proof.
  unfold return_link_step, return_link_key, return_link_order, seen_id.
  destruct (exec false orders_returns_re (href a)) as [m |]; [| reflexivity].
  cbn [fst snd].
  destruct (existsb (String.eqb (group1 m)) seen); [reflexivity |].
  destruct (legacy_date_status host (innerText (findOrderContainer a)));
    reflexivity.
Qed.

Lemma container_steps_keep_first (host : Host) (l : list Element) :
  forall os seen,
  fold_left (container_order_step host) l (os, seen) =
  ((os ++ map (container_order host) (keep_first seen (keyed container_key l)))%list,
   (seen ++ map fst (keep_first seen (keyed container_key l)))%list).
Proof.
  induction l as [| c l IH]; intros os seen.
  - cbn. now rewrite !app_nil_r.
  - cbn [fold_left]. rewrite container_order_step_key, keyed_cons.
    destruct (container_key c) as [k |]; [| apply IH].
    cbn [keep_first].
    destruct (existsb (String.eqb k) seen); [apply IH |].
    rewrite IH. cbn [map fst]. now rewrite <- !app_assoc.
Qed.

Lemma return_link_steps_keep_first (host : Host) (l : list Anchor) :
  forall os seen,
  fold_left (return_link_step host) l (os, seen) =
  ((os ++ map (return_link_order host) (keep_first seen (keyed return_link_key l)))%list,
   (seen ++ map fst (keep_first seen (keyed return_link_key l)))%list).
Proof.
  induction l as [| a l IH]; intros os seen.
  - cbn. now rewrite !app_nil_r.
  - cbn [fold_left]. rewrite return_link_step_key, keyed_cons.
    destruct (return_link_key a) as [k |]; [| apply IH].
    cbn [keep_first].
    destruct (existsb (String.eqb k) seen); [apply IH |].
    rewrite IH. cbn [map fst]. now rewrite <- !app_assoc.
Qed.

Lemma collector_keeps_first (host : Host) (page : ListPage) :
  extractOrderDataFromListPage host page =
  if is_empty (keep_first [] (keyed container_key (order_containers page)))
  then map (return_link_order host)
           (keep_first [] (keyed return_link_key (return_links page)))
  else map (container_order host)
           (keep_first [] (keyed container_key (order_containers page))).
Proof.
  unfold extractOrderDataFromListPage. cbv zeta.
  fold (order_containers page). fold (return_links page).
  rewrite container_steps_keep_first. cbn [fst snd app].
  destruct (keep_first [] (keyed container_key (order_containers page)))
    as [| e kf] eqn:E.
  - cbn [map is_empty]. rewrite return_link_steps_keep_first. reflexivity.
  - reflexivity.
Qed.

Lemma container_order_id (host : Host) (l : list (string * Element)) :
  map orderId (map (container_order host) l) = map fst l.
Proof.
  rewrite map_map. apply map_ext. intros [k c]. reflexivity.
Qed.

Lemma return_link_order_id (host : Host) (l : list (string * Anchor)) :
  map orderId (map (return_link_order host) l) = map fst l.
Proof.
  rewrite map_map. apply map_ext. intros [k a]. reflexivity.
Qed.

(** C3, as the source has it.  One pass of the collector over a list page
    returns no two records with the same [orderId]: of the containers (or,
    when no container gives an order, of the return links) that carry the
    same id, the first in document order gives the record. *)
Theorem page_orders_first_seen (host : Host) (page : ListPage) :
  extractOrderDataFromListPage host page =
    (if is_empty (keep_first [] (keyed container_key (order_containers page)))
     then map (return_link_order host)
              (keep_first [] (keyed return_link_key (return_links page)))
     else map (container_order host)
              (keep_first [] (keyed container_key (order_containers page))))
  /\ NoDup (map orderId (extractOrderDataFromListPage host page)).
Proof.
  split; [apply collector_keeps_first |].
  rewrite collector_keeps_first.
  destruct (is_empty _).
  - rewrite return_link_order_id. apply keep_first_fresh.
  - rewrite container_order_id. apply keep_first_fresh.
Qed.

(** C3, as the claim words it, fails: when the page after a click on
    [Next page] still shows an order of the page before, the run
    accumulates it twice. *)
Lemma same_order_on_two_pages :
  exists result r,
    exportOrders Sample.host SampleRun.repeated 3 (SampleRun.options AllDates true) =
      Some (result, r)
    /\ success result = true
    /\ map orderId (orders r) = ["200012345678901"; "200012345678901"]
    /\ ~ NoDup (map orderId (orders r)).
Proof.
  eexists. eexists. split; [vm_compute; reflexivity |].
  split; [reflexivity |]. split; [reflexivity |].
  cbn. intros H. inversion H as [| x l Hnotin _]; subst.
  apply Hnotin. now left.
Qed.

(** ** What every run maintains *)

Lemma holds_ret {A : Type} (P : Run -> Prop) (Q : A -> Prop) (a : A) :
  Q a -> holds_after P Q (ret a).
Proof. intros Ha r Hr. split; assumption. Qed.

Lemma holds_bind {A B : Type} (P : Run -> Prop) (Q : A -> Prop) (Q' : B -> Prop)
    (c : M A) (k : A -> M B) :
  holds_after P Q c ->
  (forall a, Q a -> holds_after P Q' (k a)) ->
  holds_after P Q' (bind c k).
Proof.
  intros Hc Hk r Hr. unfold bind. specialize (Hc r Hr).
  destruct (c r) as [a r' | e r' |].
  - destruct Hc as [Hr' Ha]. apply (Hk a Ha r' Hr').
  - exact Hc.
  - exact I.
Qed.

Lemma Forall_anything {A : Type} (l : list A) : Forall anything l.
Proof. apply Forall_forall. intros x _. exact I. Qed.

Section Invariant.
Variable host : Host.
Variable world : World.
Variable options : Options.
Variable cutoffDate : option Z.

(** A property of the orders accumulated and of the calls made. *)
Variable inv : list Order -> list Call -> Prop.
(** A property of the orders a page hands to the loop. *)
Variable good : Order -> Prop.

Hypothesis inv_prices :
  forall o, good o ->
    holds_after (kept_true inv) good (with_prices host world options o).
Hypothesis inv_push :
  forall o os cs,
    good o -> kept host options cutoffDate o = true ->
    inv os cs -> inv (os ++ [o])%list cs.
Hypothesis inv_page :
  forall k,
    holds_after (kept_true inv) (Forall good)
      (or_fetched world (listPage world k)
         (extractOrderDataFromListPage host (listPage world k))).

Lemma holds_sendProgress : holds_after (kept_true inv) anything (sendProgress world).
Proof.
  intros r Hr. unfold sendProgress.
  destruct (sendMessage world (sent r)); [exact Hr | split; [exact Hr | exact I]].
Qed.

Lemma holds_isExporting : holds_after (kept_true inv) anything (isExporting world).
Proof. intros r Hr. split; [exact Hr | exact I]. Qed.

Lemma holds_awaited : holds_after (kept_true inv) anything awaited.
Proof. intros r Hr. split; [exact Hr | exact I]. Qed.

Lemma holds_clicked : holds_after (kept_true inv) anything clicked.
Proof. intros r Hr. split; [exact Hr | exact I]. Qed.

Lemma holds_count_processed : holds_after (kept_true inv) anything count_processed.
Proof. intros r Hr. split; [exact Hr | exact I]. Qed.

Lemma holds_currentPage :
  holds_after (kept_true inv) (fun page => exists k, page = listPage world k)
    (currentPage world).
Proof. intros r Hr. split; [exact Hr | eexists; reflexivity]. Qed.

Lemma holds_push_order (o : Order) :
  good o -> kept host options cutoffDate o = true ->
  holds_after (kept_true inv) anything (push_order o).
Proof.
  intros Ho Hkept r Hr. split; [| exact I]. unfold kept_true. cbn [orders calls].
  apply inv_push; assumption.
Qed.

Lemma holds_process_orders (pageOrders : list Order) :
  Forall good pageOrders ->
  forall reachedCutoff,
  holds_after (kept_true inv) anything
    (process_orders host world options cutoffDate pageOrders reachedCutoff).
Proof.
  induction pageOrders as [| o rest IH]; intros Hgood reachedCutoff.
  - apply holds_ret. exact I.
  - inversion Hgood as [| o' l' Ho Hrest]; subst.
    cbn [process_orders].
    eapply holds_bind; [apply holds_isExporting |]. intros going _.
    destruct (negb going); [apply holds_ret; exact I |].
    eapply holds_bind; [apply holds_sendProgress |]. intros _ _.
    eapply holds_bind; [apply inv_prices; exact Ho |].
    intros orderDetails Hdetails. cbv zeta.
    change (negb (before_cutoff host cutoffDate orderDetails)
            && negb (wrong_type (orderTypeFilter options) orderDetails))%bool
      with (kept host options cutoffDate orderDetails).
    eapply holds_bind.
    + destruct (kept host options cutoffDate orderDetails) eqn:Ekept;
        [apply holds_push_order; assumption | apply holds_ret; exact I].
    + intros _ _. eapply holds_bind; [apply holds_count_processed |].
      intros _ _. apply IH. exact Hrest.
Qed.

Lemma holds_goToNextPage : holds_after (kept_true inv) anything (goToNextPage world).
Proof.
  unfold goToNextPage.
  eapply holds_bind; [apply holds_currentPage |]. intros page _.
  destruct (hasNextPage page); [| apply holds_ret; exact I].
  eapply holds_bind; [apply holds_clicked |]. intros _ _.
  eapply holds_bind; [apply holds_awaited |]. intros _ _.
  apply holds_ret. exact I.
Qed.

Lemma holds_export_pages (fuel : nat) :
  holds_after (kept_true inv) anything
    (export_pages host world fuel options cutoffDate).
Proof.
  induction fuel as [| fuel IH].
  - intros r _. exact I.
  - cbn [export_pages].
    eapply holds_bind; [apply holds_isExporting |]. intros going _.
    destruct (negb going); [apply holds_ret; exact I |].
    eapply holds_bind; [apply holds_sendProgress |]. intros _ _.
    eapply holds_bind; [apply holds_currentPage |]. intros page [k ->]. cbv zeta.
    eapply holds_bind; [apply inv_page |]. intros pageOrders Hgood.
    eapply holds_bind.
    { destruct (is_empty pageOrders);
        [apply holds_sendProgress | apply holds_ret; exact I]. }
    intros _ _.
    eapply holds_bind; [apply holds_process_orders; exact Hgood |].
    intros reachedCutoff _.
    eapply holds_bind; [apply holds_isExporting |]. intros going' _.
    destruct (_ && _)%bool; [| apply holds_ret; exact I].
    eapply holds_bind; [apply holds_sendProgress |]. intros _ _.
    eapply holds_bind; [apply holds_goToNextPage |]. intros navigated _.
    destruct (negb navigated); [apply holds_ret; exact I |].
    eapply holds_bind; [apply holds_awaited |]. intros _ _.
    exact IH.
Qed.

Lemma exportOrders_keeps (fuel : nat) (result : ExportResult) (r : Run) :
  cutoffDate = cutoff_of host options ->
  inv [] [] ->
  exportOrders host world fuel options = Some (result, r) ->
  inv (orders r) (calls r).
Proof.
  intros Hcut Hstart H. unfold exportOrders in H.
  assert (Htry : holds_after (kept_true inv) anything
                   (export_try host world fuel options)).
  { unfold export_try. fold (cutoff_of host options). rewrite <- Hcut.
    eapply holds_bind; [apply holds_export_pages |]. intros _ _.
    eapply holds_bind; [apply holds_sendProgress |]. intros _ _.
    intros r0 Hr0. split; [exact Hr0 | exact I]. }
  specialize (Htry start Hstart).
  destruct (export_try host world fuel options start) as [a r' | e r' |];
    [| | discriminate]; injection H as _ <-.
  - exact (proj1 Htry).
  - exact Htry.
Qed.

End Invariant.

(** The fallback keeps whatever does not depend on the order details
    fetched. *)
Lemma holds_fetch_each (world : World) (inv : list Order -> list Call -> Prop)
    (orderIds : list OrderInfo.t) :
  (forall os cs id, inv os cs -> inv os (cs ++ [FetchOrderDetails id])%list) ->
  forall pageOrders,
  holds_after (kept_true inv) (Forall (@anything Order))
    (fetch_each world orderIds pageOrders).
Proof.
  intros Hcall.
  induction orderIds as [| orderInfo rest IH]; intros pageOrders.
  - apply holds_ret. apply Forall_anything.
  - cbn [fetch_each].
    eapply holds_bind; [apply (holds_isExporting world inv) |].
    intros going _.
    destruct (negb going); [apply holds_ret; apply Forall_anything |].
    eapply holds_bind; [apply (holds_sendProgress world inv) |].
    intros _ _.
    eapply holds_bind with (Q := anything).
    { intros r Hr. split; [| exact I]. unfold kept_true in *.
      cbn [calls orders]. apply Hcall. exact Hr. }
    intros _ _.
    eapply holds_bind; [apply (holds_awaited inv) |]. intros _ _.
    eapply holds_bind; [apply (holds_awaited inv) |]. intros _ _.
    apply IH.
Qed.

Lemma holds_or_fetched_any (host : Host) (world : World)
    (inv : list Order -> list Call -> Prop) (page : ListPage) :
  (forall os cs id, inv os cs -> inv os (cs ++ [FetchOrderDetails id])%list) ->
  holds_after (kept_true inv) (Forall (@anything Order))
    (or_fetched world page (extractOrderDataFromListPage host page)).
Proof.
  intros Hcall. unfold or_fetched.
  destruct (is_empty _).
  - eapply holds_bind; [apply (holds_sendProgress world inv) |].
    intros _ _. apply holds_fetch_each. exact Hcall.
  - apply holds_ret. apply Forall_anything.
Qed.

Lemma with_prices_off (host : Host) (world : World) (options : Options) (o : Order) :
  fetchItemPrices options = false -> with_prices host world options o = ret o.
Proof. intros H. unfold with_prices. now rewrite H. Qed.

(** No order that the date check rejects is ever accumulated, however
    the run ends. *)
Lemma exportOrders_never_old (host : Host) (world : World) (options : Options)
    (fuel : nat) (result : ExportResult) (r : Run) :
  exportOrders host world fuel options = Some (result, r) ->
  Forall (fun o => before_cutoff host (cutoff_of host options) o = false) (orders r).
Proof.
  intros Hrun.
  apply (exportOrders_keeps host world options (cutoff_of host options)
           (never_old host (cutoff_of host options)) anything)
    with (fuel := fuel) (result := result).
  - intros o _ r0 Hr0. unfold with_prices.
    destruct (fetchItemPrices options && includeItems options)%bool.
    + unfold bind, sendProgress, called, awaited, delay, awaited, ret.
      destruct (sendMessage world (sent r0)); [exact Hr0 |].
      split; [exact Hr0 | exact I].
    + split; [exact Hr0 | exact I].
  - intros o os cs _ Hkept Hos. unfold never_old in *.
    apply Forall_app. split; [exact Hos |]. constructor; [| constructor].
    unfold kept in Hkept. apply andb_true_iff in Hkept.
    now apply negb_true_iff.
  - intros k. apply holds_or_fetched_any. intros os cs id H. exact H.
  - reflexivity.
  - constructor.
  - exact Hrun.
Qed.

(** ** Date cutoff *)

Lemma before_cutoff_iff (host : Host) (c : Z) (o : Order) :
  before_cutoff host (Some c) o = true <->
  orderDate o <> "Unknown"
  /\ exists t, dateParse host (orderDate o) = Some t /\ (t < c)%Z.
Proof.
  unfold before_cutoff, older_than. rewrite andb_true_iff, negb_true_iff.
  split.
  - intros [Hu Hd]. split.
    + intros E. rewrite E in Hu. discriminate.
    + destruct (dateParse host (orderDate o)) as [t |]; [| discriminate].
      exists t. split; [reflexivity |]. now apply Z.ltb_lt.
  - intros [Hu [t [Ht Hlt]]]. split.
    + apply String.eqb_neq. exact Hu.
    + rewrite Ht. now apply Z.ltb_lt.
Qed.

Lemma export_pages_old_quiet (host : Host) (world : World) (options : Options)
    (cutoffDate : option Z) (fuel : nat) (r : Run) :
  stopAt world = None -> (forall k, sendMessage world k = None) ->
  existsb (before_cutoff host cutoffDate)
    (map (detailed host world options)
         (collected host world (listPage world (clicks r)))) = true ->
  exists r',
    export_pages host world (S fuel) options cutoffDate r = Done tt r'
    /\ clicks r' = clicks r
    /\ orders r' =
         (orders r ++ filter (kept host options cutoffDate)
            (map (detailed host world options)
                 (collected host world (listPage world (clicks r)))))%list.
Proof.
  intros Hstop Hsend Hold. cbn [export_pages].
  rewrite (bind_done _ _ _ _ _ (isExporting_quiet world Hstop r)). cbn [negb].
  destruct (sendProgress_quiet world Hsend r) as [r1 [E1 [[A1 [B1 C1]] _]]].
  rewrite (bind_done _ _ _ _ _ E1).
  unfold bind at 1. unfold currentPage at 1. rewrite B1. cbv zeta.
  set (page := listPage world (clicks r)) in *.
  destruct (or_fetched_quiet host world page r1 Hstop Hsend)
    as [r2 [E2 [A2 [B2 C2]]]].
  rewrite (bind_done _ _ _ _ _ E2).
  assert (H3 : exists r3,
             (if is_empty (collected host world page)
              then sendProgress world else ret tt) r2 = Done tt r3
             /\ same_orders r2 r3).
  { destruct (is_empty (collected host world page)).
    - destruct (sendProgress_quiet world Hsend r2) as [r3 [E3 [S3 _]]].
      exists r3. split; assumption.
    - exists r2. split; [reflexivity | repeat split]. }
  destruct H3 as [r3 [E3 [A3 [B3 C3]]]].
  rewrite (bind_done _ _ _ _ _ E3).
  destruct (process_orders_quiet host world Hstop Hsend options cutoffDate
              (collected host world page) false r3) as [r4 [E4 [A4 [B4 _]]]].
  rewrite (bind_done _ _ _ _ _ E4).
  rewrite (bind_done _ _ _ _ _ (isExporting_quiet world Hstop r4)).
  rewrite Hold. cbn [orb negb]. rewrite andb_false_r. cbn [andb].
  exists r4. split; [reflexivity |]. split; [congruence |].
  rewrite A4. congruence.
Qed.

(** C5. With a numeric [dateRange], an order whose parsed date is
    strictly before the cutoff (now minus [dateRange] days) is never in the
    accumulator, however the run ends.  In a run that is not stopped, such an
    order sets [reachedCutoff]; the other orders of its page are still
    processed, an order dated within the range being kept unless the order
    type filter rejects it (the filter [all] rejects none); and once
    [reachedCutoff] is set the loop ends after the page without a click on
    [Next page]. *)
Theorem cutoff_excludes_and_halts (host : Host) (world : World)
    (options : Options) (n : Z) (fuel : nat) :
  dateRange options = Days n ->
  let cutoffDate := Some (daysBefore host (now host) n) in
  (forall o, before_cutoff host cutoffDate o = true <->
     orderDate o <> "Unknown"
     /\ exists t, dateParse host (orderDate o) = Some t
                  /\ (t < daysBefore host (now host) n)%Z)
  /\ (forall result r,
        exportOrders host world fuel options = Some (result, r) ->
        Forall (fun o => before_cutoff host cutoffDate o = false) (orders r))
  /\ (orderTypeFilter options = "all" ->
      forall o,
        (negb (before_cutoff host cutoffDate o)
         && negb (wrong_type (orderTypeFilter options) o))%bool =
        negb (before_cutoff host cutoffDate o))
  /\ (stopAt world = None -> (forall k, sendMessage world k = None) ->
      (forall pageOrders reachedCutoff r,
       exists r',
         process_orders host world options cutoffDate pageOrders reachedCutoff r =
           Done (reachedCutoff
                 || existsb (before_cutoff host cutoffDate)
                            (map (detailed host world options) pageOrders)) r'
         /\ orders r' =
              (orders r ++
               filter (fun o => negb (before_cutoff host cutoffDate o)
                                && negb (wrong_type (orderTypeFilter options) o))
                      (map (detailed host world options) pageOrders))%list
         /\ clicks r' = clicks r)
      /\ (forall r,
          existsb (before_cutoff host cutoffDate)
            (map (detailed host world options)
                 (collected host world (listPage world (clicks r)))) = true ->
          exists r',
            export_pages host world (S fuel) options cutoffDate r = Done tt r'
            /\ clicks r' = clicks r
            /\ orders r' =
                 (orders r ++
                  filter (fun o => negb (before_cutoff host cutoffDate o)
                                   && negb (wrong_type (orderTypeFilter options) o))
                         (map (detailed host world options)
                              (collected host world (listPage world (clicks r)))))%list)
      /\ (existsb (before_cutoff host cutoffDate)
            (map (detailed host world options)
                 (collected host world (listPage world 0))) = true ->
          exists result r',
            exportOrders host world (S fuel) options = Some (result, r')
            /\ success result = true
            /\ clicks r' = 0
            /\ orders r' =
                 filter (fun o => negb (before_cutoff host cutoffDate o)
                                  && negb (wrong_type (orderTypeFilter options) o))
                        (map (detailed host world options)
                             (collected host world (listPage world 0))))).
Proof.
  intros Hrange cutoffDate.
  split; [| split; [| split]].
  - intros o. apply before_cutoff_iff.
  - intros result r Hrun.
    pose proof (exportOrders_never_old host world options fuel result r Hrun) as H.
    unfold cutoff_of in H. rewrite Hrange in H. exact H.
  - intros Hall o. unfold wrong_type. rewrite Hall. cbn. apply andb_true_r.
  - intros Hstop Hsend. split; [| split].
    + intros pageOrders reachedCutoff r.
      destruct (process_orders_quiet host world Hstop Hsend options cutoffDate
                  pageOrders reachedCutoff r) as [r' [E [Ho [Hk _]]]].
      exists r'. repeat split; assumption.
    + intros r Hold.
      exact (export_pages_old_quiet host world options cutoffDate fuel r
               Hstop Hsend Hold).
    + intros Hold.
      destruct (export_pages_old_quiet host world options cutoffDate fuel start
                  Hstop Hsend Hold) as [r1 [E1 [Hk Ho]]].
      destruct (sendProgress_quiet world Hsend r1) as [r2 [E2 [[A2 [B2 _]] _]]].
      unfold exportOrders, export_try. rewrite Hrange.
      fold cutoffDate.
      rewrite (bind_done _ _ _ _ _ E1).
      rewrite (bind_done _ _ _ _ _ E2).
      eexists. exists r2. split; [reflexivity |]. split; [reflexivity |].
      split; [cbn in Hk; congruence |].
      rewrite A2, Ho. reflexivity.
Qed.

Lemma cutoff_excludes_and_halts_witness :
  exists result r',
    exportOrders Sample.host SampleRun.dated 1 (SampleRun.options (Days 30) true) =
      Some (result, r')
    /\ success result = true
    /\ clicks r' = 0
    /\ map orderDate (orders r') = ["Oct 24, 2026"; "Oct 4, 2026"].
Proof.
  destruct (proj2 (proj2 (proj2 (proj2 (proj2
              (cutoff_excludes_and_halts Sample.host SampleRun.dated
                 (SampleRun.options (Days 30) true) 30 0 eq_refl)))
              eq_refl (fun _ => eq_refl)))
              ltac:(vm_compute; reflexivity))
    as [result [r' [E [Hs [Hk Ho]]]]].
  exists result, r'. split; [exact E |]. split; [exact Hs |].
  split; [exact Hk |]. rewrite Ho. vm_compute. reflexivity.
Defined.

(** ** Network calls and prices *)

Lemma container_step_unpriced (host : Host) (acc : Acc) (alt : string) :
  Forall unpriced (fst acc) -> Forall unpriced (fst (container_step host acc alt)).
Proof.
  intros Hacc. unfold container_step.
  destruct (_ || _ || _)%bool; [exact Hacc |].
  destruct (existsb _ skipPatterns); [exact Hacc |].
  match goal with |- context [if ?c then _ else _] => destruct c end;
    [| exact Hacc].
  apply Forall_push; [exact Hacc |]. split; reflexivity.
Qed.

Lemma container_items_unpriced (host : Host) (container : option Element) :
  Forall unpriced (extractItemsFromOrderContainer host container).
Proof.
  destruct container as [c |]; [| constructor].
  unfold extractItemsFromOrderContainer.
  apply fold_left_items; [| constructor].
  intros a x _. apply container_step_unpriced.
Qed.

Lemma listed_orders_unpriced (host : Host) (page : ListPage) :
  Forall (fun o => Forall unpriced (items o)) (extractOrderDataFromListPage host page).
Proof.
  rewrite collector_keeps_first.
  destruct (is_empty _); apply Forall_forall; intros o Ho;
    apply in_map_iff in Ho; destruct Ho as [[k x] [<- _]];
    apply container_items_unpriced.
Qed.

(** C9, as the source has it.  In a run with [fetchItemPrices = false],
    [fetchDetailedItems] is never called; and when the collector lists at
    least one order on every page, no order is fetched at all and every item
    accumulated has an empty price string and a price value of 0. *)
Theorem no_price_fetch_unless_asked (host : Host) (world : World) (fuel : nat)
    (options : Options) (result : ExportResult) (r : Run) :
  fetchItemPrices options = false ->
  exportOrders host world fuel options = Some (result, r) ->
  (forall id, ~ In (FetchDetailedItems id) (calls r))
  /\ ((forall k, is_empty (extractOrderDataFromListPage host (listPage world k)) = false) ->
      calls r = []
      /\ forall o it, In o (orders r) -> In it (items o) ->
                      price it = JStr EmptyString /\ priceValue it = JNum 0).
Proof.
  intros Hoff Hrun. split.
  - apply (exportOrders_keeps host world options (cutoff_of host options)
             no_detailed_call anything)
      with (fuel := fuel) (result := result).
    + intros o _. rewrite (with_prices_off host world options o Hoff).
      apply holds_ret. exact I.
    + intros o os cs _ _ H. exact H.
    + intros k. apply holds_or_fetched_any.
      intros os cs id' H id Hin. apply in_app_or in Hin.
      destruct Hin as [Hin | [Hin | []]]; [exact (H id Hin) | discriminate].
    + reflexivity.
    + intros id [].
    + exact Hrun.
  - intros Hlisted.
    assert (H : list_page_only (orders r) (calls r)).
    { apply (exportOrders_keeps host world options (cutoff_of host options)
               list_page_only (fun o => Forall unpriced (items o)))
        with (fuel := fuel) (result := result).
      - intros o Ho. rewrite (with_prices_off host world options o Hoff).
        apply holds_ret. exact Ho.
      - intros o os cs Ho _ [Hcs Hos]. split; [exact Hcs |].
        apply Forall_app. split; [exact Hos | constructor; [exact Ho | constructor]].
      - intros k. unfold or_fetched. rewrite (Hlisted k).
        apply holds_ret. apply listed_orders_unpriced.
      - reflexivity.
      - split; [reflexivity | constructor].
      - exact Hrun. }
    destruct H as [Hcs Hos]. split; [exact Hcs |].
    intros o it Ho Hit. rewrite Forall_forall in Hos.
    specialize (Hos o Ho). rewrite Forall_forall in Hos. exact (Hos it Hit).
Qed.

Lemma no_price_fetch_unless_asked_witness :
  exists result r,
    exportOrders Sample.host SampleRun.dated 2 (SampleRun.options AllDates false) =
      Some (result, r)
    /\ List.length (orders r) = 3
    /\ calls r = []
    /\ forall o it, In o (orders r) -> In it (items o) ->
                    price it = JStr EmptyString /\ priceValue it = JNum 0.
Proof.
  destruct (exportOrders Sample.host SampleRun.dated 2
              (SampleRun.options AllDates false)) as [[result r] |] eqn:E;
    [| vm_compute in E; discriminate].
  exists result, r. split; [reflexivity |].
  split; [vm_compute in E; injection E as _ <-; reflexivity |].
  exact (proj2 (no_price_fetch_unless_asked Sample.host SampleRun.dated 2
                  (SampleRun.options AllDates false) result r eq_refl E)
               (fun _ => eq_refl)).
Defined.

(** C9, as the claim words it, fails: on a page where the collector lists
    nothing the loop fetches every linked order, whatever [fetchItemPrices]
    says, and the items come back priced. *)
Lemma fallback_fetches_order_details :
  exists result r,
    fetchItemPrices (SampleRun.options AllDates true) = false
    /\ exportOrders Sample.host SampleRun.linked 3 (SampleRun.options AllDates true) =
         Some (result, r)
    /\ calls r = [FetchOrderDetails "111"; FetchOrderDetails "222"]
    /\ map (fun o => map price (items o)) (orders r) =
         [[JStr "$3.48"]; [JStr "$3.48"]].
Proof.
  eexists. eexists. split; [reflexivity |].
  split; [vm_compute; reflexivity |]. split; reflexivity.
Qed.


(** ** Quantities *)

Lemma has_strings (seen : list string) (k : string) :
  has (map JStr seen) (JStr k) = existsb (String.eqb k) seen.
Proof.
  unfold has. induction seen as [| s seen IH]; cbn; [reflexivity |].
  now rewrite IH.
Qed.

Lemma is_empty_map {A B : Type} (f : A -> B) (l : list A) :
  is_empty (map f l) = is_empty l.
Proof. destruct l; reflexivity. Qed.

Lemma counted_quantity_in (host : Host) (r : re) (text : string) :
  counted host (exec true r text) (JNum 1) = quantity_in host r text.
Proof. reflexivity. Qed.

(** A pass whose every step either leaves the accumulator alone or pushes
    an item with the name and the quantity of the node, unless the name was
    seen, gives the nodes' names and quantities, first seen first kept. *)
Lemma fold_named_quantities {X : Type} (name_of : X -> option string)
    (quantity_of : X -> JValue) (step : Acc -> X -> Acc) :
  (forall acc x,
     match name_of x with
     | Some k =>
         if has (snd acc) (JStr k) then step acc x = acc
         else exists it, step acc x = push acc it
                         /\ name it = JStr k /\ quantity it = quantity_of x
     | None => step acc x = acc
     end) ->
  forall l seen acc, snd acc = map JStr seen ->
  map name_quantity (fst (fold_left step l acc)) =
    (map name_quantity (fst acc)
     ++ map (fun entry => (JStr (fst entry), quantity_of (snd entry)))
            (keep_first seen (keyed name_of l)))%list
  /\ snd (fold_left step l acc) =
       (snd acc ++ map (fun entry => JStr (fst entry))
                       (keep_first seen (keyed name_of l)))%list.
Proof.
  intros Hstep. induction l as [| x l IH]; intros seen acc Hseen.
  - cbn. now rewrite !app_nil_r.
  - cbn [fold_left]. rewrite keyed_cons. specialize (Hstep acc x).
    destruct (name_of x) as [k |]; [| rewrite Hstep; apply IH; exact Hseen].
    cbn [keep_first]. rewrite Hseen, has_strings in Hstep.
    destruct (existsb (String.eqb k) seen).
    + rewrite Hstep. apply IH. exact Hseen.
    + destruct Hstep as [it [Hpush [Hname Hq]]]. rewrite Hpush.
      destruct (IH (seen ++ [k])%list (push acc it)) as [H1 H2].
      { unfold push. cbn [snd]. rewrite Hseen, Hname, map_app. reflexivity. }
      rewrite H1, H2. unfold push. cbn [fst snd map].
      rewrite !map_app, <- !app_assoc. cbn [map app].
      unfold name_quantity at 2. rewrite Hname, Hq. split; reflexivity.
Qed.

(** From the start of a pass. *)
Lemma pass_named_quantities {X : Type} (name_of : X -> option string)
    (quantity_of : X -> JValue) (step : Acc -> X -> Acc) (l : list X) (acc : Acc) :
  (forall acc x,
     match name_of x with
     | Some k =>
         if has (snd acc) (JStr k) then step acc x = acc
         else exists it, step acc x = push acc it
                         /\ name it = JStr k /\ quantity it = quantity_of x
     | None => step acc x = acc
     end) ->
  fst acc = [] -> snd acc = [] ->
  map name_quantity (fst (fold_left step l acc)) =
    named_quantities name_of quantity_of l
  /\ (is_empty (fst (fold_left step l acc)) = true ->
      snd (fold_left step l acc) = []).
Proof.
  intros Hstep Hitems Hseen.
  destruct (fold_named_quantities name_of quantity_of step Hstep l [] acc)
    as [H1 H2]; [rewrite Hseen; reflexivity |].
  rewrite Hitems in H1. cbn [map app] in H1. rewrite Hseen in H2.
  cbn [app] in H2. split; [exact H1 |].
  intros Hempty. rewrite H2.
  destruct (fst (fold_left step l acc)); [| discriminate].
  cbn [map] in H1. symmetry in H1. apply map_eq_nil in H1.
  now rewrite H1.
Qed.

Lemma container_step_entry (host : Host) (acc : Acc) (alt : string) :
  match alt_name alt with
  | Some k =>
      if has (snd acc) (JStr k) then container_step host acc alt = acc
      else exists it, container_step host acc alt = push acc it
                      /\ name it = JStr k /\ quantity it = alt_quantity host alt
  | None => container_step host acc alt = acc
  end.
Proof.
  unfold container_step, alt_name, alt_quantity. cbv zeta.
  destruct (_ || _ || _)%bool; [reflexivity |].
  destruct (existsb _ skipPatterns); [reflexivity |].
  set (name1 := match exec true alt_qty_re (trim alt) with
                | Some _ => trim (remove_first true alt_qty_strip_re (trim alt))
                | None => trim alt
                end).
  destruct (isValidProductName name1);
    [| rewrite andb_false_r; reflexivity].
  destruct (has (snd acc) (JStr name1)); cbn [negb andb]; [reflexivity |].
  eexists. split; [reflexivity |]. split; reflexivity.
Qed.

(** Where the climb from a product link stops, and what it has read by
    then. *)
Lemma climb_price_node (host : Host) (n : nat) :
  forall ancestors container,
  climb_price host (S n) ancestors container =
  match find has_line_price (firstn (S n) ancestors) with
  | Some a =>
      (match a_linePrice a with
       | Some priceText => priced (exec false price_re priceText) EmptyString
       | None => EmptyString
       end,
       quantity_in host qty_re (a_innerText a), Some a)
  | None => (EmptyString, JNum 1, nth_error ancestors n)
  end.
Proof.
  induction n as [| n IH]; intros ancestors container.
  - destruct ancestors as [| a up]; [reflexivity |].
    cbn [climb_price firstn find]. unfold has_line_price.
    destruct (a_linePrice a) eqn:E; cbn beta iota; rewrite ?E; reflexivity.
  - destruct ancestors as [| a up]; [reflexivity |].
    change (climb_price host (S (S n)) (a :: up) container)
      with (match a_linePrice a with
            | Some priceText =>
                (priced (exec false price_re priceText) EmptyString,
                 counted host (exec true qty_re (a_innerText a)) (JNum 1),
                 Some a)
            | None => climb_price host (S n) up (Some a)
            end).
    change (firstn (S (S n)) (a :: up)) with (a :: firstn (S n) up).
    cbn [find nth_error]. unfold has_line_price at 1.
    destruct (a_linePrice a) eqn:E; [| apply IH].
    cbn beta iota. rewrite E. reflexivity.
Qed.

Lemma dom_link_step_entry (host : Host) (acc : Acc) (link : Link) :
  match link_name 5 link with
  | Some k =>
      if has (snd acc) (JStr k) then dom_link_step host acc link = acc
      else exists it, dom_link_step host acc link = push acc it
                      /\ name it = JStr k /\ quantity it = link_quantity host link
  | None => dom_link_step host acc link = acc
  end.
Proof.
  unfold dom_link_step, link_name, link_quantity, quantity_node. cbv zeta.
  set (nm := trim (l_textContent link)).
  rewrite (climb_price_node host 19).
  destruct (negb (String.eqb nm EmptyString)); cbn [andb]; [| reflexivity].
  destruct (5 <? String.length nm); cbn [andb]; [| reflexivity].
  destruct (String.length nm <? 300); cbn [andb]; [| reflexivity].
  destruct (isValidProductName nm) eqn:Evalid.
  - destruct (has (snd acc) (JStr nm)); cbn [negb]; [reflexivity |].
    destruct (find has_line_price (firstn 20 (l_ancestors link))) as [a |].
    + destruct (String.eqb _ EmptyString);
        (eexists; split; [reflexivity |]; split; [reflexivity |]);
        cbn [quantity]; [| reflexivity].
      unfold counted, quantity_in.
      destruct (exec true qty_re (a_innerText a)); reflexivity.
    + destruct (nth_error (l_ancestors link) 19) as [c |]; cbn;
        eexists; (split; [reflexivity |]); split; reflexivity.
  - destruct (has (snd acc) (JStr nm)); cbn [negb]; [reflexivity |].
    destruct (find has_line_price (firstn 20 (l_ancestors link))) as [a |].
    + destruct (String.eqb _ EmptyString); reflexivity.
    + destruct (nth_error (l_ancestors link) 19); reflexivity.
Qed.

Lemma dom_struct_step_entry (host : Host) (acc : Acc) (link : Link) :
  match link_name 10 link with
  | Some k =>
      if has (snd acc) (JStr k) then dom_struct_step host acc link = acc
      else exists it, dom_struct_step host acc link = push acc it
                      /\ name it = JStr k /\ quantity it = marked_quantity host link
  | None => dom_struct_step host acc link = acc
  end.
Proof.
  unfold dom_struct_step, link_name, marked_quantity. cbv zeta.
  set (nm := trim (l_textContent link)).
  destruct (negb (String.eqb nm EmptyString)); cbn [andb]; [| reflexivity].
  destruct (10 <? String.length nm); cbn [andb]; [| reflexivity].
  destruct (String.length nm <? 300); cbn [andb]; [| reflexivity].
  destruct (isValidProductName nm);
    [| rewrite andb_false_r; reflexivity].
  destruct (has (snd acc) (JStr nm)); cbn [negb andb]; [reflexivity |].
  destruct (l_nearText link);
    eexists; (split; [reflexivity |]); split; reflexivity.
Qed.

Lemma dom_text_step_entry (host : Host) (acc : Acc) (el : TextElement) :
  match text_name el with
  | Some k =>
      if has (snd acc) (JStr k) then dom_text_step host acc el = acc
      else exists it, dom_text_step host acc el = push acc it
                      /\ name it = JStr k /\ quantity it = JNum 1
  | None => dom_text_step host acc el = acc
  end.
Proof.
  unfold dom_text_step, text_name. cbv zeta.
  set (text := trim (t_textContent el)).
  destruct (negb (String.eqb text EmptyString)); cbn [andb]; [| reflexivity].
  destruct (15 <? String.length text); cbn [andb]; [| reflexivity].
  destruct (String.length text <? 200); cbn [andb]; [| reflexivity].
  destruct (negb (includes text "$")); cbn [andb]; [| reflexivity].
  destruct (negb (includes text "Qty")); cbn [andb]; [| reflexivity].
  destruct (isValidProductName text);
    [| rewrite andb_false_r; reflexivity].
  destruct (t_parentText el) as [parentText |];
    [| destruct (negb (has (snd acc) (JStr text)) && true)%bool; reflexivity].
  destruct (exec false price_re parentText) as [priceMatch |];
    [| destruct (negb (has (snd acc) (JStr text)) && true)%bool; reflexivity].
  destruct (has (snd acc) (JStr text)); cbn [negb andb]; [reflexivity |].
  eexists. split; [reflexivity |]. split; reflexivity.
Qed.

(** The climb from a receipt link reads the quantity in each ancestor up
    to the first that shows a price. *)
Lemma climb_receipt_reads (host : Host) (n : nat) :
  forall ancestors quantity,
  snd (climb_receipt host n ancestors EmptyString quantity) =
  fold_left (fun q a => counted host (exec true qty_re (a_innerText a)) q)
            (upto_price n ancestors) quantity.
Proof.
  induction n as [| n IH]; intros ancestors quantity; [reflexivity |].
  destruct ancestors as [| a up]; [reflexivity |].
  cbn [climb_receipt upto_price]. cbv zeta. unfold shows_price.
  destruct (exec false price_re (a_innerText a)) as [priceMatch |].
  - reflexivity.
  - cbn [priced String.eqb fold_left]. apply IH.
Qed.

Lemma find_snoc {A : Type} (f : A -> bool) (l : list A) (a : A) :
  find f (l ++ [a]) =
  match find f l with
  | Some b => Some b
  | None => if f a then Some a else None
  end.
Proof.
  induction l as [| x l IH]; cbn; [reflexivity |].
  destruct (f x); [reflexivity | exact IH].
Qed.

(** Of the quantities read one after the other, the last stands. *)
Lemma last_quantity_read (host : Host) (l : list Ancestor) :
  forall quantity,
  fold_left (fun q a => counted host (exec true qty_re (a_innerText a)) q) l quantity =
  match find shows_quantity (rev l) with
  | Some a => quantity_in host qty_re (a_innerText a)
  | None => quantity
  end.
Proof.
  induction l as [| a l IH]; intros quantity; [reflexivity |].
  cbn [fold_left rev]. rewrite IH, find_snoc.
  destruct (find shows_quantity (rev l)); [reflexivity |].
  unfold shows_quantity, counted.
  destruct (exec true qty_re (a_innerText a)) eqn:E; cbn beta iota;
    unfold quantity_in; rewrite ?E; reflexivity.
Qed.

Lemma receipt_link_step_entry (host : Host) (acc : Acc) (link : Link) :
  match link_name 5 link with
  | Some k =>
      if has (snd acc) (JStr k) then receipt_link_step host acc link = acc
      else exists it, receipt_link_step host acc link = push acc it
                      /\ name it = JStr k
                      /\ quantity it = receipt_link_quantity host link
  | None => receipt_link_step host acc link = acc
  end.
Proof.
  unfold receipt_link_step, link_name, receipt_link_quantity. cbv zeta.
  set (nm := trim (l_textContent link)).
  destruct (negb (String.eqb nm EmptyString)); cbn [andb]; [| reflexivity].
  destruct (5 <? String.length nm); cbn [andb]; [| reflexivity].
  destruct (String.length nm <? 300); cbn [andb]; [| reflexivity].
  destruct (isValidProductName nm);
    [| rewrite andb_false_r; reflexivity].
  destruct (has (snd acc) (JStr nm)); cbn [negb andb]; [reflexivity |].
  pose proof (climb_receipt_reads host 20 (l_ancestors link) (JNum 1)) as Hq.
  rewrite last_quantity_read in Hq.
  destruct (climb_receipt host 20 (l_ancestors link) EmptyString (JNum 1)) as [p q].
  cbn [snd] in Hq. eexists. split; [reflexivity |]. split; [reflexivity |].
  exact Hq.
Qed.

Lemma receipt_line_step_entry (host : Host) (acc : Acc) (line : string) :
  match line_name line with
  | Some k =>
      if has (snd acc) (JStr k) then receipt_line_step host acc line = acc
      else exists it, receipt_line_step host acc line = push acc it
                      /\ name it = JStr k /\ quantity it = line_quantity host line
  | None => receipt_line_step host acc line = acc
  end.
Proof.
  unfold receipt_line_step, line_name, line_quantity. cbv zeta.
  destruct (exec false receipt_line_re line) as [itemMatch |]; [| reflexivity].
  destruct (isValidProductName (trim (group1 itemMatch))); cbn [andb];
    [| reflexivity].
  destruct (has (snd acc) (JStr (trim (group1 itemMatch)))); cbn [negb];
    [reflexivity |].
  eexists. split; [reflexivity |]. split; reflexivity.
Qed.

(** *** The structured data *)

Lemma fold_flow_items_in {X : Type} (P : Item -> Prop) (step : Acc -> X -> Flow)
    (l : list X) :
  (forall acc x, In x l -> Forall P (fst acc) ->
                 Forall P (fst (flow_acc (step acc x)))) ->
  forall acc, Forall P (fst acc) -> Forall P (fst (flow_acc (fold_flow step l acc))).
Proof.
  induction l as [| x l IH]; intros Hstep acc Hacc; cbn [fold_flow].
  - exact Hacc.
  - pose proof (Hstep acc x (or_introl eq_refl) Hacc) as Hx.
    destruct (step acc x) as [a | a]; cbn [flow_acc] in *.
    + apply IH; [| exact Hx]. intros a' y Hy. apply Hstep. now right.
    + exact Hx.
Qed.

Lemma group_item_step_entry (host : Host) (entries : list (JValue * JValue))
    (acc : Acc) (lineItem : JValue) :
  In (group_entry lineItem) entries ->
  Forall (fun it => In (name_quantity it) entries) (fst acc) ->
  Forall (fun it => In (name_quantity it) entries)
         (fst (flow_acc (group_item_step host acc lineItem))).
Proof.
  intros Hin Hacc. unfold group_item_step. cbv zeta.
  match goal with |- context [has (snd acc) ?n] => set (nm := n) end.
  destruct (negb (truthy nm) || has (snd acc) nm)%bool; [exact Hacc |].
  destruct (group_price host lineItem _) as [value priceStr0].
  match goal with |- context [match ?e with Some _ => _ | None => _ end] =>
    destruct e as [priceStr |] end; [| exact Hacc].
  assert (H : Forall (fun it => In (name_quantity it) entries)
                (fst acc ++ [{| name := nm;
                                quantity := get lineItem "quantity"
                                  or_else get (get lineItem "productInfo"
                                    or_else get lineItem "item"
                                    or_else get lineItem "product"
                                    or_else lineItem) "quantity"
                                  or_else JNum 1;
                                price := priceStr;
                                priceValue := value |}])%list).
  { apply Forall_app. split; [exact Hacc |]. constructor; [| constructor].
    exact Hin. }
  destruct nm; exact H.
Qed.

Lemma direct_item_step_entry (host : Host) (entries : list (JValue * JValue))
    (acc : Acc) (item : JValue) :
  In (direct_entry item) entries ->
  Forall (fun it => In (name_quantity it) entries) (fst acc) ->
  Forall (fun it => In (name_quantity it) entries)
         (fst (flow_acc (direct_item_step host acc item))).
Proof.
  intros Hin Hacc. unfold direct_item_step. cbv zeta.
  match goal with |- context [has (snd acc) ?n] => set (nm := n) end.
  destruct (negb (truthy nm) || has (snd acc) nm)%bool; [exact Hacc |].
  match goal with |- context [match ?e with Some _ => _ | None => _ end] =>
    destruct e as [priceStr |] end; [| exact Hacc].
  cbn [flow_acc fst]. apply Forall_app. split; [exact Hacc |].
  constructor; [| constructor]. exact Hin.
Qed.

Lemma try_group_paths_entries (host : Host) (entries : list (JValue * JValue))
    (paths : list JValue) :
  (forall groups group l lineItem,
     In (JArr groups) paths -> In group groups ->
     iterate (get group "items" or_else get group "lineItems" or_else JArr []) = Some l ->
     In lineItem l -> In (group_entry lineItem) entries) ->
  forall acc,
  Forall (fun it => In (name_quantity it) entries) (fst acc) ->
  Forall (fun it => In (name_quantity it) entries)
         (fst (flow_acc (try_group_paths host paths acc))).
Proof.
  induction paths as [| p paths IH]; intros Hin acc Hacc; cbn [try_group_paths].
  - exact Hacc.
  - assert (Hrest : forall acc',
              Forall (fun it => In (name_quantity it) entries) (fst acc') ->
              Forall (fun it => In (name_quantity it) entries)
                     (fst (flow_acc (try_group_paths host paths acc')))).
    { intros acc' Hacc'. apply IH; [| exact Hacc'].
      intros groups group l lineItem Hp. apply Hin. now right. }
    destruct p as [| | b | q | | s | groups | fields]; try (apply Hrest; exact Hacc).
    assert (H : Forall (fun it => In (name_quantity it) entries)
                  (fst (flow_acc (fold_flow (group_step host) groups acc)))).
    { apply fold_flow_items_in; [| exact Hacc].
      intros a group Hgroup Ha. unfold group_step.
      destruct (iterate _) as [l |] eqn:El; [| exact Ha].
      apply fold_flow_items_in; [| exact Ha].
      intros a' lineItem Hline. apply group_item_step_entry.
      exact (Hin groups group l lineItem (or_introl eq_refl) Hgroup El Hline). }
    destruct (fold_flow (group_step host) groups acc) as [a | a];
      cbn [flow_acc] in *.
    + destruct (is_empty (fst a)); [apply Hrest; exact H | exact H].
    + exact H.
Qed.

Lemma group_lines_in (pageProps : JValue) (groups : list JValue)
    (group : JValue) (l : list JValue) (lineItem : JValue) :
  In (JArr groups) (possibleGroupPaths pageProps) -> In group groups ->
  iterate (get group "items" or_else get group "lineItems" or_else JArr []) = Some l ->
  In lineItem l -> In lineItem (group_lines pageProps).
Proof.
  intros Hp Hg Hl Hi. unfold group_lines.
  apply in_flat_map. exists (JArr groups). split; [exact Hp |].
  apply in_flat_map. exists group. split; [exact Hg |].
  rewrite Hl. exact Hi.
Qed.

Lemma structured_items_entries (host : Host) (nextData : JValue) (orderId : string) :
  Forall (fun it => In (name_quantity it) (payload_entries nextData))
         (extractItemsFromNextData host nextData orderId).
Proof.
  unfold extractItemsFromNextData. cbv zeta.
  set (pageProps := path nextData ["props"; "pageProps"]).
  destruct (negb (truthy pageProps)); [constructor |].
  pose proof (try_group_paths_entries host (payload_entries nextData)
                (possibleGroupPaths pageProps)) as H.
  assert (Hgroups : forall groups group l lineItem,
            In (JArr groups) (possibleGroupPaths pageProps) -> In group groups ->
            iterate (get group "items" or_else get group "lineItems"
                     or_else JArr []) = Some l ->
            In lineItem l -> In (group_entry lineItem) (payload_entries nextData)).
  { intros groups group l lineItem Hp Hg Hl Hi. unfold payload_entries.
    apply in_or_app. left. apply in_map. fold pageProps.
    exact (group_lines_in pageProps groups group l lineItem Hp Hg Hl Hi). }
  specialize (H Hgroups ([], []) (Forall_nil _)).
  destruct (try_group_paths host _ ([], [])) as [a | a]; cbn [flow_acc] in H.
  - destruct (is_empty (fst a)); [| exact H].
    destruct (iterate _) as [l |] eqn:El; [| exact H].
    apply fold_flow_items_in; [| exact H].
    intros a' item Hitem. apply direct_item_step_entry.
    unfold payload_entries. apply in_or_app. right. apply in_map.
    fold pageProps. unfold direct_lines. rewrite El. exact Hitem.
  - exact H.
Qed.

(** The first of the passes that finds an item gives the items. *)
Lemma second_pass {X : Type} (name_of : X -> option string)
    (quantity_of : X -> JValue) (step : Acc -> X -> Acc) (l : list X)
    (acc : Acc) (first : list (JValue * JValue)) :
  (forall acc x,
     match name_of x with
     | Some k =>
         if has (snd acc) (JStr k) then step acc x = acc
         else exists it, step acc x = push acc it
                         /\ name it = JStr k /\ quantity it = quantity_of x
     | None => step acc x = acc
     end) ->
  map name_quantity (fst acc) = first ->
  (is_empty (fst acc) = true -> snd acc = []) ->
  map name_quantity
      (fst (if is_empty (fst acc) then fold_left step l acc else acc)) =
    first_found [first; named_quantities name_of quantity_of l]
  /\ (is_empty (fst (if is_empty (fst acc) then fold_left step l acc else acc)) = true ->
      snd (if is_empty (fst acc) then fold_left step l acc else acc) = []).
Proof.
  intros Hstep Hfirst Hseen. subst first. cbn [first_found].
  rewrite is_empty_map.
  destruct (is_empty (fst acc)) eqn:E.
  - destruct (pass_named_quantities name_of quantity_of step l acc Hstep)
      as [H1 H2].
    + destruct (fst acc); [reflexivity | discriminate].
    + apply Hseen. reflexivity.
    + rewrite H1. split; [| exact H2].
      destruct (named_quantities name_of quantity_of l); reflexivity.
  - split; [reflexivity |]. intros H. rewrite E in H. discriminate.
Qed.

Lemma first_found_nested {A : Type} (a b c : list A) :
  first_found [first_found [a; b]; c] = first_found [a; b; c].
Proof.
  cbn [first_found]. destruct a; cbn [is_empty]; [| reflexivity].
  destruct b; cbn [is_empty]; reflexivity.
Qed.

(** C8, as the source has it.  Each strategy gives every item the
    quantity of the node that names it, of the nodes with one name the
    first: the DOM, image alt text and receipt strategies what [parseInt]
    makes of the digits the quantity pattern captures at its first match in
    the text read for that node (which may be 0), and 1 when the pattern
    does not match there; the structured-data strategy the quantity of a line
    item of the payload when that is truthy, and 1 otherwise. *)
Theorem quantity_read_or_one (host : Host) (nextData : JValue) (orderId : string)
    (doc : Document) (container : option Element) (pageText : string) :
  map name_quantity (extractItemsFromOrderContainer host container) =
    match container with
    | Some c => named_quantities alt_name (alt_quantity host) (imgs c)
    | None => []
    end
  /\ map name_quantity (extractItemsFromDOM host doc) =
       first_found
         [named_quantities (link_name 5) (link_quantity host) (productLinks doc);
          named_quantities (link_name 10) (marked_quantity host) (structLinks doc);
          named_quantities text_name (fun _ => JNum 1) (textElements doc)]
  /\ map name_quantity (extractItemsFromReceipt host doc pageText) =
       first_found
         [named_quantities (link_name 5) (receipt_link_quantity host)
                           (productLinks doc);
          named_quantities line_name (line_quantity host) (split_lines pageText)]
  /\ Forall (fun it => In (name_quantity it) (payload_entries nextData))
            (extractItemsFromNextData host nextData orderId).
Proof.
  split; [| split; [| split]].
  - destruct container as [c |]; [| reflexivity].
    unfold extractItemsFromOrderContainer.
    apply (pass_named_quantities alt_name (alt_quantity host)
             (container_step host) (imgs c) ([], []));
      [apply container_step_entry | reflexivity | reflexivity].
  - unfold extractItemsFromDOM. cbv zeta.
    set (acc1 := fold_left (dom_link_step host) (productLinks doc) ([], [])).
    destruct (pass_named_quantities (link_name 5) (link_quantity host)
                (dom_link_step host) (productLinks doc) ([], [])
                (dom_link_step_entry host) eq_refl eq_refl) as [H1 S1].
    fold acc1 in H1, S1.
    destruct (second_pass (link_name 10) (marked_quantity host)
                (dom_struct_step host) (structLinks doc) acc1 _
                (dom_struct_step_entry host) H1 S1) as [H2 S2].
    destruct (second_pass text_name (fun _ => JNum 1)
                (dom_text_step host) (textElements doc) _ _
                (dom_text_step_entry host) H2 S2) as [H3 _].
    exact (eq_trans H3 (first_found_nested _ _ _)).
  - unfold extractItemsFromReceipt. cbv zeta.
    set (acc1 := fold_left (receipt_link_step host) (productLinks doc) ([], [])).
    destruct (pass_named_quantities (link_name 5) (receipt_link_quantity host)
                (receipt_link_step host) (productLinks doc) ([], [])
                (receipt_link_step_entry host) eq_refl eq_refl) as [H1 S1].
    fold acc1 in H1, S1.
    destruct (second_pass line_name (line_quantity host)
                (receipt_line_step host) (split_lines pageText) acc1 _
                (receipt_line_step_entry host) H1 S1) as [H2 _].
    exact H2.
  - apply structured_items_entries.
Qed.

(** C8, as the claim words it, fails: the alt text of an image that ends in
    [quantity 0] gives an item whose quantity is 0. *)
Lemma quantity_zero_emitted :
  map quantity (extractItemsFromOrderContainer Sample.host (Some SampleList.towels)) =
    [JNum 0]
  /\ ~ Forall (fun it => positive_integer (quantity it))
              (extractItemsFromOrderContainer Sample.host (Some SampleList.towels)).
Proof.
  assert (E : extractItemsFromOrderContainer Sample.host (Some SampleList.towels) =
              [{| name := JStr "Great Value Paper Towels";
                  quantity := JNum 0;
                  price := JStr EmptyString;
                  priceValue := JNum 0 |}]) by (vm_compute; reflexivity).
  rewrite E. split; [reflexivity |].
  intros H. inversion H as [| it l Hit _]; subst.
  destruct Hit as [n [Hn Hpos]]. cbn [quantity] in Hn.
  unfold num_of_N, inject_Z in Hn. injection Hn as Hz.
  destruct n; [| discriminate]. apply Hpos. reflexivity.
Qed.

(** ** The text of the CSV, read back *)




















(** * Further properties *)

(** ** Shape of the CSV table *)

Lemma order_cells_width (host : Host) (includeItems : bool) (o : Order) :
  Forall (fun cells => List.length cells = if includeItems then 15 else 13)
         (order_cells host includeItems o).
Proof.
  unfold order_cells. destruct includeItems.
  - destruct (items o) as [| it l].
    + constructor; [reflexivity | constructor].
    + apply Forall_forall. intros cells H. apply in_map_iff in H.
      destruct H as [x [<- _]]. reflexivity.
  - constructor; [reflexivity | constructor].
Qed.

(** X1. Every row of the table [generateCSV] builds, the header included,
    has 15 cells in the detailed layout and 13 in the summary layout; the
    summary layout has one row per order after the header. *)
Theorem csv_table_is_rectangular (host : Host) (includeItems : bool)
    (orders : list Order) :
  Forall (fun cells => List.length cells = if includeItems then 15 else 13)
         (csv_table host includeItems orders)
  /\ List.length (csv_rows host false orders) = 1 + List.length orders.
Proof.
  split.
  - unfold csv_table. constructor.
    + destruct includeItems; reflexivity.
    + apply Forall_forall. intros cells H. apply in_flat_map in H.
      destruct H as [o [_ H]].
      pose proof (order_cells_width host includeItems o) as W.
      rewrite Forall_forall in W. exact (W cells H).
  - unfold csv_rows, csv_table. rewrite length_map. cbn [List.length].
    rewrite length_flat_map. change (1 + ?x) with (S x). f_equal.
    induction orders as [| o l IH]; [reflexivity |].
    cbn [map List.length]. rewrite <- IH. reflexivity.
Qed.

(** X2. In the detailed layout the rows of one order repeat its
    order-level cells: two rows of the same order differ at most in the
    item name, item price and quantity. *)
Theorem order_cells_repeat_order_fields (host : Host) (o : Order)
    (row1 row2 : list string) :
  In row1 (order_cells host true o) ->
  In row2 (order_cells host true o) ->
  firstn 3 row1 = firstn 3 row2 /\ skipn 6 row1 = skipn 6 row2.
Proof.
  assert (H : forall row, In row (order_cells host true o) ->
            firstn 3 row = order_head host o /\ skipn 6 row = order_tail host o).
  { intros row Hrow. unfold order_cells in Hrow.
    destruct (items o) as [| it l].
    - destruct Hrow as [<- | []]. split; reflexivity.
    - apply in_map_iff in Hrow. destruct Hrow as [x [<- _]]. split; reflexivity. }
  intros H1 H2. destruct (H row1 H1) as [A1 B1]. destruct (H row2 H2) as [A2 B2].
  split; congruence.
Qed.

(** ** Fields read back *)

Lemma plain_field_no_quote (s : string) :
  needs_quoting s = false ->
  match chars s with
  | c :: _ => Ascii.eqb c dquote = false
  | [] => True
  end.
Proof.
  unfold needs_quoting. intros H.
  apply orb_false_iff in H. destruct H as [H _].
  apply orb_false_iff in H. destruct H as [_ H].
  unfold includes_char in H. destruct (chars s) as [| c l]; [exact I |].
  cbn [existsb] in H. apply orb_false_iff in H. destruct H as [H _].
  rewrite Ascii.eqb_sym. exact H.
Qed.

(** X3. [escapeCSV] loses nothing of a string: a reader that takes a
    field opening with a double quote as a quoted field, and any other field
    as it is, gets every string back, so two different strings never give
    the same field. *)
Theorem escapeCSV_read_back (host : Host) (s1 s2 : string) :
  read_field (escapeCSV host (JStr s1)) = Some s1
  /\ (escapeCSV host (JStr s1) = escapeCSV host (JStr s2) -> s1 = s2).
Proof.
  assert (R : forall s, read_field (escapeCSV host (JStr s)) = Some s).
  { intros s. unfold escapeCSV. cbn [toStr].
    destruct (needs_quoting s) eqn:E.
    - unfold read_field.
      change (chars (quoted s))
        with (dquote :: chars (double_quotes s ++ String dquote EmptyString)).
      cbv beta iota. rewrite Ascii.eqb_refl. apply parse_quoted_quoted.
    - unfold read_field. pose proof (plain_field_no_quote s E) as P.
      destruct (chars s) as [| c l]; [reflexivity |]. now rewrite P. }
  split; [apply R |].
  intros H. pose proof (R s1) as R1. rewrite H, (R s2) in R1. congruence.
Qed.

Lemma order_cells_repeat_order_fields_witness :
  firstn 3 (item_cells Sample.host Sample2.groceries
              (Sample2.item "Great Value Paper Towels" 2 EmptyString)) =
  firstn 3 (item_cells Sample.host Sample2.groceries
              (Sample2.item "Bananas, each" 6 EmptyString)).
Proof.
  apply (order_cells_repeat_order_fields Sample.host Sample2.groceries).
  - left. reflexivity.
  - right. left. reflexivity.
Defined.

Lemma escapeCSV_read_back_witness :
  Sample.quoted_name = Sample.quoted_name.
Proof.
  apply (proj2 (escapeCSV_read_back Sample.host Sample.quoted_name Sample.quoted_name)).
  reflexivity.
Defined.

(** ** The name filter *)

Lemma lit_ok_iff (p s : list ascii) :
  lit_ok true p s = true <->
  exists a b, s = (a ++ b)%list /\ map upper a = map upper p.
Proof.
  revert s. induction p as [| x p IH]; intros s; simpl.
  - split; [intros _; exists [], s; split; reflexivity | reflexivity].
  - destruct s as [| y s].
    + split; [discriminate |].
      intros [a [b [Hs Ha]]]. destruct a; [discriminate | discriminate].
    + rewrite andb_true_iff, IH. unfold char_eq. split.
      * intros [Hc [a [b [Hs Ha]]]]. apply Ascii.eqb_eq in Hc.
        exists (y :: a), b. split; [now rewrite Hs | cbn [map]; congruence].
      * intros [a [b [Hs Ha]]]. destruct a as [| y' a]; [discriminate |].
        cbn [map app] in *. injection Hs as -> ->. injection Ha as Hy Ha.
        split; [apply Ascii.eqb_eq; congruence |].
        exists a, b. split; [reflexivity | exact Ha].
Qed.

Lemma search_bol_late (r : re) (l : list ascii) :
  forall n, search true (Seq Bol r) (S n) l = None.
Proof.
  induction l as [| c l IH]; intros n; cbn [search m pos Nat.eqb]; [reflexivity |].
  apply IH.
Qed.

Lemma test_starts_i (p name : string) :
  test true (starts_i p) name = lit_ok true (chars p) (chars name).
Proof.
  unfold test, exec, starts_i, seqs. cbn [fold_right].
  destruct (chars name) as [| c l] eqn:E.
  - cbn [search m pos Nat.eqb rest]. destruct (lit_ok true (chars p) []); reflexivity.
  - cbn [search m pos Nat.eqb rest].
    destruct (lit_ok true (chars p) (c :: l)); [reflexivity |].
    now rewrite search_bol_late.
Qed.

Lemma search_found (r : re) (a : list ascii) :
  forall l n,
  m true r {| pos := n + List.length a; rest := l; caps := [] |} Some <> None ->
  search true r n (a ++ l) <> None.
Proof.
  induction a as [| x a IH]; intros l n H.
  - cbn [app List.length] in *. rewrite Nat.add_0_r in H.
    destruct l; cbn [search];
      destruct (m true r _ Some); congruence.
  - cbn [app search].
    destruct (m true r {| pos := n; rest := x :: (a ++ l)%list; caps := [] |} Some);
      [discriminate |].
    apply IH. cbn [List.length] in H. now rewrite Nat.add_succ_r in H.
Qed.

Lemma test_found (r : re) (name : string) (a l : list ascii) :
  chars name = (a ++ l)%list ->
  m true r {| pos := List.length a; rest := l; caps := [] |} Some <> None ->
  test true r name = true.
Proof.
  intros Hname H. unfold test, exec. rewrite Hname.
  pose proof (search_found r a l 0 H) as S.
  destruct (search true r 0 (a ++ l)) as [[st c] |]; [reflexivity | contradiction].
Qed.

Lemma m_lit_found (w : string) (c : cursor) :
  lit_ok true (chars w) (rest c) = true -> m true (Lit w) c Some <> None.
Proof. intros H. cbn [m]. rewrite H. discriminate. Qed.

Lemma m_alt_left (x y : re) (c : cursor) :
  m true x c Some <> None -> m true (Alt x y) c Some <> None.
Proof. intros H. cbn [m]. destruct (m true x c Some); congruence. Qed.

Lemma m_alt_right (x y : re) (c : cursor) :
  m true y c Some <> None -> m true (Alt x y) c Some <> None.
Proof. intros H. cbn [m]. destruct (m true x c Some); [discriminate | exact H]. Qed.

Lemma invalid_name (name : string) (pattern : re) :
  In pattern invalidPatterns -> test true pattern name = true ->
  isValidProductName name = false.
Proof.
  intros Hin Htest. unfold isValidProductName.
  destruct (_ || _ || _)%bool; [reflexivity |].
  apply negb_false_iff. apply existsb_exists. exists pattern. split; assumption.
Qed.

(** X4. [isValidProductName] accepts no name shorter than 5 or longer
    than 200 characters; it rejects every name that begins, in any letter
    case, with one of the phrases its patterns anchor at the start; and,
    because only [VISA] is anchored in the card pattern, it rejects every
    name that holds [MASTERCARD], [AMEX] or [DISCOVER] anywhere. *)
Theorem isValidProductName_rejects (name : string) :
  (isValidProductName name = true ->
     5 <= String.length name /\ String.length name <= 200)
  /\ (forall phrase, In (starts_i phrase) invalidPatterns ->
        starts_with_ci phrase name -> isValidProductName name = false)
  /\ (forall card, In card ["MASTERCARD"; "AMEX"; "DISCOVER"] ->
        contains_ci card name -> isValidProductName name = false).
Proof.
  split; [| split].
  - unfold isValidProductName.
    destruct (String.eqb name EmptyString || (String.length name <? 5)
              || (200 <? String.length name))%bool eqn:E; [discriminate |].
    intros _. apply orb_false_iff in E. destruct E as [E E2].
    apply orb_false_iff in E. destruct E as [_ E1].
    apply Nat.ltb_ge in E1. apply Nat.ltb_ge in E2. split; assumption.
  - intros phrase Hin Hstart. apply (invalid_name name (starts_i phrase) Hin).
    rewrite test_starts_i. apply lit_ok_iff. exact Hstart.
  - intros card Hcard [a [b [c [Hname Hb]]]].
    apply (invalid_name name
             (alts [starts_i "VISA"; Lit "MASTERCARD"; Lit "AMEX"; Lit "DISCOVER"])).
    { unfold invalidPatterns. apply in_or_app. right. apply in_or_app. right.
      apply in_or_app. right. left. reflexivity. }
    apply (test_found _ name a (b ++ c) Hname).
    assert (L : lit_ok true (chars card) (b ++ c) = true).
    { apply lit_ok_iff. exists b, c. split; [reflexivity | exact Hb]. }
    unfold alts. cbn [fold_left].
    destruct Hcard as [<- | [<- | [<- | []]]].
    + apply m_alt_left, m_alt_left, m_alt_right, m_lit_found. exact L.
    + apply m_alt_left, m_alt_right, m_lit_found. exact L.
    + apply m_alt_right, m_lit_found. exact L.
Qed.

Lemma isValidProductName_rejects_witness :
  isValidProductName "SUBTOTAL $45.00" = false
  /\ isValidProductName "Samex Blender 500 Watts" = false.
Proof.
  split.
  - apply (proj1 (proj2 (isValidProductName_rejects "SUBTOTAL $45.00")) "Subtotal").
    + unfold invalidPatterns. apply in_or_app. left. left. reflexivity.
    + exists (chars "SUBTOTAL"), (chars " $45.00"). split; reflexivity.
  - apply (proj2 (proj2 (isValidProductName_rejects "Samex Blender 500 Watts")) "AMEX").
    + right. left. reflexivity.
    + exists (chars "S"), (chars "amex"), (chars " Blender 500 Watts").
      split; reflexivity.
Defined.

(** ** Names the extractors emit *)

Lemma is_empty_nil {A : Type} (l : list A) : is_empty l = true -> l = [].
Proof. destruct l; [reflexivity | discriminate]. Qed.

Lemma dom_link_step_named_by (host : Host) (texts : list string) (acc : Acc) (link : Link) :
  In (l_textContent link) texts ->
  Forall (named_by texts) (fst acc) ->
  Forall (named_by texts) (fst (dom_link_step host acc link)).
Proof.
  intros Hin Hacc. unfold dom_link_step.
  match goal with |- context [if ?c then _ else _] => destruct c end;
    [| exact Hacc].
  destruct (climb_price host 20 (l_ancestors link) link_itself) as [[p q] c].
  match goal with |- context [let '(_, _) := ?e in _] => destruct e as [p' q'] end.
  destruct (isValidProductName _) eqn:V; [| exact Hacc].
  apply Forall_push; [exact Hacc |].
  eexists. split; [reflexivity |]. split; [apply in_map; exact Hin | exact V].
Qed.

Lemma dom_struct_step_named_by (host : Host) (texts : list string) (acc : Acc) (link : Link) :
  In (l_textContent link) texts ->
  Forall (named_by texts) (fst acc) ->
  Forall (named_by texts) (fst (dom_struct_step host acc link)).
Proof.
  intros Hin Hacc. unfold dom_struct_step.
  match goal with |- context [if ?c then _ else _] => destruct c eqn:E end;
    [| exact Hacc].
  split_andb E.
  match goal with |- context [let '(_, _) := ?e in _] => destruct e as [p' q'] end.
  apply Forall_push; [exact Hacc |].
  eexists. split; [reflexivity |]. split; [apply in_map; exact Hin | assumption].
Qed.

Lemma dom_text_step_named_by (host : Host) (texts : list string) (acc : Acc)
    (el : TextElement) :
  In (t_textContent el) texts ->
  Forall (named_by texts) (fst acc) ->
  Forall (named_by texts) (fst (dom_text_step host acc el)).
Proof.
  intros Hin Hacc. unfold dom_text_step.
  match goal with |- context [if ?c then _ else _] => destruct c eqn:E end;
    [| exact Hacc].
  split_andb E.
  destruct (t_parentText el); [| exact Hacc].
  destruct (exec false price_re s); [| exact Hacc].
  apply Forall_push; [exact Hacc |].
  eexists. split; [reflexivity |]. split; [apply in_map; exact Hin | assumption].
Qed.

Lemma container_step_valid (host : Host) (acc : Acc) (alt : string) :
  Forall valid_name (fst acc) -> Forall valid_name (fst (container_step host acc alt)).
Proof.
  intros Hacc. unfold container_step.
  destruct (_ || _ || _)%bool; [exact Hacc |].
  destruct (existsb _ skipPatterns); [exact Hacc |].
  match goal with |- context [if ?c then _ else _] => destruct c eqn:E end;
    [| exact Hacc].
  split_andb E. apply Forall_push; [exact Hacc |].
  eexists. split; [reflexivity | assumption].
Qed.

Lemma receipt_link_step_valid (host : Host) (acc : Acc) (link : Link) :
  Forall valid_name (fst acc) ->
  Forall valid_name (fst (receipt_link_step host acc link)).
Proof.
  intros Hacc. unfold receipt_link_step.
  match goal with |- context [if ?c then _ else _] => destruct c eqn:E end;
    [| exact Hacc].
  split_andb E.
  destruct (climb_receipt host 20 (l_ancestors link) EmptyString (JNum 1)) as [p q].
  apply Forall_push; [exact Hacc |].
  eexists. split; [reflexivity | assumption].
Qed.

Lemma receipt_line_step_valid (host : Host) (acc : Acc) (line : string) :
  Forall valid_name (fst acc) ->
  Forall valid_name (fst (receipt_line_step host acc line)).
Proof.
  intros Hacc. unfold receipt_line_step.
  destruct (exec false receipt_line_re line); [| exact Hacc].
  match goal with |- context [if ?c then _ else _] => destruct c eqn:E end;
    [| exact Hacc].
  split_andb E. apply Forall_push; [exact Hacc |].
  eexists. split; [reflexivity | assumption].
Qed.

(** A pass pushes a name for every item, so an accumulator without items
    has seen no name. *)
Lemma fold_left_seen_pushed {X : Type} (step : Acc -> X -> Acc) (l : list X) :
  (forall acc x, step acc x = acc \/ exists it, step acc x = push acc it) ->
  forall acc, List.length (snd acc) = List.length (fst acc) ->
  List.length (snd (fold_left step l acc)) =
    List.length (fst (fold_left step l acc)).
Proof.
  intros Hstep. induction l as [| x l IH]; intros acc Hacc; [exact Hacc |].
  cbn [fold_left]. apply IH.
  destruct (Hstep acc x) as [-> | [it ->]]; [exact Hacc |].
  unfold push. cbn [fst snd]. rewrite !length_app, Hacc. reflexivity.
Qed.

Lemma dom_link_step_pushes (host : Host) (acc : Acc) (link : Link) :
  dom_link_step host acc link = acc
  \/ exists it, dom_link_step host acc link = push acc it.
Proof.
  unfold dom_link_step.
  match goal with |- context [if ?c then _ else _] => destruct c end;
    [| now left].
  destruct (climb_price host 20 (l_ancestors link) link_itself) as [[p q] c].
  match goal with |- context [let '(_, _) := ?e in _] => destruct e as [p' q'] end.
  destruct (isValidProductName _); [| now left].
  right. eexists. reflexivity.
Qed.

Lemma dom_struct_step_pushes (host : Host) (acc : Acc) (link : Link) :
  dom_struct_step host acc link = acc
  \/ exists it, dom_struct_step host acc link = push acc it.
Proof.
  unfold dom_struct_step.
  match goal with |- context [if ?c then _ else _] => destruct c end;
    [| now left].
  match goal with |- context [let '(_, _) := ?e in _] => destruct e as [p' q'] end.
  right. eexists. reflexivity.
Qed.

Lemma dom_text_step_pushes (host : Host) (acc : Acc) (el : TextElement) :
  dom_text_step host acc el = acc
  \/ exists it, dom_text_step host acc el = push acc it.
Proof.
  unfold dom_text_step.
  match goal with |- context [if ?c then _ else _] => destruct c end;
    [| now left].
  destruct (t_parentText el); [| now left].
  destruct (exec false price_re s); [| now left].
  right. eexists. reflexivity.
Qed.

Lemma nothing_found (acc : Acc) :
  List.length (snd acc) = List.length (fst acc) ->
  is_empty (fst acc) = true -> acc = ([], []).
Proof.
  destruct acc as [found seen]. cbn [fst snd]. intros Hlen Hempty.
  destruct found; [| discriminate]. destruct seen; [reflexivity | discriminate].
Qed.

(** X5. [extractItemsFromDOM] takes all its items from one strategy, the
    first in this order that finds any: product links, else marked links,
    else text elements.  Its items are those it finds on the document with
    the product links only when there are any, else those it finds on the
    document with the marked links only when there are any, else those it
    finds on the document with the text elements only.  Every item a
    strategy finds is named by the trimmed text of one of its nodes, and the
    name passed [isValidProductName]. *)
Theorem extractItemsFromDOM_one_strategy (host : Host) (doc : Document) :
  extractItemsFromDOM host doc =
    first_found [extractItemsFromDOM host (product_links_only doc);
                 extractItemsFromDOM host (marked_links_only doc);
                 extractItemsFromDOM host (text_elements_only doc)]
  /\ extractItemsFromDOM host (product_links_only doc) =
       fst (fold_left (dom_link_step host) (productLinks doc) ([], []))
  /\ extractItemsFromDOM host (marked_links_only doc) =
       fst (fold_left (dom_struct_step host) (structLinks doc) ([], []))
  /\ extractItemsFromDOM host (text_elements_only doc) =
       fst (fold_left (dom_text_step host) (textElements doc) ([], []))
  /\ Forall (named_by (map l_textContent (productLinks doc)))
            (extractItemsFromDOM host (product_links_only doc))
  /\ Forall (named_by (map l_textContent (structLinks doc)))
            (extractItemsFromDOM host (marked_links_only doc))
  /\ Forall (named_by (map t_textContent (textElements doc)))
            (extractItemsFromDOM host (text_elements_only doc)).
Proof.
  assert (E1 : extractItemsFromDOM host (product_links_only doc) =
               fst (fold_left (dom_link_step host) (productLinks doc) ([], []))).
  { unfold extractItemsFromDOM, product_links_only.
    cbn [productLinks structLinks textElements fold_left].
    repeat match goal with
           | |- context [if ?c then _ else _] => destruct c
           end; reflexivity. }
  assert (E2 : extractItemsFromDOM host (marked_links_only doc) =
               fst (fold_left (dom_struct_step host) (structLinks doc) ([], []))).
  { unfold extractItemsFromDOM, marked_links_only.
    cbn [productLinks structLinks textElements fold_left fst is_empty].
    destruct (is_empty _); reflexivity. }
  assert (E3 : extractItemsFromDOM host (text_elements_only doc) =
               fst (fold_left (dom_text_step host) (textElements doc) ([], []))).
  { unfold extractItemsFromDOM, text_elements_only.
    cbn [productLinks structLinks textElements fold_left fst is_empty].
    reflexivity. }
  split; [| split; [exact E1 | split; [exact E2 | split; [exact E3 |]]]].
  - rewrite E1, E2, E3. unfold extractItemsFromDOM. cbv zeta. cbn [first_found].
    set (acc1 := fold_left (dom_link_step host) (productLinks doc) ([], [])).
    assert (L1 : List.length (snd acc1) = List.length (fst acc1)).
    { apply fold_left_seen_pushed; [apply dom_link_step_pushes | reflexivity]. }
    destruct (is_empty (fst acc1)) eqn:N1; [| now rewrite N1].
    rewrite (nothing_found acc1 L1 N1).
    set (acc2 := fold_left (dom_struct_step host) (structLinks doc) ([], [])).
    assert (L2 : List.length (snd acc2) = List.length (fst acc2)).
    { apply fold_left_seen_pushed; [apply dom_struct_step_pushes | reflexivity]. }
    destruct (is_empty (fst acc2)) eqn:N2; [| reflexivity].
    rewrite (nothing_found acc2 L2 N2).
    destruct (fst (fold_left (dom_text_step host) (textElements doc) ([], [])));
      reflexivity.
  - rewrite E1, E2, E3. split; [| split].
    + apply fold_left_items; [| constructor].
      intros a x Hx. apply dom_link_step_named_by. apply in_map. exact Hx.
    + apply fold_left_items; [| constructor].
      intros a x Hx. apply dom_struct_step_named_by. apply in_map. exact Hx.
    + apply fold_left_items; [| constructor].
      intros a x Hx. apply dom_text_step_named_by. apply in_map. exact Hx.
Qed.

(** X6. Every item of the image alt text and of the receipt strategies
    has a string name that passed [isValidProductName]. *)
Theorem list_and_receipt_names_valid (host : Host) (container : option Element)
    (doc : Document) (pageText : string) :
  Forall valid_name (extractItemsFromOrderContainer host container)
  /\ Forall valid_name (extractItemsFromReceipt host doc pageText).
Proof.
  split.
  - destruct container as [c |]; [| constructor].
    unfold extractItemsFromOrderContainer.
    apply fold_left_items; [| constructor].
    intros a x _. apply container_step_valid.
  - unfold extractItemsFromReceipt. cbv zeta.
    set (acc1 := fold_left (receipt_link_step host) (productLinks doc) ([], [])).
    assert (H1 : Forall valid_name (fst acc1)).
    { apply fold_left_items; [| constructor].
      intros a x _. apply receipt_link_step_valid. }
    destruct (is_empty (fst acc1)); [| exact H1].
    apply fold_left_items; [| exact H1].
    intros a x _. apply receipt_line_step_valid.
Qed.

(** ** The climb from a product link *)

Lemma climb_price_cap (host : Host) (n : nat) :
  forall ancestors c,
  climb_price host n (firstn n ancestors) c = climb_price host n ancestors c.
Proof.
  induction n as [| n IH]; intros ancestors c; [reflexivity |].
  destruct ancestors as [| a up]; [reflexivity |].
  cbn [firstn climb_price]. destruct (a_linePrice a); [reflexivity | apply IH].
Qed.

Lemma climb_receipt_cap (host : Host) (n : nat) :
  forall ancestors p q,
  climb_receipt host n (firstn n ancestors) p q = climb_receipt host n ancestors p q.
Proof.
  induction n as [| n IH]; intros ancestors p q; [reflexivity |].
  destruct ancestors as [| a up]; [reflexivity |].
  cbn [firstn climb_receipt]. destruct (String.eqb _ EmptyString); [apply IH | reflexivity].
Qed.

Lemma fold_left_map_same {A X : Type} (f : A -> X -> A) (g : X -> X) (l : list X) :
  (forall a x, f a (g x) = f a x) ->
  forall a, fold_left f (map g l) a = fold_left f l a.
Proof.
  intros H. induction l as [| x l IH]; intros a; [reflexivity |].
  cbn [map fold_left]. rewrite H. apply IH.
Qed.

(** X7. The climb from a product link stops at the 20th ancestor: what
    lies above it changes neither the items of [extractItemsFromDOM] nor
    those of [extractItemsFromReceipt]. *)
Theorem climb_stops_at_20 (host : Host) (doc : Document) (pageText : string) :
  extractItemsFromDOM host (cap_links 20 doc) = extractItemsFromDOM host doc
  /\ extractItemsFromReceipt host (cap_links 20 doc) pageText =
       extractItemsFromReceipt host doc pageText.
Proof.
  split.
  - unfold extractItemsFromDOM. cbn [productLinks structLinks textElements cap_links].
    rewrite fold_left_map_same; [reflexivity |].
    intros a x. unfold dom_link_step. cbn [cap_link l_textContent l_ancestors].
    now rewrite climb_price_cap.
  - unfold extractItemsFromReceipt. cbn [productLinks cap_links].
    rewrite fold_left_map_same; [reflexivity |].
    intros a x. unfold receipt_link_step. cbn [cap_link l_textContent l_ancestors].
    now rewrite climb_receipt_cap.
Qed.

(** ** Order links of a page *)

Lemma map_has_In (id : string) (orderMap : list OrderInfo.t) :
  map_has id orderMap = true <-> In id (map OrderInfo.orderId orderMap).
Proof.
  unfold map_has. rewrite existsb_exists. split.
  - intros [e [He Hid]]. apply String.eqb_eq in Hid. subst id.
    apply in_map. exact He.
  - intros H. apply in_map_iff in H. destruct H as [e [Hid He]].
    exists e. split; [exact He | subst id; apply String.eqb_refl].
Qed.

Lemma map_set_keys (info : OrderInfo.t) (orderMap : list OrderInfo.t) :
  map OrderInfo.orderId (map_set info orderMap) =
  if map_has (OrderInfo.orderId info) orderMap
  then map OrderInfo.orderId orderMap
  else (map OrderInfo.orderId orderMap ++ [OrderInfo.orderId info])%list.
Proof.
  induction orderMap as [| e l IH]; [reflexivity |].
  cbn [map_set]. unfold map_has in *. cbn [existsb].
  destruct (String.eqb (OrderInfo.orderId e) (OrderInfo.orderId info)) eqn:E.
  - cbn [orb map]. apply String.eqb_eq in E. now rewrite E.
  - cbn [orb map]. rewrite IH.
    destruct (existsb _ l); reflexivity.
Qed.

Lemma map_set_In (info e : OrderInfo.t) (orderMap : list OrderInfo.t) :
  In e (map_set info orderMap) -> e = info \/ In e orderMap.
Proof.
  induction orderMap as [| x l IH]; cbn [map_set].
  - intros [<- | []]. now left.
  - destruct (String.eqb (OrderInfo.orderId x) (OrderInfo.orderId info)).
    + intros [<- | H]; [now left | right; now right].
    + intros [<- | H]; [right; now left |].
      destruct (IH H) as [-> | H']; [now left | right; now right].
Qed.

Lemma map_set_new (info : OrderInfo.t) (orderMap : list OrderInfo.t) :
  In info (map_set info orderMap).
Proof.
  induction orderMap as [| x l IH]; cbn [map_set]; [now left |].
  destruct (String.eqb (OrderInfo.orderId x) (OrderInfo.orderId info));
    [now left | right; exact IH].
Qed.

Lemma map_set_other (info e : OrderInfo.t) (orderMap : list OrderInfo.t) :
  In e orderMap -> OrderInfo.orderId e <> OrderInfo.orderId info ->
  In e (map_set info orderMap).
Proof.
  induction orderMap as [| x l IH]; [intros [] |].
  intros [<- | H] Hne; cbn [map_set].
  - destruct (String.eqb (OrderInfo.orderId x) (OrderInfo.orderId info)) eqn:E;
      [apply String.eqb_eq in E; contradiction | now left].
  - destruct (String.eqb (OrderInfo.orderId x) (OrderInfo.orderId info));
      [right; exact H | right; apply IH; assumption].
Qed.

Lemma order_link_step_keeps (done : list Anchor) (orderMap : list OrderInfo.t)
    (link : Anchor) :
  order_map_of done orderMap ->
  order_map_of (done ++ [link]) (order_link_step orderMap link).
Proof.
  intros [Hnd [Hsound Hcover]].
  assert (Hold : order_link_step orderMap link = orderMap ->
                 (forall mt, exec false orders_query_re (href link) = Some mt ->
                    exists e, In e orderMap /\ OrderInfo.orderId e = group1 mt
                      /\ (includes (href link) "storePurchase=true" = true ->
                          OrderInfo.isStore e = true)) ->
                 order_map_of (done ++ [link]) (order_link_step orderMap link)).
  { intros -> Hlink. split; [exact Hnd |]. split.
    - intros e He. destruct (Hsound e He) as [a [Ha H]].
      exists a. split; [apply in_or_app; now left | exact H].
    - intros a mt Ha Hm. apply in_app_or in Ha. destruct Ha as [Ha | [<- | []]].
      + exact (Hcover a mt Ha Hm).
      + exact (Hlink mt Hm). }
  unfold order_link_step in *.
  destruct (exec false orders_query_re (href link)) as [mt |] eqn:Em;
    [| apply Hold; [reflexivity | discriminate]].
  set (info := {| OrderInfo.orderId := group1 mt;
                  OrderInfo.url := href link;
                  OrderInfo.isStore := includes (href link) "storePurchase=true" |}) in *.
  destruct (map_has (group1 mt) orderMap) eqn:Ehas;
    destruct (includes (href link) "storePurchase=true") eqn:Estore;
    cbn [negb orb] in *.
  - (* a store link for an order already in the map *)
    split; [| split].
    + rewrite map_set_keys. cbn [OrderInfo.orderId info]. rewrite Ehas. exact Hnd.
    + intros e He. apply map_set_In in He. destruct He as [-> | He].
      * exists link. split; [apply in_or_app; right; now left |].
        split; [reflexivity |].
        unfold info; cbn [OrderInfo.isStore OrderInfo.url]. congruence.
      * destruct (Hsound e He) as [a [Ha H]].
        exists a. split; [apply in_or_app; now left | exact H].
    + intros a mt' Ha Hm. apply in_app_or in Ha. destruct Ha as [Ha | [<- | []]].
      * destruct (Hcover a mt' Ha Hm) as [e [He [Hid Hst]]].
        destruct (String.eqb (OrderInfo.orderId e) (group1 mt)) eqn:Eid.
        -- apply String.eqb_eq in Eid. exists info.
           split; [apply map_set_new |].
           split; [unfold info; cbn [OrderInfo.orderId]; congruence | intros _; unfold info; cbn [OrderInfo.isStore]; congruence].
        -- apply String.eqb_neq in Eid. exists e.
           split; [apply map_set_other; assumption |]. split; assumption.
      * rewrite Em in Hm. injection Hm as <-. exists info.
        split; [apply map_set_new |].
        split; [reflexivity | intros _; unfold info; cbn [OrderInfo.isStore]; congruence].
  - (* a plain link for an order already in the map: nothing changes *)
    apply Hold; [reflexivity |].
    intros mt' Hm. injection Hm as <-.
    apply map_has_In in Ehas. apply in_map_iff in Ehas.
    destruct Ehas as [e [Hid He]]. exists e.
    split; [exact He |]. split; [exact Hid | discriminate].
  - (* a store link for a new order *)
    assert (Hnew : ~ In (group1 mt) (map OrderInfo.orderId orderMap)).
    { intros H. apply map_has_In in H. congruence. }
    split; [| split].
    + rewrite map_set_keys. cbn [OrderInfo.orderId info]. rewrite Ehas.
      apply NoDup_snoc; assumption.
    + intros e He. apply map_set_In in He. destruct He as [-> | He].
      * exists link. split; [apply in_or_app; right; now left |].
        split; [reflexivity |].
        unfold info; cbn [OrderInfo.isStore OrderInfo.url]. congruence.
      * destruct (Hsound e He) as [a [Ha H]].
        exists a. split; [apply in_or_app; now left | exact H].
    + intros a mt' Ha Hm. apply in_app_or in Ha. destruct Ha as [Ha | [<- | []]].
      * destruct (Hcover a mt' Ha Hm) as [e [He [Hid Hst]]].
        exists e. split; [| split; assumption].
        apply map_set_other; [exact He |].
        cbn [OrderInfo.orderId info]. intros E. apply Hnew.
        rewrite <- E. apply in_map. exact He.
      * rewrite Em in Hm. injection Hm as <-. exists info.
        split; [apply map_set_new |].
        split; [reflexivity | intros _; unfold info; cbn [OrderInfo.isStore]; congruence].
  - (* a plain link for a new order *)
    assert (Hnew : ~ In (group1 mt) (map OrderInfo.orderId orderMap)).
    { intros H. apply map_has_In in H. congruence. }
    split; [| split].
    + rewrite map_set_keys. cbn [OrderInfo.orderId info]. rewrite Ehas.
      apply NoDup_snoc; assumption.
    + intros e He. apply map_set_In in He. destruct He as [-> | He].
      * exists link. split; [apply in_or_app; right; now left |].
        split; [reflexivity |].
        unfold info; cbn [OrderInfo.isStore OrderInfo.url]. congruence.
      * destruct (Hsound e He) as [a [Ha H]].
        exists a. split; [apply in_or_app; now left | exact H].
    + intros a mt' Ha Hm. apply in_app_or in Ha. destruct Ha as [Ha | [<- | []]].
      * destruct (Hcover a mt' Ha Hm) as [e [He [Hid Hst]]].
        exists e. split; [| split; assumption].
        apply map_set_other; [exact He |].
        cbn [OrderInfo.orderId info]. intros E. apply Hnew.
        rewrite <- E. apply in_map. exact He.
      * rewrite Em in Hm. injection Hm as <-. exists info.
        split; [apply map_set_new |].
        split; [reflexivity | intros H; congruence].
Qed.

Lemma order_link_steps_keep (l : list Anchor) :
  forall done orderMap,
  order_map_of done orderMap ->
  order_map_of (done ++ l) (fold_left order_link_step l orderMap).
Proof.
  induction l as [| a l IH]; intros done orderMap H; cbn [fold_left].
  - now rewrite app_nil_r.
  - replace (done ++ a :: l)%list with ((done ++ [a]) ++ l)%list
      by (now rewrite <- app_assoc).
    apply IH. apply order_link_step_keeps. exact H.
Qed.

(** X8. [getOrderIdsFromPage] returns at most one entry per order id;
    every entry carries the address of a link of the page and is marked as a
    store purchase exactly when that address says so; and every order link
    of the page has its entry, which is a store-purchase one as soon as some
    link of that order is. *)
Theorem getOrderIdsFromPage_one_per_order (page : ListPage) :
  NoDup (map OrderInfo.orderId (getOrderIdsFromPage page))
  /\ (forall e, In e (getOrderIdsFromPage page) ->
        exists a, In a (anchors page) /\ href a = OrderInfo.url e
          /\ OrderInfo.isStore e = includes (OrderInfo.url e) "storePurchase=true")
  /\ (forall a mt, In a (anchors page) ->
        includes (href a) "/orders/" = true ->
        exec false orders_query_re (href a) = Some mt ->
        exists e, In e (getOrderIdsFromPage page)
          /\ OrderInfo.orderId e = group1 mt
          /\ (includes (href a) "storePurchase=true" = true ->
              OrderInfo.isStore e = true)).
Proof.
  unfold getOrderIdsFromPage.
  set (l := filter (fun a => includes (href a) "/orders/") (anchors page)).
  assert (H : order_map_of l (fold_left order_link_step l [])).
  { apply (order_link_steps_keep l [] []).
    split; [constructor |]. split; [intros e [] | intros a mt []]. }
  destruct H as [Hnd [Hsound Hcover]]. split; [exact Hnd |]. split.
  - intros e He. destruct (Hsound e He) as [a [Ha H]].
    exists a. split; [| exact H]. unfold l in Ha. apply filter_In in Ha. tauto.
  - intros a mt Ha Hinc Hm. apply (Hcover a mt); [| exact Hm].
    unfold l. apply filter_In. split; assumption.
Qed.

Lemma getOrderIdsFromPage_one_per_order_witness :
  exists e, In e (getOrderIdsFromPage SampleLinks.twice)
            /\ OrderInfo.orderId e = "111" /\ OrderInfo.isStore e = true.
Proof.
  destruct (exec false orders_query_re
              "https://www.walmart.com/orders/111?storePurchase=true")
    as [mt |] eqn:E; [| vm_compute in E; discriminate].
  destruct (proj2 (proj2 (getOrderIdsFromPage_one_per_order SampleLinks.twice))
              (SampleRun.anchor "https://www.walmart.com/orders/111?storePurchase=true")
              mt (or_intror (or_introl eq_refl)) eq_refl E)
    as [e [He [Hid Hst]]].
  exists e. split; [exact He |]. split; [| apply Hst; reflexivity].
  rewrite Hid. vm_compute in E. injection E as <-. reflexivity.
Defined.

(** ** The container of a return link *)

Lemma find_marked_within (n : nat) :
  forall ancestors el,
  find_marked n ancestors = Some el ->
  In el (firstn n ancestors) /\ marked_as_order el.
Proof.
  induction n as [| n IH]; intros ancestors el H; [discriminate |].
  destruct ancestors as [| a up]; [discriminate |].
  cbn [find_marked firstn] in *.
  destruct (is_order_testid a) eqn:E1.
  - injection H as <-. split; [now left | now left].
  - destruct (looks_like_order a) eqn:E2.
    + injection H as <-. split; [now left | now right].
    + destruct (IH up el H) as [H1 H2]. split; [now right | exact H2].
Qed.

Lemma ascend_within (n : nat) :
  forall el ancestors, In (ascend n el ancestors) (el :: firstn n ancestors).
Proof.
  induction n as [| n IH]; intros el ancestors; [now left |].
  destruct ancestors as [| a up]; [now left |].
  cbn [ascend firstn]. right. apply IH.
Qed.

(** X9. [findOrderContainer] stays near the link: the element it returns
    is the link itself or one of its nearest 15 ancestors, and it is among
    the nearest 6 unless it carries a mark of an order container. *)
Theorem findOrderContainer_is_near (element : Anchor) :
  In (findOrderContainer element)
     (anchor_element element :: firstn 15 (anchor_parents element))
  /\ (marked_as_order (findOrderContainer element)
      \/ In (findOrderContainer element)
            (anchor_element element :: firstn 6 (anchor_parents element))).
Proof.
  unfold findOrderContainer.
  destruct (find_marked 15 (anchor_parents element)) as [el |] eqn:E.
  - destruct (find_marked_within 15 _ el E) as [H1 H2].
    split; [now right | now left].
  - pose proof (ascend_within 6 (anchor_element element) (anchor_parents element)) as H.
    split; [| now right].
    destruct H as [H | H]; [now left | right].
    assert (I6 : incl (firstn 6 (anchor_parents element))
                      (firstn 15 (anchor_parents element))).
    { generalize (anchor_parents element). intros l.
      do 6 (destruct l as [| ? l]; [intros x Hx; exact Hx |]).
      cbn [firstn]. intros x Hx.
      repeat (destruct Hx as [Hx | Hx]; [now (repeat (try (left; exact Hx); right)) |]).
      destruct Hx. }
    apply I6. exact H.
Qed.

(** ** How a run moves *)

Section Advances.
Variable host : Host.
Variable world : World.
Variable options : Options.
Variable cutoffDate : option Z.

Local Notation "'moves'" := (advances host options cutoffDate).

Lemma advances_refl (r : Run) : moves r r.
Proof.
  split; [exists []; split; [now rewrite app_nil_r | constructor] |].
  split; [exists []; split; [now rewrite app_nil_r | intros _; constructor] |].
  repeat split; auto.
Qed.

Lemma advances_trans (r1 r2 r3 : Run) : moves r1 r2 -> moves r2 r3 -> moves r1 r3.
Proof.
  intros [[os1 [O1 K1]] [[cs1 [C1 F1]] [L1 [A1 [S1 W1]]]]]
         [[os2 [O2 K2]] [[cs2 [C2 F2]] [L2 [A2 [S2 W2]]]]].
  split; [exists (os1 ++ os2)%list; split;
          [rewrite O2, O1; now rewrite app_assoc | apply Forall_app; now split] |].
  split; [exists (cs1 ++ cs2)%list; split;
          [rewrite C2, C1; now rewrite app_assoc
          | intros H; apply Forall_app; split; auto] |].
  split; [lia |]. split; [intros H; rewrite (A2 H); auto |]. split; lia.
Qed.

(** A change of the counters alone. *)
Lemma advances_counters (r r' : Run) :
  orders r' = orders r -> calls r' = calls r -> clicks r' = clicks r ->
  sent r <= sent r' -> awaits r <= awaits r' -> moves r r'.
Proof.
  intros Ho Hc Hk Hs Ha.
  split; [exists []; split; [now rewrite app_nil_r | constructor] |].
  split; [exists []; split; [now rewrite app_nil_r | intros _; constructor] |].
  split; [lia |]. split; [auto |]. split; assumption.
Qed.

Lemma ends_ret {A : Type} (a : A) : ends_in moves (ret a).
Proof. intros r. apply advances_refl. Qed.

Lemma ends_bind {A B : Type} (c : M A) (k : A -> M B) :
  ends_in moves c -> (forall a, ends_in moves (k a)) -> ends_in moves (bind c k).
Proof.
  intros Hc Hk r. unfold bind. specialize (Hc r).
  destruct (c r) as [a r1 | e r1 |]; [| exact Hc | exact I].
  specialize (Hk a r1).
  destruct (k a r1) as [b r2 | e r2 |]; [| | exact I];
    eapply advances_trans; eassumption.
Qed.

Lemma ends_sendProgress : ends_in moves (sendProgress world).
Proof.
  intros r. unfold sendProgress.
  destruct (sendMessage world (sent r)); apply advances_counters; cbn; auto.
Qed.

Lemma ends_isExporting : ends_in moves (isExporting world).
Proof. intros r. apply advances_refl. Qed.

Lemma ends_currentPage : ends_in moves (currentPage world).
Proof. intros r. apply advances_refl. Qed.

Lemma ends_awaited : ends_in moves awaited.
Proof. intros r. apply advances_counters; cbn; auto. Qed.

Lemma ends_count_processed : ends_in moves count_processed.
Proof. intros r. apply advances_counters; cbn; auto. Qed.

Lemma ends_called_order (id : string) : ends_in moves (called (FetchOrderDetails id)).
Proof.
  intros r. cbn.
  split; [exists []; split; [now rewrite app_nil_r | constructor] |].
  split; [exists [FetchOrderDetails id]; split;
          [reflexivity | intros _; constructor; [reflexivity | constructor]] |].
  repeat split; auto.
Qed.

Lemma ends_called_details (id : string) :
  (fetchItemPrices options && includeItems options)%bool = true ->
  ends_in moves (called (FetchDetailedItems id)).
Proof.
  intros Hon r. cbn.
  split; [exists []; split; [now rewrite app_nil_r | constructor] |].
  split; [exists [FetchDetailedItems id]; split;
          [reflexivity | intros H; congruence] |].
  repeat split; auto.
Qed.

Lemma ends_push_order (o : Order) :
  kept host options cutoffDate o = true -> ends_in moves (push_order o).
Proof.
  intros Hkept r. cbn.
  split; [exists [o]; split; [reflexivity | constructor; [exact Hkept | constructor]] |].
  split; [exists []; split; [now rewrite app_nil_r | intros _; constructor] |].
  repeat split; auto.
Qed.

Lemma ends_clicked : allPages options = true -> ends_in moves clicked.
Proof.
  intros Hall r. cbn.
  split; [exists []; split; [now rewrite app_nil_r | constructor] |].
  split; [exists []; split; [now rewrite app_nil_r | intros _; constructor] |].
  cbn. split; [lia |]. split; [intros H; congruence |]. split; auto.
Qed.

Lemma ends_fetch_each (orderIds : list OrderInfo.t) :
  forall pageOrders, ends_in moves (fetch_each world orderIds pageOrders).
Proof.
  induction orderIds as [| orderInfo rest IH]; intros pageOrders.
  - apply ends_ret.
  - cbn [fetch_each].
    apply ends_bind; [apply ends_isExporting |]. intros going.
    destruct (negb going); [apply ends_ret |].
    apply ends_bind; [apply ends_sendProgress |]. intros _.
    apply ends_bind; [apply ends_called_order |]. intros _.
    apply ends_bind; [apply ends_awaited |]. intros _.
    apply ends_bind; [apply ends_awaited |]. intros _.
    apply IH.
Qed.

Lemma ends_with_prices (o : Order) : ends_in moves (with_prices host world options o).
Proof.
  unfold with_prices.
  destruct (fetchItemPrices options && includeItems options)%bool eqn:E;
    [| apply ends_ret].
  apply ends_bind; [apply ends_sendProgress |]. intros _.
  apply ends_bind; [apply ends_called_details; exact E |]. intros _.
  apply ends_bind; [apply ends_awaited |]. intros _.
  apply ends_bind; [apply ends_awaited |]. intros _.
  apply ends_ret.
Qed.

Lemma ends_process_orders (pageOrders : list Order) :
  forall reachedCutoff,
  ends_in moves (process_orders host world options cutoffDate pageOrders reachedCutoff).
Proof.
  induction pageOrders as [| o rest IH]; intros reachedCutoff.
  - apply ends_ret.
  - cbn [process_orders].
    apply ends_bind; [apply ends_isExporting |]. intros going.
    destruct (negb going); [apply ends_ret |].
    apply ends_bind; [apply ends_sendProgress |]. intros _.
    apply ends_bind; [apply ends_with_prices |]. intros orderDetails. cbv zeta.
    change (negb (before_cutoff host cutoffDate orderDetails)
            && negb (wrong_type (orderTypeFilter options) orderDetails))%bool
      with (kept host options cutoffDate orderDetails).
    apply ends_bind.
    + destruct (kept host options cutoffDate orderDetails) eqn:Ekept;
        [apply ends_push_order; exact Ekept | apply ends_ret].
    + intros _. apply ends_bind; [apply ends_count_processed |].
      intros _. apply IH.
Qed.

Lemma ends_or_fetched (page : ListPage) (listed : list Order) :
  ends_in moves (or_fetched world page listed).
Proof.
  unfold or_fetched. destruct (is_empty listed); [| apply ends_ret].
  apply ends_bind; [apply ends_sendProgress |]. intros _. apply ends_fetch_each.
Qed.

Lemma ends_export_pages (fuel : nat) :
  ends_in moves (export_pages host world fuel options cutoffDate).
Proof.
  induction fuel as [| fuel IH]; [intros r; exact I |].
  cbn [export_pages].
  apply ends_bind; [apply ends_isExporting |]. intros going.
  destruct (negb going); [apply ends_ret |].
  apply ends_bind; [apply ends_sendProgress |]. intros _.
  apply ends_bind; [apply ends_currentPage |]. intros page. cbv zeta.
  apply ends_bind; [apply ends_or_fetched |]. intros pageOrders.
  apply ends_bind.
  { destruct (is_empty pageOrders); [apply ends_sendProgress | apply ends_ret]. }
  intros _.
  apply ends_bind; [apply ends_process_orders |]. intros reachedCutoff.
  apply ends_bind; [apply ends_isExporting |]. intros going'.
  destruct (allPages options) eqn:Hall; [| apply ends_ret].
  destruct (true && negb reachedCutoff && hasNextPage page && going')%bool;
    [| apply ends_ret].
  apply ends_bind; [apply ends_sendProgress |]. intros _.
  apply ends_bind.
  { unfold goToNextPage.
    apply ends_bind; [apply ends_currentPage |]. intros page'.
    destruct (hasNextPage page'); [| apply ends_ret].
    apply ends_bind; [apply ends_clicked; exact Hall |]. intros _.
    apply ends_bind; [apply ends_awaited |]. intros _. apply ends_ret. }
  intros navigated. destruct (negb navigated); [apply ends_ret |].
  apply ends_bind; [apply ends_awaited |]. intros _. exact IH.
Qed.

End Advances.

Lemma exportOrders_advances (host : Host) (world : World) (fuel : nat)
    (options : Options) (result : ExportResult) (r : Run) :
  exportOrders host world fuel options = Some (result, r) ->
  advances host options (cutoff_of host options) start r.
Proof.
  intros H. unfold exportOrders in H.
  assert (Htry : ends_in (advances host options (cutoff_of host options))
                   (export_try host world fuel options)).
  { unfold export_try. fold (cutoff_of host options).
    apply ends_bind; [apply ends_export_pages |]. intros _.
    apply ends_bind; [apply ends_sendProgress |]. intros _.
    intros r0. apply advances_refl. }
  specialize (Htry start).
  destruct (export_try host world fuel options start) as [a r' | e r' |];
    [| | discriminate]; injection H as _ <-; exact Htry.
Qed.

(** X10. Whatever way a run ends, every order it accumulated passed the
    order type filter: with the filter [online] none is a store purchase,
    with the filter [store] all are. *)
Theorem accumulated_orders_pass_type_filter (host : Host) (world : World)
    (fuel : nat) (options : Options) (result : ExportResult) (r : Run) :
  exportOrders host world fuel options = Some (result, r) ->
  forall o, In o (orders r) ->
    wrong_type (orderTypeFilter options) o = false
    /\ (orderTypeFilter options = "online" -> orderType o = online)
    /\ (orderTypeFilter options = "store" -> orderType o = store).
Proof.
  intros Hrun o Ho.
  destruct (exportOrders_advances host world fuel options result r Hrun)
    as [[os [Hos Hkept]] _].
  cbn [orders start app] in Hos. rewrite Hos in Ho.
  rewrite Forall_forall in Hkept. specialize (Hkept o Ho).
  unfold kept in Hkept. apply andb_true_iff in Hkept. destruct Hkept as [_ Hw].
  apply negb_true_iff in Hw. split; [exact Hw |].
  unfold wrong_type, is_store in Hw. split; intros Hf; rewrite Hf in Hw;
    cbn in Hw; destruct (orderType o); try reflexivity; discriminate.
Qed.

(** X11. A run whose options do not set [allPages] never clicks
    [Next page], however many pages there are. *)
Theorem single_page_run_never_clicks (host : Host) (world : World)
    (fuel : nat) (options : Options) (result : ExportResult) (r : Run) :
  allPages options = false ->
  exportOrders host world fuel options = Some (result, r) ->
  clicks r = 0.
Proof.
  intros Hall Hrun.
  destruct (exportOrders_advances host world fuel options result r Hrun)
    as [_ [_ [_ [Hk _]]]].
  exact (Hk Hall).
Qed.

(** X12. [fetchDetailedItems] is called only when both [fetchItemPrices]
    and [includeItems] are set: a summary export never fetches item prices,
    even when asked to. *)
Theorem summary_run_fetches_no_prices (host : Host) (world : World)
    (fuel : nat) (options : Options) (result : ExportResult) (r : Run) :
  includeItems options = false ->
  exportOrders host world fuel options = Some (result, r) ->
  forall id, ~ In (FetchDetailedItems id) (calls r).
Proof.
  intros Hoff Hrun id Hin.
  destruct (exportOrders_advances host world fuel options result r Hrun)
    as [_ [[cs [Hcs Hfetch]] _]].
  cbn [calls start app] in Hcs. rewrite Hcs in Hin.
  assert (E : (fetchItemPrices options && includeItems options)%bool = false).
  { rewrite Hoff. apply andb_false_r. }
  specialize (Hfetch E). rewrite Forall_forall in Hfetch.
  specialize (Hfetch _ Hin). discriminate.
Qed.

Lemma accumulated_orders_pass_type_filter_witness :
  exists result r,
    exportOrders Sample.host SampleShop.mixed 1
      (SampleShop.options "store" true false false) = Some (result, r)
    /\ map orderId (orders r) = ["200012345678904"]
    /\ forall o, In o (orders r) -> orderType o = store.
Proof.
  destruct (exportOrders Sample.host SampleShop.mixed 1
              (SampleShop.options "store" true false false))
    as [[result r] |] eqn:E; [| vm_compute in E; discriminate].
  exists result, r. split; [reflexivity |].
  split; [vm_compute in E; injection E as _ <-; reflexivity |].
  intros o Ho.
  exact (proj2 (proj2 (accumulated_orders_pass_type_filter Sample.host
                         SampleShop.mixed 1
                         (SampleShop.options "store" true false false)
                         result r E o Ho)) eq_refl).
Defined.

Lemma single_page_run_never_clicks_witness :
  exists result r,
    exportOrders Sample.host SampleShop.mixed 1
      (SampleShop.options "all" true false false) = Some (result, r)
    /\ hasNextPage (listPage SampleShop.mixed 0) = true
    /\ clicks r = 0.
Proof.
  destruct (exportOrders Sample.host SampleShop.mixed 1
              (SampleShop.options "all" true false false))
    as [[result r] |] eqn:E; [| vm_compute in E; discriminate].
  exists result, r. split; [reflexivity |]. split; [reflexivity |].
  exact (single_page_run_never_clicks Sample.host SampleShop.mixed 1
           (SampleShop.options "all" true false false) result r eq_refl E).
Defined.

Lemma summary_run_fetches_no_prices_witness :
  exists result r,
    exportOrders Sample.host SampleShop.mixed 1
      (SampleShop.options "all" false true false) = Some (result, r)
    /\ fetchItemPrices (SampleShop.options "all" false true false) = true
    /\ forall id, ~ In (FetchDetailedItems id) (calls r).
Proof.
  destruct (exportOrders Sample.host SampleShop.mixed 1
              (SampleShop.options "all" false true false))
    as [[result r] |] eqn:E; [| vm_compute in E; discriminate].
  exists result, r. split; [reflexivity |]. split; [reflexivity |].
  exact (summary_run_fetches_no_prices Sample.host SampleShop.mixed 1
           (SampleShop.options "all" false true false) result r eq_refl E).
Defined.

(** ** What price fetching leaves alone *)

(** X13. Fetching item prices never changes what identifies an order
    (id, number, type, status, store, error), never empties its items, and
    never replaces a date other than [Unknown] nor a subtotal, tax or total
    that is already set. *)
Theorem price_fetch_keeps_known_fields (host : Host) (world : World)
    (options : Options) (o : Order) :
  orderId (detailed host world options o) = orderId o
  /\ orderNumber (detailed host world options o) = orderNumber o
  /\ orderType (detailed host world options o) = orderType o
  /\ status (detailed host world options o) = status o
  /\ storeLocation (detailed host world options o) = storeLocation o
  /\ error (detailed host world options o) = error o
  /\ (items o <> [] -> items (detailed host world options o) <> [])
  /\ (orderDate o <> "Unknown" ->
      orderDate (detailed host world options o) = orderDate o)
  /\ (truthy (subtotal o) = true ->
      subtotal (detailed host world options o) = subtotal o)
  /\ (truthy (tax o) = true -> tax (detailed host world options o) = tax o)
  /\ (truthy (total o) = true -> total (detailed host world options o) = total o).
Proof.
  unfold detailed.
  destruct (fetchItemPrices options && includeItems options)%bool;
    [| repeat split; auto].
  destruct (fetchDetailedItems host world (orderId o) (is_store o))
    as [[detailedItems orderMeta] |]; [| repeat split; auto].
  unfold enriched.
  assert (Hdate : forall (m : JValue) (d f : string), d <> "Unknown" ->
            (if truthy m && String.eqb d "Unknown" then f else d) = d).
  { intros m d f Hne.
    destruct (String.eqb d "Unknown") eqn:E;
      [apply String.eqb_eq in E; contradiction |].
    now rewrite andb_false_r. }
  assert (Hfilled : forall m t, truthy t = true -> filled m t = t).
  { intros m t Ht. unfold filled. rewrite Ht. now rewrite andb_false_r. }
  destruct orderMeta as [meta |];
    destruct detailedItems as [| it rest]; cbn;
    repeat split; auto; try (intros _; discriminate); apply Hdate.
Qed.

(** ** Bounds on the awaits and on the clicks of a run *)

Lemma triple_ret {A : Type} (P : Run -> Prop) (a : A) (Q : A -> Run -> Prop)
    (E : Run -> Prop) :
  (forall r, P r -> Q a r) -> triple P (ret a) Q E.
Proof. intros H r Hr. exact (H r Hr). Qed.

Lemma triple_bind {A B : Type} (P : Run -> Prop) (c : M A) (Q : A -> Run -> Prop)
    (k : A -> M B) (Q' : B -> Run -> Prop) (E : Run -> Prop) :
  triple P c Q E -> (forall a, triple (Q a) (k a) Q' E) -> triple P (bind c k) Q' E.
Proof.
  intros Hc Hk r Hr. unfold bind. specialize (Hc r Hr).
  destruct (c r) as [a r' | e r' |]; [exact (Hk a r' Hc) | exact Hc | exact Hc].
Qed.

Lemma triple_pre {A : Type} (P P' : Run -> Prop) (c : M A) (Q : A -> Run -> Prop)
    (E : Run -> Prop) :
  (forall r, P' r -> P r) -> triple P c Q E -> triple P' c Q E.
Proof. intros H Hc r Hr. exact (Hc r (H r Hr)). Qed.

Lemma triple_post {A : Type} (P : Run -> Prop) (c : M A) (Q Q' : A -> Run -> Prop)
    (E E' : Run -> Prop) :
  triple P c Q E -> (forall a r, Q a r -> Q' a r) -> (forall r, E r -> E' r) ->
  triple P c Q' E'.
Proof.
  intros Hc HQ HE r Hr. specialize (Hc r Hr).
  destruct (c r) as [a r' | e r' |]; [exact (HQ a r' Hc) | exact (HE r' Hc) | exact Hc].
Qed.

Lemma triple_pure {A : Type} (fact : Prop) (P : Run -> Prop) (c : M A)
    (Q : A -> Run -> Prop) (E : Run -> Prop) :
  (fact -> triple P c Q E) -> triple (fun r => fact /\ P r) c Q E.
Proof. intros H r [Hf Hr]. exact (H Hf r Hr). Qed.

Section Steps.
Variable host : Host.
Variable world : World.
Variable options : Options.
Variable cutoffDate : option Z.

(** A progress message leaves the page and the awaits alone; should it
    fail, the run is in [E], unless no message ever fails. *)
Lemma triple_sendProgress (c : nat) (F : nat -> Prop) (E : Run -> Prop) :
  (forall r, at_page c F r -> E r) \/ (forall k, sendMessage world k = None) ->
  triple (at_page c F) (sendProgress world) (fun _ => at_page c F) E.
Proof.
  intros HE r Hr. unfold sendProgress.
  destruct (sendMessage world (sent r)) eqn:Es; [| exact Hr].
  destruct HE as [HE | Hq]; [apply HE; exact Hr | congruence].
Qed.

Lemma triple_called (call : Call) (c : nat) (F : nat -> Prop) (E : Run -> Prop) :
  triple (at_page c F) (called call) (fun _ => at_page c F) E.
Proof. intros r Hr. exact Hr. Qed.

Lemma triple_push_order (o : Order) (c : nat) (F : nat -> Prop) (E : Run -> Prop) :
  triple (at_page c F) (push_order o) (fun _ => at_page c F) E.
Proof. intros r Hr. exact Hr. Qed.

Lemma triple_count_processed (c : nat) (F : nat -> Prop) (E : Run -> Prop) :
  triple (at_page c F) count_processed (fun _ => at_page c F) E.
Proof. intros r Hr. exact Hr. Qed.

Lemma triple_awaited (c : nat) (F : nat -> Prop) (E : Run -> Prop) :
  triple (at_page c F) awaited (fun _ => at_page c (after_await F)) E.
Proof. intros r Hr. exact Hr. Qed.

Lemma triple_clicked (c : nat) (F : nat -> Prop) (E : Run -> Prop) :
  triple (at_page c F) clicked (fun _ => at_page (S c) F) E.
Proof. intros r [Hc HF]. split; [cbn; now rewrite Hc | exact HF]. Qed.

Lemma triple_isExporting (c : nat) (F : nat -> Prop) (E : Run -> Prop) :
  triple (at_page c F) (isExporting world)
         (fun going => at_page c (fun a => F a /\ running_at world a = going)) E.
Proof. intros r [Hc HF]. split; [exact Hc |]. split; [exact HF | reflexivity]. Qed.

Lemma triple_currentPage {B : Type} (c : nat) (F : nat -> Prop)
    (k : ListPage -> M B) (Q : B -> Run -> Prop) (E : Run -> Prop) :
  triple (at_page c F) (k (listPage world c)) Q E ->
  triple (at_page c F) (bind (currentPage world) k) Q E.
Proof.
  intros H r Hr. unfold bind, currentPage.
  destruct Hr as [Hc HF]. rewrite Hc. apply H. split; assumption.
Qed.

(** The loops of one page: they never click, and an invariant [J] of the
    awaits that survives the two awaits of an iteration survives the
    loop. *)
Variable c : nat.
Variable J : nat -> Prop.
Variable E : Run -> Prop.
Hypothesis J_step :
  forall a, running_at world a = true -> J a -> J (S a) /\ J (S (S a)).
Hypothesis J_raised :
  (forall r, at_page c J r -> E r) \/ (forall k, sendMessage world k = None).

Lemma triple_two_awaits {A : Type} (k : M A) (Q : A -> Run -> Prop) :
  triple (at_page c J) k Q E ->
  triple (at_page c (fun a => J a /\ running_at world a = true))
         (awaited ;;; delay ;;; k) Q E.
Proof.
  intros Hk.
  eapply triple_bind; [apply triple_awaited |]. intros [].
  eapply triple_bind; [apply triple_awaited |]. intros [].
  eapply triple_pre; [| exact Hk].
  intros r [Hc H]. split; [exact Hc |].
  destruct (awaits r) as [| [| a]]; cbn in H; try contradiction.
  destruct H as [HJ Hgo]. apply (J_step a Hgo HJ).
Qed.

Lemma running_raised :
  (forall r, at_page c (fun a => J a /\ running_at world a = true) r -> E r)
  \/ (forall k, sendMessage world k = None).
Proof.
  destruct J_raised as [H | H]; [left | right; exact H].
  intros r [Hc [HJ _]]. apply H. split; assumption.
Qed.

Lemma triple_fetch_each (orderIds : list OrderInfo.t) :
  forall pageOrders,
  triple (at_page c J) (fetch_each world orderIds pageOrders)
         (fun _ => at_page c J) E.
Proof.
  induction orderIds as [| orderInfo rest IH]; intros pageOrders; cbn [fetch_each].
  - apply triple_ret. auto.
  - eapply triple_bind; [apply triple_isExporting |]. intros [|]; cbn [negb].
    + eapply triple_bind; [apply triple_sendProgress; exact running_raised |].
      intros [].
      eapply triple_bind; [apply triple_called |]. intros [].
      cbv zeta. apply triple_two_awaits. apply IH.
    + apply triple_ret. intros r [Hc [HJ _]]. split; assumption.
Qed.

Lemma triple_with_prices {A : Type} (o : Order) (k : Order -> M A)
    (Q : A -> Run -> Prop) :
  (forall o', triple (at_page c J) (k o') Q E) ->
  triple (at_page c (fun a => J a /\ running_at world a = true))
         (bind (with_prices host world options o) k) Q E.
Proof.
  intros Hk. unfold with_prices.
  destruct (fetchItemPrices options && includeItems options)%bool.
  - intros r Hr.
    assert (H : triple (at_page c (fun a => J a /\ running_at world a = true))
                  (sendProgress world ;;;
                   called (FetchDetailedItems (orderId o)) ;;;
                   awaited ;;; delay ;;;
                   k (enriched host o
                        (fetchDetailedItems host world (orderId o) (is_store o))))
                  Q E).
    { eapply triple_bind; [apply triple_sendProgress; exact running_raised |].
      intros [].
      eapply triple_bind; [apply triple_called |]. intros [].
      apply triple_two_awaits. apply Hk. }
    specialize (H r Hr). unfold bind in *.
    destruct (sendProgress world r) as [[] r1 | e r1 |]; [| exact H | exact H].
    exact H.
  - intros r [Hc [HJ _]]. unfold bind, ret. apply Hk. split; assumption.
Qed.

Lemma triple_process_orders (pageOrders : list Order) :
  forall reachedCutoff,
  triple (at_page c J)
         (process_orders host world options cutoffDate pageOrders reachedCutoff)
         (fun _ => at_page c J) E.
Proof.
  induction pageOrders as [| o rest IH]; intros reachedCutoff;
    cbn [process_orders].
  - apply triple_ret. auto.
  - eapply triple_bind; [apply triple_isExporting |]. intros [|]; cbn [negb].
    + eapply triple_bind; [apply triple_sendProgress; exact running_raised |].
      intros [].
      apply triple_with_prices. intros orderDetails. cbv zeta.
      eapply triple_bind.
      { destruct (_ && _)%bool; [apply triple_push_order | apply triple_ret; auto]. }
      intros [].
      eapply triple_bind; [apply triple_count_processed |]. intros []. apply IH.
    + apply triple_ret. intros r [Hc [HJ _]]. split; assumption.
Qed.

Lemma triple_or_fetched (page : ListPage) (listed : list Order) :
  triple (at_page c J) (or_fetched world page listed) (fun _ => at_page c J) E.
Proof.
  unfold or_fetched. destruct (is_empty listed); [| apply triple_ret; auto].
  eapply triple_bind; [apply triple_sendProgress; exact J_raised |]. intros [].
  apply triple_fetch_each.
Qed.

(** One turn of the [while] loop: it establishes what the turns after it
    do, if it goes to the next page. *)
Lemma triple_export_page (fuel : nat) (Q : unit -> Run -> Prop) :
  (forall r, at_page c J r -> Q tt r) ->
  (allPages options = true -> hasNextPage (listPage world c) = true ->
   triple (at_page (S c)
             (after_await (after_await (fun a => J a /\ running_at world a = true))))
          (export_pages host world fuel options cutoffDate) Q E) ->
  triple (at_page c J) (export_pages host world (S fuel) options cutoffDate) Q E.
Proof.
  intros HQ Hnext. cbn [export_pages].
  eapply triple_bind; [apply triple_isExporting |]. intros [|]; cbn [negb];
    [| apply triple_ret; intros r [Hc [HJ _]]; apply HQ; split; assumption].
  eapply triple_bind; [apply triple_sendProgress; exact running_raised |].
  intros []. apply triple_currentPage. cbv zeta.
  eapply triple_pre with (P := at_page c J);
    [intros r [Hc [HJ _]]; split; assumption |].
  eapply triple_bind; [apply triple_or_fetched |]. intros pageOrders.
  eapply triple_bind.
  { destruct (is_empty pageOrders);
      [apply triple_sendProgress; exact J_raised | apply triple_ret; auto]. }
  intros [].
  eapply triple_bind; [apply triple_process_orders |]. intros reachedCutoff.
  eapply triple_bind; [apply triple_isExporting |]. intros going.
  destruct (allPages options && negb reachedCutoff
            && hasNextPage (listPage world c) && going)%bool eqn:Econd;
    [| apply triple_ret; intros r [Hc [HJ _]]; apply HQ; split; assumption].
  split_andb Econd. subst going.
  eapply triple_bind; [apply triple_sendProgress; exact running_raised |].
  intros []. unfold goToNextPage.
  assert (Hgo : triple (at_page c (fun a => J a /\ running_at world a = true))
                  (currentPage world ;;;
                   clicked ;;; awaited ;;; delay ;;;
                   export_pages host world fuel options cutoffDate) Q E).
  { apply triple_currentPage.
    eapply triple_bind; [apply triple_clicked |]. intros [].
    eapply triple_bind; [apply triple_awaited |]. intros [].
    eapply triple_bind; [apply triple_awaited |]. intros [].
    apply Hnext; assumption. }
  intros r Hr. specialize (Hgo r Hr). unfold bind, currentPage, ret in *.
  destruct Hr as [Hc _]. rewrite Hc, Econd1. cbn. exact Hgo.
Qed.

End Steps.

Lemma export_pages_stops (host : Host) (world : World) (options : Options)
    (cutoffDate : option Z) (n : nat) (E : Run -> Prop) :
  stopAt world = Some n ->
  (forall r, awaits r <= S n -> E r) \/ (forall k, sendMessage world k = None) ->
  forall fuel c,
  triple (at_page c (fun a => a <= S n))
         (export_pages host world fuel options cutoffDate)
         (fun _ r => awaits r <= S n) E.
Proof.
  intros Hstop HE.
  assert (Hrun : forall a, running_at world a = true -> a < n).
  { intros a. unfold running_at. rewrite Hstop. apply Nat.ltb_lt. }
  assert (Hraised : forall c,
            (forall r, at_page c (fun a => a <= S n) r -> E r)
            \/ (forall k, sendMessage world k = None)).
  { intros c. destruct HE as [H | H]; [left | right; exact H].
    intros r [_ Hr]. apply H. exact Hr. }
  induction fuel as [| fuel IH]; intros c; [intros r _; exact I |].
  apply triple_export_page.
  - intros a Ha H. specialize (Hrun a Ha). lia.
  - apply Hraised.
  - intros r [_ H]. exact H.
  - intros _ _. eapply triple_pre; [| apply (IH (S c))].
    intros r [Hc H]. split; [exact Hc |].
    destruct (awaits r) as [| [| a]]; cbn in H; try contradiction.
    destruct H as [_ H2]. specialize (Hrun a H2). lia.
Qed.

Lemma export_pages_last_page (host : Host) (world : World) (options : Options)
    (cutoffDate : option Z) (k : nat) (E : Run -> Prop) :
  hasNextPage (listPage world k) = false ->
  (forall r, clicks r <= k -> E r) \/ (forall k, sendMessage world k = None) ->
  forall fuel c, c <= k ->
  triple (at_page c (fun _ => True))
         (export_pages host world fuel options cutoffDate)
         (fun _ r => clicks r <= k) E.
Proof.
  intros Hlast HE.
  assert (Hraised : forall c, c <= k ->
            (forall r, at_page c (fun _ => True) r -> E r)
            \/ (forall k, sendMessage world k = None)).
  { intros c Hc. destruct HE as [H | H]; [left | right; exact H].
    intros r [Hr _]. apply H. lia. }
  induction fuel as [| fuel IH]; intros c Hc; [intros r _; exact I |].
  apply triple_export_page.
  - intros a _ _. split; exact I.
  - apply Hraised. exact Hc.
  - intros r [H _]. lia.
  - intros _ Hnext.
    assert (c <> k) by (intros ->; congruence).
    eapply triple_pre; [| apply (IH (S c)); lia].
    intros r [Hr _]. split; [exact Hr | exact I].
Qed.

(** What holds of the run [exportOrders] returns, from what its loop
    establishes. *)
Lemma exportOrders_returns (host : Host) (world : World) (fuel : nat)
    (options : Options) (Q : nat -> nat -> Prop) (result : ExportResult) (r : Run) :
  triple (fun r => r = start)
         (export_pages host world fuel options (cutoff_of host options))
         (fun _ r => Q (clicks r) (awaits r)) (fun r => Q (clicks r) (awaits r)) ->
  exportOrders host world fuel options = Some (result, r) ->
  Q (clicks r) (awaits r).
Proof.
  intros H. specialize (H start eq_refl).
  unfold exportOrders, export_try. fold (cutoff_of host options).
  unfold bind at 1.
  destruct (export_pages host world fuel options (cutoff_of host options) start)
    as [[] r1 | e r1 |]; [| intros [= _ <-]; exact H | discriminate].
  unfold bind, sendProgress.
  destruct (sendMessage world (sent r1)); intros [= _ <-]; exact H.
Qed.

(** The same when no progress message fails and the loop raises
    nothing: the result is a success made of the orders accumulated. *)
Lemma exportOrders_succeeds (host : Host) (world : World) (fuel : nat)
    (options : Options) (result : ExportResult) (r : Run) :
  (forall k, sendMessage world k = None) ->
  triple (fun r => r = start)
         (export_pages host world fuel options (cutoff_of host options))
         (fun _ _ => True) (fun _ => False) ->
  exportOrders host world fuel options = Some (result, r) ->
  success result = true
  /\ csv result = Some (generateCSV host (includeItems options) (orders r))
  /\ orderCount result = Some (List.length (orders r)).
Proof.
  intros Hq H. specialize (H start eq_refl).
  unfold exportOrders, export_try. fold (cutoff_of host options).
  unfold bind at 1.
  destruct (export_pages host world fuel options (cutoff_of host options) start)
    as [[] r1 | e r1 |]; [| contradiction | discriminate].
  unfold bind, sendProgress. rewrite Hq.
  intros [= <- <-]. repeat split.
Qed.

(** X14. A stopped export awaits at most once more, whatever the number of
    pages: when [stopExport] runs during the await of rank [n], a run that
    returns has completed at most [n + 1] awaits; and unless a progress
    message fails, what it returns is a success whose CSV holds the orders
    accumulated so far. *)
Theorem stopped_export_awaits_once_more (host : Host) (world : World)
    (options : Options) (n fuel : nat) (result : ExportResult) (r : Run) :
  stopAt world = Some n ->
  exportOrders host world fuel options = Some (result, r) ->
  awaits r <= S n
  /\ ((forall k, sendMessage world k = None) ->
      success result = true
      /\ csv result = Some (generateCSV host (includeItems options) (orders r))).
Proof.
  intros Hstop Hrun.
  assert (Hstart : forall r, r = start -> at_page 0 (fun a => a <= S n) r).
  { intros r0 ->. split; [reflexivity |]. cbn. lia. }
  split.
  - apply (exportOrders_returns host world fuel options (fun _ a => a <= S n)
             result r); [| exact Hrun].
    eapply triple_pre; [exact Hstart |].
    apply (export_pages_stops host world options _ n); [exact Hstop |].
    left. auto.
  - intros Hq.
    destruct (exportOrders_succeeds host world fuel options result r Hq)
      as [Hs [Hcsv _]]; [| exact Hrun | split; assumption].
    eapply triple_pre; [exact Hstart |].
    eapply triple_post;
      [apply (export_pages_stops host world options _ n (fun _ => False));
       [exact Hstop | right; exact Hq]
      | auto | auto].
Qed.

Lemma stopped_export_awaits_once_more_witness :
  stopAt (SampleStop.endless 3) = Some 3
  /\ (forall k, hasNextPage (listPage (SampleStop.endless 3) k) = true)
  /\ exists result r,
       exportOrders Sample.host (SampleStop.endless 3) 4
         (SampleRun.options AllDates true) = Some (result, r)
       /\ awaits r <= 4
       /\ success result = true.
Proof.
  split; [reflexivity |]. split; [intros k; reflexivity |].
  destruct (exportOrders Sample.host (SampleStop.endless 3) 4
              (SampleRun.options AllDates true))
    as [[result r] |] eqn:Hrun; [| vm_compute in Hrun; discriminate Hrun].
  exists result, r. split; [reflexivity |].
  destruct (stopped_export_awaits_once_more Sample.host (SampleStop.endless 3)
              (SampleRun.options AllDates true) 3 4 result r eq_refl Hrun)
    as [Hr Hs].
  split; [exact Hr |]. exact (proj1 (Hs (fun _ => eq_refl))).
Defined.

(** X15. An export over all pages clicks no further than the first page
    without an enabled [Next page] button: when the page reached after [k]
    clicks has none, a run that returns has clicked the button at most [k]
    times; and unless a progress message fails, what it returns is a success
    whose CSV holds the orders accumulated. *)
Theorem export_clicks_up_to_last_page (host : Host) (world : World)
    (options : Options) (k fuel : nat) (result : ExportResult) (r : Run) :
  hasNextPage (listPage world k) = false ->
  exportOrders host world fuel options = Some (result, r) ->
  clicks r <= k
  /\ ((forall i, sendMessage world i = None) ->
      success result = true
      /\ csv result = Some (generateCSV host (includeItems options) (orders r))).
Proof.
  intros Hlast Hrun.
  assert (Hstart : forall r, r = start -> at_page 0 (fun _ => True) r).
  { intros r0 ->. split; [reflexivity | exact I]. }
  split.
  - apply (exportOrders_returns host world fuel options (fun c _ => c <= k)
             result r); [| exact Hrun].
    eapply triple_pre; [exact Hstart |].
    apply (export_pages_last_page host world options _ k); [exact Hlast | | lia].
    left. auto.
  - intros Hq.
    destruct (exportOrders_succeeds host world fuel options result r Hq)
      as [Hs [Hcsv _]]; [| exact Hrun | split; assumption].
    eapply triple_pre; [exact Hstart |].
    eapply triple_post;
      [apply (export_pages_last_page host world options _ k (fun _ => False));
       [exact Hlast | right; exact Hq | lia]
      | auto | auto].
Qed.

Lemma export_clicks_up_to_last_page_witness :
  hasNextPage (listPage SampleRun.repeated 0) = true
  /\ exists result r,
       exportOrders Sample.host SampleRun.repeated 2
         (SampleRun.options AllDates true) = Some (result, r)
       /\ clicks r <= 1
       /\ success result = true.
Proof.
  split; [reflexivity |].
  destruct (exportOrders Sample.host SampleRun.repeated 2
              (SampleRun.options AllDates true))
    as [[result r] |] eqn:Hrun; [| vm_compute in Hrun; discriminate Hrun].
  exists result, r. split; [reflexivity |].
  destruct (export_clicks_up_to_last_page Sample.host SampleRun.repeated
              (SampleRun.options AllDates true) 1 2 result r eq_refl Hrun)
    as [Hr Hs].
  split; [exact Hr |]. exact (proj1 (Hs (fun _ => eq_refl))).
Defined.

(** ** Prices of the JSON parser *)

Lemma startsWith_dollar (t : string) : startsWith ("$" ++ t) "$" = true.
Proof. reflexivity. Qed.

Lemma fixed_number_dollar (host : Host) (v : JValue) :
  exists t, fixed_number host v = "$" ++ t.
Proof. unfold fixed_number. eexists. reflexivity. Qed.

Lemma extractPrice_shape (host : Host) (value : JValue) :
  extractPrice host value = EmptyString
  \/ exists t, extractPrice host value = "$" ++ t.
Proof.
  unfold extractPrice. destruct (negb (truthy value)); [now left |].
  destruct value as [| | b | q | | s | l | l]; auto;
    try (right; apply fixed_number_dollar).
  destruct (startsWith s "$") eqn:Es; right; [| eexists; reflexivity].
  unfold startsWith, chars in Es. destruct s as [| ch s]; [discriminate |].
  cbn [list_ascii_of_string starts_with_l] in Es.
  apply andb_true_iff in Es. destruct Es as [Es _].
  apply Ascii.eqb_eq in Es. subst ch. exists s. reflexivity.
Qed.

Lemma extractPrice_price_text (host : Host) (value : JValue) :
  price_text (JStr (extractPrice host value)).
Proof.
  exists (extractPrice host value). split; [reflexivity |].
  destruct (extractPrice_shape host value) as [-> | [t ->]];
    [now left | right; reflexivity].
Qed.

(** X16. [extractPrice] gives the empty text or a text that begins with a
    dollar sign; a value that is not set (0 and the empty text included)
    gives the empty text; and a price it produced goes through it again
    unchanged. *)
Theorem extractPrice_dollar_or_empty (host : Host) (value : JValue) :
  price_text (JStr (extractPrice host value))
  /\ (truthy value = false -> extractPrice host value = EmptyString)
  /\ extractPrice host (JStr (extractPrice host value)) = extractPrice host value.
Proof.
  split; [| split].
  - apply extractPrice_price_text.
  - intros H. unfold extractPrice. now rewrite H.
  - destruct (extractPrice_shape host value) as [-> | [t ->]]; reflexivity.
Qed.

Lemma dollars_shape (host : Host) (v : JValue) :
  exists t, dollars host v = JStr ("$" ++ t).
Proof. destruct v; eexists; reflexivity. Qed.

(** X17. For a text or a number [extractDisplayValue] gives a text that
    begins with [$] or [-$], and that text goes through it again
    unchanged. *)
Theorem extractDisplayValue_prefixes (host : Host) (priceObj : JValue) :
  typeof priceObj = TString \/ typeof priceObj = TNumber ->
  exists t,
    extractDisplayValue host priceObj = JStr t
    /\ (startsWith t "$" || startsWith t "-$")%bool = true
    /\ extractDisplayValue host (JStr t) = JStr t.
Proof.
  intros Htype.
  assert (Hnum : forall v, typeof v = TNumber ->
            exists t, extractDisplayValue host v = JStr ("$" ++ t)).
  { intros v Hv. destruct v; try discriminate; apply dollars_shape. }
  destruct priceObj as [| | b | q | | s | l | l];
    try (destruct Htype; discriminate).
  - destruct (Hnum (JNum q) eq_refl) as [t Ht].
    exists ("$" ++ t). split; [exact Ht |]. split; reflexivity.
  - destruct (Hnum JNaN eq_refl) as [t Ht].
    exists ("$" ++ t). split; [exact Ht |]. split; reflexivity.
  - cbn [extractDisplayValue].
    destruct (startsWith s "$" || startsWith s "-$")%bool eqn:Es.
    + exists s. split; [reflexivity |]. split; [exact Es |]. now rewrite Es.
    + exists ("$" ++ s). split; [reflexivity |]. split; reflexivity.
Qed.

Lemma extractDisplayValue_prefixes_witness :
  exists t,
    extractDisplayValue Sample.host (JStr "12.50") = JStr t
    /\ (startsWith t "$" || startsWith t "-$")%bool = true
    /\ extractDisplayValue Sample.host (JStr t) = JStr t.
Proof.
  apply (extractDisplayValue_prefixes Sample.host (JStr "12.50")).
  left. reflexivity.
Defined.

Lemma line_price_text (host : Host) (price priceStr priceVal : JValue) :
  Detail.line_price host price = Ok (priceStr, priceVal) -> price_text priceStr.
Proof.
  assert (Hd : forall t, price_text (JStr (String "$" t))).
  { intros t. exists (String "$" t). split; [reflexivity | right; reflexivity]. }
  assert (He : price_text (JStr EmptyString)).
  { exists EmptyString. split; [reflexivity | now left]. }
  unfold Detail.line_price. intros H.
  destruct price as [| | b | q | | s | l | l].
  - injection H as <- _. exact He.
  - injection H as <- _. exact He.
  - injection H as <- _. exact He.
  - injection H as <- _. apply Hd.
  - injection H as <- _. apply Hd.
  - injection H as <- _.
    destruct (startsWith s "$") eqn:Es; eexists; (split; [reflexivity | right]);
      [exact Es | reflexivity].
  - destruct (_ or_else _) in H; try discriminate; injection H as <- _; apply Hd.
  - destruct (_ or_else _) in H; try discriminate; injection H as <- _; apply Hd.
Qed.

(** An item as the JSON parser lists it. *)
Lemma line_step_items (host : Host) (items items' : list Item) (item : JValue)
    (P : Item -> Prop) :
  (forall it, (exists s, name it = JStr s /\ s <> EmptyString) ->
              price_text (price it) -> P it) ->
  Forall P items ->
  Detail.line_step host items item = Ok items' ->
  Forall P items' /\ List.length items' <= S (List.length items).
Proof.
  intros HP Hitems H. unfold Detail.line_step in H.
  assert (Hkeep : Forall P items /\ List.length items <= S (List.length items))
    by (split; [exact Hitems | lia]).
  destruct item as [| | b | q | | s | l | l]; try discriminate;
    cbv zeta in H;
    match type of H with
    | (if truthy ?n then _ else _) = _ =>
        destruct (truthy n) eqn:Et; [| injection H as <-; exact Hkeep];
        destruct (Detail.line_price host _) as [[priceStr priceVal] | e] eqn:Ep;
          [| discriminate];
        destruct n as [| | b' | q' | | s' | l' | l'] eqn:En; try discriminate;
        injection H as <-;
        (split; [apply Forall_app; split; [exact Hitems |];
                 constructor; [| constructor];
                 apply HP; cbn;
                 [exists s'; split; [reflexivity |];
                  intros ->; discriminate
                 | exact (line_price_text host _ _ _ Ep)]
                | rewrite length_app; cbn; lia])
    end.
Qed.

Lemma line_steps_items (host : Host) (P : Item -> Prop) (lineItems : list JValue) :
  (forall it, (exists s, name it = JStr s /\ s <> EmptyString) ->
              price_text (price it) -> P it) ->
  forall items items',
  Forall P items ->
  Detail.line_steps host items lineItems = Ok items' ->
  Forall P items'
  /\ List.length items' <= List.length items + List.length lineItems.
Proof.
  intros HP. induction lineItems as [| item rest IH]; intros items items' Hitems H.
  - injection H as <-. split; [exact Hitems | lia].
  - cbn [Detail.line_steps] in H.
    destruct (Detail.line_step host items item) as [items1 |] eqn:E1;
      [| discriminate].
    destruct (line_step_items host items items1 item P HP Hitems E1) as [H1 L1].
    destruct (IH items1 items' H1 H) as [H2 L2].
    split; [exact H2 | cbn [List.length]; lia].
Qed.

(** X18. When [parseOrderFromJSONData] returns an order, it is an online
    order under the id asked for, without an error; each item has a name that
    is a non-empty text and a price that is empty or begins with a dollar
    sign; subtotal, tax and total are such prices too; and the order number
    is set whenever the id is not empty. *)
Theorem parsed_json_order_is_well_formed (host : Host) (data : JValue)
    (id : string) (order : Order) :
  Detail.parseOrderFromJSONData host data id = Ok order ->
  orderId order = id
  /\ orderType order = online
  /\ error order = None
  /\ Forall (fun it => (exists s, name it = JStr s /\ s <> EmptyString)
                       /\ price_text (price it)) (items order)
  /\ price_text (subtotal order) /\ price_text (tax order)
  /\ price_text (total order)
  /\ (id <> EmptyString -> truthy (orderNumber order) = true).
Proof.
  intros H. unfold Detail.parseOrderFromJSONData in H.
  assert (Hprice : forall v, price_text (JStr (extractPrice host v))).
  { intros v. apply extractPrice_price_text. }
  assert (Hnum : forall a b c, id <> EmptyString ->
            truthy (a or_else b or_else c or_else JStr id) = true).
  { intros a b c Hid. unfold js_or.
    destruct (truthy a) eqn:Ea; [exact Ea |].
    destruct (truthy b) eqn:Eb; [exact Eb |].
    destruct (truthy c) eqn:Ec; [exact Ec |].
    cbn. destruct (String.eqb id EmptyString) eqn:E; [| reflexivity].
    apply String.eqb_eq in E. contradiction. }
  destruct data as [| | b | q | | s | l | l]; try discriminate;
    cbv zeta in H;
    destruct (iterate _) as [lineItems |]; try discriminate;
    destruct (Detail.line_steps host [] lineItems) as [parsed |] eqn:Esteps;
    try discriminate;
    injection H as <-; cbn [orderId orderType error items subtotal tax total
                            orderNumber];
    (repeat split; auto;
     apply (line_steps_items host _ lineItems
              (fun it Hn Hp => conj Hn Hp) [] parsed (Forall_nil _) Esteps)).
Qed.

Lemma parsed_json_order_is_well_formed_witness :
  exists order,
    Detail.parseOrderFromJSONData Sample.host SampleJson.order "200012345678901" =
      Ok order
    /\ map price (items order) = [JStr "$3.48"; JStr "$1.20"; JStr "$"]
    /\ Forall (fun it => (exists s, name it = JStr s /\ s <> EmptyString)
                         /\ price_text (price it)) (items order)
    /\ price_text (total order).
Proof.
  destruct (Detail.parseOrderFromJSONData Sample.host SampleJson.order
              "200012345678901") as [order | e] eqn:E;
    [| vm_compute in E; discriminate].
  exists order. split; [reflexivity |].
  split; [vm_compute in E; injection E as <-; reflexivity |].
  destruct (parsed_json_order_is_well_formed Sample.host SampleJson.order
              "200012345678901" order E)
    as [_ [_ [_ [Hitems [_ [_ [Htotal _]]]]]]].
  split; assumption.
Defined.

(** ** The download *)

Lemma generateCSV_not_empty (host : Host) (includeItems : bool) (os : list Order) :
  String.eqb (generateCSV host includeItems os) EmptyString = false.
Proof.
  unfold generateCSV, csv_rows, csv_table. cbn [map].
  destruct includeItems;
    destruct (map (join ",") (flat_map _ os)); reflexivity.
Qed.

(** X19. The listener downloads a file exactly when the export succeeded
    and accumulated at least one order: an export that kept no order reports
    success without a download. *)
Theorem download_iff_an_order (host : Host) (world : World) (fuel : nat)
    (options : Options) (result : ExportResult) (r : Run) :
  exportOrders host world fuel options = Some (result, r) ->
  triggersDownload result = true <-> success result = true /\ orders r <> [].
Proof.
  intros H. unfold exportOrders in H.
  destruct (export_try host world fuel options start) as [a r1 | e r1 |] eqn:E;
    [| | discriminate]; injection H as <- <-.
  - unfold export_try, bind in E.
    destruct (export_pages host world fuel options _ start) as [[] r2 | |];
      try discriminate.
    destruct (sendProgress world r2) as [[] r3 | |]; try discriminate.
    injection E as <- <-. unfold triggersDownload.
    cbn [success csv orderCount]. rewrite generateCSV_not_empty. cbn.
    destruct (orders r3); cbn; split;
      [discriminate | intros [_ Hne]; contradiction
       | intros _; split; [reflexivity | discriminate] | reflexivity].
  - unfold triggersDownload. cbn. split; [discriminate | intros [Hs _]; discriminate].
Qed.

Lemma download_iff_an_order_witness :
  exists result r,
    exportOrders Sample.host SampleRun.dated 1
      (SampleShop.options "store" true false false) = Some (result, r)
    /\ success result = true
    /\ orders r = []
    /\ triggersDownload result = false.
Proof.
  destruct (exportOrders Sample.host SampleRun.dated 1
              (SampleShop.options "store" true false false))
    as [[result r] |] eqn:E; [| vm_compute in E; discriminate].
  exists result, r. split; [reflexivity |].
  assert (Hs : success result = true)
    by (vm_compute in E; injection E as <- _; reflexivity).
  assert (Ho : orders r = [])
    by (vm_compute in E; injection E as _ <-; reflexivity).
  split; [exact Hs |]. split; [exact Ho |].
  destruct (triggersDownload result) eqn:Et; [| reflexivity].
  destruct (proj1 (download_iff_an_order Sample.host SampleRun.dated 1
                     (SampleShop.options "store" true false false)
                     result r E) Et) as [_ Hne].
  contradiction.
Defined.

(** ** Items of the structured data *)

Lemma try_group_paths_items (host : Host) (P : Item -> Prop) (paths : list JValue) :
  (forall acc lineItem, Forall P (fst acc) ->
     Forall P (fst (flow_acc (group_item_step host acc lineItem)))) ->
  forall acc, Forall P (fst acc) ->
  Forall P (fst (flow_acc (try_group_paths host paths acc))).
Proof.
  intros Hstep.
  induction paths as [| p paths IH]; intros acc Hacc; simpl.
  - exact Hacc.
  - destruct p; try (apply IH; exact Hacc).
    assert (H : Forall P (fst (flow_acc (fold_flow (group_step host) elems acc)))).
    { apply fold_flow_items; [| exact Hacc].
      intros a g Ha. unfold group_step.
      destruct (iterate _) as [l |]; [| exact Ha].
      apply fold_flow_items; [| exact Ha]. exact Hstep. }
    destruct (fold_flow (group_step host) elems acc) as [a | a]; simpl in *.
    + destruct (is_empty (fst a)); [apply IH; exact H | exact H].
    + exact H.
Qed.

Lemma extractItemsFromNextData_items (host : Host) (P : Item -> Prop) :
  (forall acc lineItem, Forall P (fst acc) ->
     Forall P (fst (flow_acc (group_item_step host acc lineItem)))) ->
  (forall acc item, Forall P (fst acc) ->
     Forall P (fst (flow_acc (direct_item_step host acc item)))) ->
  forall nextData orderId, Forall P (extractItemsFromNextData host nextData orderId).
Proof.
  intros Hgroup Hdirect nextData orderId.
  unfold extractItemsFromNextData. cbv zeta.
  destruct (negb (truthy _)); [constructor |].
  pose proof (try_group_paths_items host P
                (possibleGroupPaths (path nextData ["props"; "pageProps"]))
                Hgroup ([], []) (Forall_nil _)) as H.
  destruct (try_group_paths host _ ([], [])) as [a | a]; simpl in H.
  - destruct (is_empty (fst a)); [| exact H].
    destruct (iterate _) as [l |]; [| exact H].
    apply fold_flow_items; [exact Hdirect | exact H].
  - exact H.
Qed.

Lemma fixed_price_truthy (host : Host) (price priceStr : JValue) :
  fixed_price host price = Some priceStr -> truthy priceStr = true.
Proof.
  unfold fixed_price. destruct price; try discriminate.
  intros H. injection H as <-. reflexivity.
Qed.

(** X20. Every item read from the structured data of a detail page has
    a name that is set, and an item whose price value is above 0 has a price
    text that is set. *)
Theorem structured_items_named_and_priced (host : Host) (nextData : JValue)
    (orderId : string) :
  Forall (fun it => truthy (name it) = true
                    /\ (gt0 host (priceValue it) = true -> truthy (price it) = true))
         (extractItemsFromNextData host nextData orderId).
Proof.
  apply extractItemsFromNextData_items.
  - intros acc lineItem Hacc. unfold group_item_step. cbv zeta.
    match goal with |- context [has (snd acc) ?n] => set (nm := n) end.
    destruct (truthy nm) eqn:Enm; cbn [negb orb]; [| exact Hacc].
    destruct (has (snd acc) nm); [exact Hacc |].
    destruct (group_price host lineItem _) as [value priceStr0].
    destruct (gt0 host value && negb (truthy priceStr0))%bool eqn:Eg.
    + destruct (fixed_price host value) as [priceStr |] eqn:Ef; [| exact Hacc].
      apply fixed_price_truthy in Ef.
      assert (H : forall q, Forall (fun it => truthy (name it) = true
                    /\ (gt0 host (priceValue it) = true -> truthy (price it) = true))
                    (fst acc ++ [{| name := nm; quantity := q; price := priceStr;
                                    priceValue := value |}])%list).
      { intros q. apply Forall_app. split; [exact Hacc |].
        constructor; [| constructor]. split; [exact Enm | intros _; exact Ef]. }
      destruct nm; apply H.
    + assert (H : forall q, Forall (fun it => truthy (name it) = true
                    /\ (gt0 host (priceValue it) = true -> truthy (price it) = true))
                    (fst acc ++ [{| name := nm; quantity := q; price := priceStr0;
                                    priceValue := value |}])%list).
      { intros q. apply Forall_app. split; [exact Hacc |].
        constructor; [| constructor]. split; [exact Enm |]. cbn. intros Hg.
        rewrite Hg in Eg. cbn in Eg. now apply negb_false_iff in Eg. }
      destruct nm; apply H.
  - intros acc item Hacc. unfold direct_item_step. cbv zeta.
    match goal with |- context [has (snd acc) ?n] => set (nm := n) end.
    destruct (truthy nm) eqn:Enm; cbn [negb orb]; [| exact Hacc].
    destruct (has (snd acc) nm); [exact Hacc |].
    destruct (gt0 host (direct_price item)) eqn:Eg.
    + destruct (fixed_price host (direct_price item)) as [priceStr |] eqn:Ef;
        [| exact Hacc].
      apply fixed_price_truthy in Ef.
      cbn [flow_acc fst]. apply Forall_app. split; [exact Hacc |].
      constructor; [| constructor]. split; [exact Enm | intros _; exact Ef].
    + cbn [flow_acc fst]. apply Forall_app. split; [exact Hacc |].
      constructor; [| constructor]. split; [exact Enm |]. cbn. congruence.
Qed.

(** ** Dates that are already labels *)

Lemma search_hit (ci : bool) (r : re) (a : list ascii) :
  forall l n,
  m ci r {| pos := n + List.length a; rest := l; caps := [] |} Some <> None ->
  search ci r n (a ++ l) <> None.
Proof.
  induction a as [| x a IH]; intros l n H.
  - cbn [app List.length] in *. rewrite Nat.add_0_r in H.
    destruct l; cbn [search];
      destruct (m ci r _ Some); congruence.
  - cbn [app search].
    destruct (m ci r {| pos := n; rest := x :: (a ++ l)%list; caps := [] |} Some);
      [discriminate |].
    apply IH. cbn [List.length] in H. now rewrite Nat.add_succ_r in H.
Qed.

(** X21. [formatDate] gives [Unknown] for a date that is not set and
    hands back unchanged a text that has a letter in it, such as a date
    already written as a label. *)
Theorem formatDate_keeps_labels (host : Host) :
  (forall dateValue, truthy dateValue = false ->
     formatDate host dateValue = "Unknown")
  /\ (forall s c, In c (chars s) -> (is_lower c || is_upper c)%bool = true ->
        formatDate host (JStr s) = s).
Proof.
  split.
  - intros v Hv. unfold formatDate. now rewrite Hv.
  - intros s c Hin Hc. unfold formatDate.
    assert (Hne : truthy (JStr s) = true).
    { destruct s; [destruct Hin | reflexivity]. }
    rewrite Hne. cbn [negb].
    assert (Ht : test false letter_re s = true).
    { unfold test, exec.
      destruct (in_split _ _ Hin) as [a [l Hs]].
      pose proof (search_hit false letter_re a (c :: l) 0) as S.
      unfold chars in Hs. fold (chars s) in Hs. rewrite Hs.
      destruct (search false letter_re 0 (a ++ c :: l)) as [[st cur] |];
        [reflexivity |].
      exfalso. apply S; [| reflexivity].
      cbn [m letter_re rest]. rewrite Hc. discriminate. }
    now rewrite Ht.
Qed.

(** ** What the id patterns capture *)

Lemma advance_0 (c : cursor) : advance 0 c = c.
Proof. destruct c as [p l cs]. unfold advance. cbn. now rewrite Nat.add_0_r. Qed.

Lemma advance_S (n : nat) (c : cursor) (x : ascii) (l : list ascii) :
  rest c = x :: l -> advance n (advance 1 c) = advance (S n) c.
Proof.
  intros H. unfold advance. cbn [pos rest caps]. rewrite H. cbn [skipn].
  f_equal. lia.
Qed.

Lemma m_cls (ci : bool) (p : ascii -> bool) (c : cursor)
    (k : cursor -> option cursor) :
  m ci (Cls p) c k =
  match rest c with
  | x :: _ => if p x then k (advance 1 c) else None
  | [] => None
  end.
Proof. reflexivity. Qed.

Lemma m_seq (ci : bool) (a b : re) (c : cursor) (k : cursor -> option cursor) :
  m ci (Seq a b) c k = m ci a c (fun c' => m ci b c' k).
Proof. reflexivity. Qed.

Lemma m_lit (ci : bool) (s : string) (c : cursor) (k : cursor -> option cursor) :
  m ci (Lit s) c k =
  if lit_ok ci (chars s) (rest c) then k (advance (String.length s) c) else None.
Proof. reflexivity. Qed.

Lemma m_grp_plus (ci : bool) (n : nat) (p : ascii -> bool) (c : cursor)
    (k : cursor -> option cursor) :
  m ci (Grp n (plus (Cls p))) c k =
  rep_loop (1 + List.length (rest c) + 1) (m ci (Cls p)) 1 None c
           (fun c' => k (set_cap n c c')).
Proof. reflexivity. Qed.

(** A greedy run of one character class without an upper bound: what
    follows it starts after [n] characters of the class, [n] at least the
    lower bound. *)
Lemma rep_class (ci : bool) (p : ascii -> bool) (fuel : nat) :
  forall lo c k res,
  rep_loop fuel (m ci (Cls p)) lo None c k = Some res ->
  exists n,
    lo <= n /\ List.length (firstn n (rest c)) = n
    /\ Forall (fun x => p x = true) (firstn n (rest c))
    /\ k (advance n c) = Some res.
Proof.
  assert (Hzero : forall lo c (k : cursor -> option cursor) res,
            (if Nat.eqb lo 0 then k c else None) = Some res ->
            exists n, lo <= n /\ List.length (firstn n (rest c)) = n
              /\ Forall (fun x => p x = true) (firstn n (rest c))
              /\ k (advance n c) = Some res).
  { intros lo c k res H. destruct (Nat.eqb lo 0) eqn:E; [| discriminate].
    apply Nat.eqb_eq in E. subst lo. exists 0. rewrite advance_0.
    split; [lia |]. split; [reflexivity |]. split; [constructor | exact H]. }
  induction fuel as [| fuel IH]; intros lo c k res H; cbn [rep_loop] in H.
  - now apply Hzero.
  - cbn [hi_zero hi_pred] in H. rewrite m_cls in H.
    destruct (rest c) as [| x l] eqn:Erest.
    + destruct (Hzero lo c k res H) as [n Hn]. rewrite Erest in Hn.
      exists n. exact Hn.
    + destruct (p x) eqn:Epx.
      * destruct (Nat.eqb lo 0 && (pos (advance 1 c) <=? pos c))%bool eqn:Eback.
        -- destruct (Hzero lo c k res H) as [n Hn]. rewrite Erest in Hn.
           exists n. exact Hn.
        -- destruct (rep_loop fuel (m ci (Cls p)) (Nat.pred lo) None
                       (advance 1 c) k) as [res' |] eqn:Eloop.
           ++ injection H as <-.
              destruct (IH _ _ _ _ Eloop) as [n [Hlo [Hlen [Hall Hk]]]].
              exists (S n).
              assert (Hr : rest (advance 1 c) = l).
              { unfold advance. cbn [rest]. now rewrite Erest. }
              rewrite Hr in Hlen, Hall.
              rewrite (advance_S n c x l Erest) in Hk.
              cbn [firstn List.length].
              split; [lia |]. split; [now rewrite Hlen |].
              split; [constructor; assumption | exact Hk].
           ++ destruct (Hzero lo c k res H) as [n Hn]. rewrite Erest in Hn.
              exists n. exact Hn.
      * destruct (Hzero lo c k res H) as [n Hn]. rewrite Erest in Hn.
        exists n. exact Hn.
Qed.

(** Matching a pattern without the group [g] leaves that group as it was
    when what follows the pattern starts. *)
Lemma rep_keeps_group (g : nat) (step : cursor -> (cursor -> option cursor) -> option cursor) :
  (forall c k res, step c k = Some res ->
     exists c', k c' = Some res /\ cap_lookup g (caps c') = cap_lookup g (caps c)) ->
  forall fuel lo hi c k res,
  rep_loop fuel step lo hi c k = Some res ->
  exists c', k c' = Some res /\ cap_lookup g (caps c') = cap_lookup g (caps c).
Proof.
  intros Hstep.
  assert (Hzero : forall lo c (k : cursor -> option cursor) res,
            (if Nat.eqb lo 0 then k c else None) = Some res ->
            exists c', k c' = Some res
                       /\ cap_lookup g (caps c') = cap_lookup g (caps c)).
  { intros lo c k res H. destruct (Nat.eqb lo 0); [| discriminate].
    exists c. split; [exact H | reflexivity]. }
  induction fuel as [| fuel IH]; intros lo hi c k res H; cbn [rep_loop] in H.
  - now apply Hzero with (lo := lo).
  - destruct (hi_zero hi); [exists c; split; [exact H | reflexivity] |].
    match type of H with
    | match step c ?k' with _ => _ end = _ =>
        destruct (step c k') as [res' |] eqn:Estep
    end.
    + injection H as <-.
      destruct (Hstep _ _ _ Estep) as [c1 [Hk1 Hc1]].
      destruct (Nat.eqb lo 0 && (pos c1 <=? pos c))%bool; [discriminate |].
      destruct (IH _ _ _ _ _ Hk1) as [c2 [Hk2 Hc2]].
      exists c2. split; [exact Hk2 | congruence].
    + now apply Hzero with (lo := lo).
Qed.

Lemma m_keeps_group (ci : bool) (g : nat) (r : re) :
  no_group g r = true ->
  forall c k res, m ci r c k = Some res ->
  exists c', k c' = Some res /\ cap_lookup g (caps c') = cap_lookup g (caps c).
Proof.
  induction r as [| s | p | a IHa b IHb | a IHa b IHb | lo hi a IHa | | | n a IHa];
    intros Hno c k res H; cbn [m] in H; cbn [no_group] in Hno.
  - exists c. split; [exact H | reflexivity].
  - destruct (lit_ok ci (chars s) (rest c)); [| discriminate].
    eexists. split; [exact H | reflexivity].
  - destruct (rest c) as [| x l]; [discriminate |].
    destruct (p x); [| discriminate].
    eexists. split; [exact H | reflexivity].
  - apply andb_true_iff in Hno. destruct Hno as [Ha Hb].
    destruct (IHa Ha _ _ _ H) as [c1 [H1 E1]].
    destruct (IHb Hb _ _ _ H1) as [c2 [H2 E2]].
    exists c2. split; [exact H2 | congruence].
  - apply andb_true_iff in Hno. destruct Hno as [Ha Hb].
    destruct (m ci a c k) as [res' |] eqn:Ea.
    + injection H as <-. exact (IHa Ha _ _ _ Ea).
    + exact (IHb Hb _ _ _ H).
  - exact (rep_keeps_group g (m ci a) (IHa Hno) _ _ _ _ _ _ H).
  - destruct (Nat.eqb (pos c) 0); [| discriminate].
    exists c. split; [exact H | reflexivity].
  - destruct (rest c); [| discriminate].
    exists c. split; [exact H | reflexivity].
  - apply andb_true_iff in Hno. destruct Hno as [Hn Ha].
    destruct (IHa Ha _ _ _ H) as [c1 [H1 E1]].
    exists (set_cap n c c1). split; [exact H1 |].
    cbn [set_cap caps cap_lookup]. apply negb_true_iff in Hn. now rewrite Hn.
Qed.

Lemma search_matched (ci : bool) (r : re) (l : list ascii) :
  forall p st c,
  search ci r p l = Some (st, c) ->
  exists l', m ci r {| pos := st; rest := l'; caps := [] |} Some = Some c.
Proof.
  induction l as [| x l IH]; intros p st c H; cbn [search] in H.
  - destruct (m ci r {| pos := p; rest := []; caps := [] |} Some) as [c' |] eqn:E;
      [| discriminate].
    injection H as <- <-. exists []. exact E.
  - destruct (m ci r {| pos := p; rest := x :: l; caps := [] |} Some) as [c' |] eqn:E.
    + injection H as <- <-. exists (x :: l). exact E.
    + exact (IH _ _ _ H).
Qed.

Lemma digits_firstn (n : nat) (l : list ascii) :
  1 <= n -> List.length (firstn n l) = n ->
  Forall (fun x => is_digit x = true) (firstn n l) ->
  digits (text (firstn n l)).
Proof.
  intros Hn Hlen Hall. split.
  - destruct (firstn n l) as [| x l'] eqn:E; [cbn in Hlen; lia |].
    cbn. discriminate.
  - unfold chars, text. now rewrite list_ascii_of_string_of_list_ascii.
Qed.

(** The three id patterns: [/orders/], the group of digits, and a tail
    without that group. *)
Lemma id_pattern_digits (tail : re) (s : string) (f : found) :
  no_group 1 tail = true ->
  exec false (Seq (Lit "/orders/") (Seq (Grp 1 (plus digit)) tail)) s = Some f ->
  digits (group1 f).
Proof.
  intros Hno H. unfold exec in H.
  destruct (search false _ 0 (chars s)) as [[st c] |] eqn:Es; [| discriminate].
  injection H as <-. unfold group1, group. cbn [f_caps].
  destruct (search_matched _ _ _ _ _ _ Es) as [l' Hm].
  rewrite m_seq, m_lit in Hm.
  destruct (lit_ok false (chars "/orders/") _); [| discriminate].
  unfold digit in Hm. rewrite m_seq, m_grp_plus in Hm.
  apply rep_class in Hm. destruct Hm as [n [Hn [Hlen [Hall Hk]]]].
  destruct (m_keeps_group false 1 tail Hno _ _ _ Hk) as [c' [Hc' Hcap]].
  injection Hc' as ->. rewrite Hcap.
  cbn [set_cap caps cap_lookup Nat.eqb].
  match goal with
  | |- digits (text (firstn ?d ?l)) =>
      replace d with n by (unfold advance; cbn [pos]; lia)
  end.
  apply digits_firstn; assumption.
Qed.

Lemma fold_left_keeps {A X : Type} (P : A -> Prop) (step : A -> X -> A) (l : list X) :
  (forall acc x, P acc -> P (step acc x)) ->
  forall acc, P acc -> P (fold_left step l acc).
Proof.
  intros Hstep. induction l as [| x l IH]; intros acc Hacc; cbn [fold_left].
  - exact Hacc.
  - apply IH, Hstep, Hacc.
Qed.

Lemma container_order_step_digits (host : Host) (acc : Collected) (container : Element) :
  Forall (fun o => digits (orderId o)) (fst acc) ->
  Forall (fun o => digits (orderId o)) (fst (container_order_step host acc container)).
Proof.
  intros Hacc. unfold container_order_step.
  destruct (find _ (links container)) as [orderLink |]; [| exact Hacc].
  destruct (exec false orders_id_re orderLink) as [mt |] eqn:Em; [| exact Hacc].
  cbv zeta. destruct (seen_id (snd acc) (group1 mt)); [exact Hacc |].
  destruct (container_date_status host (innerText container)) as [d st].
  cbn [fst]. apply Forall_app. split; [exact Hacc |].
  constructor; [| constructor]. cbn [list_order orderId].
  exact (id_pattern_digits Eps orderLink mt eq_refl Em).
Qed.

Lemma return_link_step_digits (host : Host) (acc : Collected) (returnLink : Anchor) :
  Forall (fun o => digits (orderId o)) (fst acc) ->
  Forall (fun o => digits (orderId o)) (fst (return_link_step host acc returnLink)).
Proof.
  intros Hacc. unfold return_link_step.
  destruct (exec false orders_returns_re (href returnLink)) as [mt |] eqn:Em;
    [| exact Hacc].
  cbv zeta. destruct (seen_id (snd acc) (group1 mt)); [exact Hacc |].
  destruct (legacy_date_status host _) as [d st].
  cbn [fst]. apply Forall_app. split; [exact Hacc |].
  constructor; [| constructor]. cbn [list_order orderId].
  exact (id_pattern_digits (Seq (Lit "/returns") Eps) (href returnLink) mt
           eq_refl Em).
Qed.

Lemma order_link_step_digits (orderMap : list OrderInfo.t) (link : Anchor) :
  Forall (fun i => digits (OrderInfo.orderId i)) orderMap ->
  Forall (fun i => digits (OrderInfo.orderId i)) (order_link_step orderMap link).
Proof.
  intros Hacc. unfold order_link_step.
  destruct (exec false orders_query_re (href link)) as [mt |] eqn:Em; [| exact Hacc].
  cbv zeta. destruct (_ || _)%bool; [| exact Hacc].
  apply Forall_forall. intros e He.
  destruct (map_set_In _ _ _ He) as [-> | Hold].
  - cbn [OrderInfo.orderId].
    exact (id_pattern_digits
             (Seq (opt (Grp 2 (seqs [chr "?"; star dot]))) Eps)
             (href link) mt eq_refl Em).
  - rewrite Forall_forall in Hacc. exact (Hacc e Hold).
Qed.

(** X22. Every order id read off a list page is a non-empty run of
    decimal digits: the ids of the orders the collector lists, and the ids
    of the links handed to the fallback. *)
Theorem page_order_ids_are_digits (host : Host) (page : ListPage) :
  Forall (fun o => digits (orderId o)) (extractOrderDataFromListPage host page)
  /\ Forall (fun i => digits (OrderInfo.orderId i)) (getOrderIdsFromPage page).
Proof.
  split.
  - unfold extractOrderDataFromListPage. cbv zeta.
    set (acc1 := fold_left (container_order_step host) _ ([], [])).
    assert (H1 : Forall (fun o => digits (orderId o)) (fst acc1)).
    { apply (fold_left_keeps (fun acc : Collected =>
               Forall (fun o => digits (orderId o)) (fst acc)));
        [apply container_order_step_digits | constructor]. }
    destruct (is_empty (fst acc1)); [| exact H1].
    apply (fold_left_keeps (fun acc : Collected =>
             Forall (fun o => digits (orderId o)) (fst acc)));
      [apply return_link_step_digits | exact H1].
  - unfold getOrderIdsFromPage.
    apply (fold_left_keeps (fun orderMap =>
             Forall (fun i => digits (OrderInfo.orderId i)) orderMap));
      [apply order_link_step_digits | constructor].
Qed.

(** ** Orders as the list page gives them *)










(** ** The properties on sample data *)

Lemma price_fetch_keeps_known_fields_witness :
  items (detailed Sample.host SampleEnrich.world
           (SampleShop.options "all" true true false) Sample2.groceries) <> []
  /\ orderDate (detailed Sample.host SampleEnrich.world
                  (SampleShop.options "all" true true false) Sample2.groceries) =
       "Oct 24, 2026"
  /\ total (detailed Sample.host SampleEnrich.world
              (SampleShop.options "all" true true false) Sample2.groceries) =
       JStr "$45.67"
  /\ subtotal (detailed Sample.host SampleEnrich.world
                 (SampleShop.options "all" true true false) Sample2.groceries) =
       JStr "$40.00".
Proof.
  destruct (price_fetch_keeps_known_fields Sample.host SampleEnrich.world
              (SampleShop.options "all" true true false) Sample2.groceries)
    as [_ [_ [_ [_ [_ [_ [Hitems [Hdate [_ [_ Htotal]]]]]]]]]].
  split; [apply Hitems; discriminate |].
  split; [apply Hdate; discriminate |].
  split; [apply Htotal; reflexivity | reflexivity].
Defined.

Lemma extractPrice_dollar_or_empty_witness :
  extractPrice Sample.host (JNum 0) = EmptyString
  /\ extractPrice Sample.host (JStr (extractPrice Sample.host (JStr "12.50"))) =
       extractPrice Sample.host (JStr "12.50").
Proof.
  split.
  - exact (proj1 (proj2 (extractPrice_dollar_or_empty Sample.host (JNum 0)))
             eq_refl).
  - exact (proj2 (proj2 (extractPrice_dollar_or_empty Sample.host (JStr "12.50")))).
Defined.

Lemma formatDate_keeps_labels_witness :
  formatDate Sample.host (JStr EmptyString) = "Unknown"
  /\ formatDate Sample.host (JStr "Jan 15, 2024") = "Jan 15, 2024".
Proof.
  split.
  - exact (proj1 (formatDate_keeps_labels Sample.host) (JStr EmptyString) eq_refl).
  - apply (proj2 (formatDate_keeps_labels Sample.host) "Jan 15, 2024" "J"%char);
      [now left | reflexivity].
Defined.
